(** * ynab-up-sync: a shallow embedding of the webhook reconciliation code

    The development follows the three TypeScript modules of the repository:
    - [up.ts]     the source-ledger (Up bank) client: [Transaction], [Account],
                  [Webhook], and the [Api] class with its webhook-signature check;
    - [ynab.ts]   the destination-ledger (YNAB) client with its two lazily
                  refreshed caches ([YnabCache]);
    - the Azure function module with the two HTTP handlers [webhook] and [init].

    Remote calls are modelled by an explicit trace of issued requests and an
    environment answering each request as a function of the requests issued so
    far; the handlers live in a state-and-exception monad over the destination
    client's caches and that trace. *)

From Stdlib Require Import ZArith Ascii String List Bool Lia.
From stdpp Require Import base option list strings pretty gmap fin_maps.

Local Open Scope Z_scope.
Local Open Scope string_scope.
Local Open Scope list_scope.

(** ** JavaScript values and strings *)

Module Js.

(** The values that occur as object properties in request payloads.  A
    finite number is modelled by the integer its decimal form denotes, the
    form [JSON.stringify] and [String] write; [nonfinite] is [NaN] or an
    infinity, which is not [null] but is written [null] by
    [JSON.stringify]. *)
#[warnings="-register-all"] Inductive value :=
| undefined
| null
| str (s : string)
| num (n : Z)
| nonfinite
| obj (fields : list (string * value)).

(** A JS object literal, as its own enumerable entries in insertion order. *)
Abbreviation object := (list (string * value)).

(** Truthiness of a string: every string but the empty one. *)
Definition truthy (s : string) : bool :=
  match s with EmptyString => false | _ => true end.

(** Truthiness of [string | null | undefined]. *)
Definition truthy_opt (o : option string) : bool :=
  match o with Some s => truthy s | None => false end.

(** *** Code units

    A JS string is a sequence of UTF-16 code units.  It is modelled by its
    UTF-8 bytes, a lone surrogate by the three bytes of its generalized
    UTF-8 form.  The lead byte of a character tells how many continuation
    bytes follow it, and how many code units the character takes: two for
    a character outside the basic plane (a four-byte sequence), one for
    every other. *)
Definition trail (c : ascii) : nat :=
  let b := nat_of_ascii c in
  if Nat.ltb b 192 then 0%nat
  else if Nat.ltb b 224 then 1%nat
  else if Nat.ltb b 240 then 2%nat
  else if Nat.ltb b 248 then 3%nat
  else 0%nat.

Definition units (c : ascii) : nat :=
  if Nat.eqb (trail c) 3 then 2%nat else 1%nat.

(** [str.length]: the number of code units; [skip] counts the continuation
    bytes of the current character still to be passed. *)
Fixpoint length_from (skip : nat) (s : string) : nat :=
  match s with
  | EmptyString => 0%nat
  | String c s' =>
      match skip with
      | S k => length_from k s'
      | O => (units c + length_from (trail c) s')%nat
      end
  end.

Definition length (s : string) : nat := length_from 0 s.

(** The high surrogate of the character whose four-byte sequence is the
    lead byte [c] followed by [s], as the three bytes of its generalized
    UTF-8 form: what is left of the character when a cut falls between its
    two code units. *)
Definition highSurrogate (c : ascii) (s : string) : string :=
  let byte (o : option ascii) : Z :=
    match o with Some a => Z.of_nat (nat_of_ascii a) | None => 128 end in
  let b0 := Z.of_nat (nat_of_ascii c) in
  let b1 := byte (String.get 0 s) in
  let b2 := byte (String.get 1 s) in
  let point := (b0 mod 8) * 262144 + (b1 mod 64) * 4096 + (b2 mod 64) * 64 in
  let high := 55296 + (point - 65536) / 1024 in
  String (ascii_of_nat 237)
    (String (ascii_of_nat (Z.to_nat (128 + (high / 64) mod 64)))
       (String (ascii_of_nat (Z.to_nat (128 + high mod 64))) EmptyString)).

(** The first [n] code units of [s]; [skip] counts the continuation bytes
    of the current character still to be copied. *)
Fixpoint slice_from (skip n : nat) (s : string) : string :=
  match s with
  | EmptyString => EmptyString
  | String c s' =>
      match skip with
      | S k => String c (slice_from k n s')
      | O =>
          if Nat.leb (units c) n
          then String c (slice_from (trail c) (n - units c) s')
          else match n with
               | O => EmptyString
               | S _ => highSurrogate c s'
               end
      end
  end.

(** [str.slice(0, n)] and [str.substring(0, n)] for [n >= 0]. *)
Definition slice0 (n : nat) (s : string) : string := slice_from 0 n s.

(** [s.startsWith(p)]. *)
Fixpoint startsWith (p s : string) : bool :=
  match p, s with
  | EmptyString, _ => true
  | String a p', String b s' => if Ascii.eqb a b then startsWith p' s' else false
  | String _ _, EmptyString => false
  end.

(** [s.replaceAll(pat, rep)] for a non-empty string pattern: scan from the
    left; at a position where [pat] occurs emit [rep] and resume after the
    occurrence, otherwise copy the character.  [skip] counts the characters
    of a matched occurrence still to be dropped. *)
Fixpoint replaceAll_from (pat rep : string) (skip : nat) (s : string) : string :=
  match s with
  | EmptyString => EmptyString
  | String c s' =>
      match skip with
      | S k => replaceAll_from pat rep k s'
      | O =>
          if startsWith pat s
          then rep +:+ replaceAll_from pat rep (Nat.pred (String.length pat)) s'
          else String c (replaceAll_from pat rep O s')
      end
  end.

Definition replaceAll (pat rep s : string) : string :=
  replaceAll_from pat rep O s.

(** [value != null && value !== ""], the predicate of [removeEmptyProperties]. *)
Definition nonEmpty (v : value) : bool :=
  match v with
  | undefined | null => false
  | str s => truthy s
  | num _ | nonfinite | obj _ => true
  end.

(** [o[k]] on the entries of an object. *)
Fixpoint get (k : string) (o : object) : value :=
  match o with
  | [] => undefined
  | (k', v) :: o' => if String.eqb k k' then v else get k o'
  end.

(** *** Numbers

    A JS number is an IEEE 754 double.  The code computes with integers
    only. *)

(** The double nearest to the integer [z], ties to the even significand,
    with the exponent range left open: below 2^53 every integer is a
    double, above it the doubles are [u] apart, [u] the power of two that
    leaves 53 significant bits. *)
Definition roundToDouble (z : Z) : Z :=
  let m := Z.abs z in
  if Z.ltb m 9007199254740992 then z
  else
    let u := 2 ^ (Z.log2 m - 52) in
    let q := m / u in
    let r := m mod u in
    let q' := if Z.ltb (2 * r) u then q
              else if Z.ltb u (2 * r) then q + 1
              else if Z.even q then q else q + 1 in
    Z.sgn z * (q' * u).

(** A rounded magnitude that no finite double has. *)
Definition overflows (z : Z) : bool := Z.leb (2 ^ 1024) (Z.abs z).

(** The multiple of [10^e] nearest to [x] among the two around it that
    round to the double [x], if one does. *)
Definition decimalAt (e x : Z) : option Z :=
  let p := 10 ^ e in
  let lo := x / p * p in
  let hi := lo + p in
  match Z.eqb (roundToDouble lo) x, Z.eqb (roundToDouble hi) x with
  | true, true =>
      if Z.ltb (x - lo) (hi - x) then Some lo
      else if Z.ltb (hi - x) (x - lo) then Some hi
      else if Z.even (lo / p) then Some lo else Some hi
  | true, false => Some lo
  | false, true => Some hi
  | false, false => None
  end.

(** The decimal with the fewest significant digits that rounds to the
    double [x], searched from [e] trailing zeros on. *)
Fixpoint shortest (fuel : nat) (e x best : Z) : Z :=
  match fuel with
  | O => best
  | S fuel' =>
      match decimalAt e x with
      | Some c => shortest fuel' (e + 1) x c
      | None => best
      end
  end.

(** The integer that the decimal form of the integer-valued double [x]
    denotes ([Number::toString]): [x] itself below 2^53, above it the
    decimal with the fewest significant digits that still rounds to [x]. *)
Definition written (x : Z) : Z :=
  if Z.ltb (Z.abs x) 9007199254740992 then x
  else Z.sgn x * shortest 330 1 (Z.abs x) (Z.abs x).

(** [a * b] on numbers. *)
Definition times (a b : Z) : value :=
  let a' := roundToDouble a in
  let b' := roundToDouble b in
  if overflows a' || overflows b' then nonfinite
  else
    let p := roundToDouble (a' * b') in
    if overflows p then nonfinite else num (written p).
Arguments times : simpl never.

(** A JS [Date]: a time value in milliseconds since the epoch, or the
    Invalid Date that [new Date(NaN)] builds. *)
Inductive Date :=
| ValidDate (ms : Z)
| InvalidDate.

(** [a < b] on dates compares the time values; with NaN it is false. *)
Definition date_lt (a b : Date) : bool :=
  match a, b with
  | ValidDate x, ValidDate y => Z.ltb x y
  | _, _ => false
  end.

End Js.

(** ** The JavaScript runtime

    Library functions the code calls and that are not part of the repository:
    the HMAC primitive, the locale formatting of dates, the local time
    zone, the JSON and URL parsers.  They are parameters of the whole
    development. *)

(** What [webhook] reads off [JSON.parse(body)]:
    [json.data.attributes.eventType] and, in the transaction branch only,
    [json.data.relationships.transaction.data.id] as the template of
    [getTransaction] spells it: [None] when the access throws because
    [relationships], [transaction] or [data] is missing; the string
    "undefined" when [data] is there and has no [id]. *)
Record WebhookEvent := {
  eventType : string;
  transactionId : option string;
}.

Record Runtime := {
  (** [createHmac("sha256", key).update(body).digest("hex")] *)
  hmacSha256Hex : string -> string -> string;
  (** [date.toTimeString()] *)
  toTimeString : Js.Date -> string;
  (** [date.toLocaleDateString("sv")] *)
  toLocaleDateString : Js.Date -> string;
  (** [JSON.parse(body)] followed by the property accesses of [webhook];
      [None] when parsing or [json.data.attributes] throws. *)
  parseEvent : string -> option WebhookEvent;
  (** [u = new URL(base); u.searchParams.set("account", a); u.toString()];
      [None] when [base] is not a URL and the constructor throws. *)
  urlWithAccount : string -> string -> option string;
  (** [LocalTZA(t, isUTC)]: the offset of local time from UTC in
      milliseconds, at the UTC time value [t] when [isUTC] is set and at
      the local time value [t] otherwise. *)
  localTZA : Z -> bool -> Z;
}.

(** ** [up.ts]: the source ledger *)

Module up.

Module TransactionAmount.
Record t := {
  currencyCode : string;
  value : string;
  valueInBaseUnits : Z;
}.
End TransactionAmount.

Module Transaction.
(** Fields as the constructor leaves them; [transferAccount] is
    [data.relationships.transferAccount.data?.id || null]. *)
Record t := {
  id : string;
  accountId : string;
  createdAt : Js.Date;
  isSettled : bool;
  description : string;
  amount : TransactionAmount.t;
  message : option string;
  foreignAmount : option TransactionAmount.t;
  transferAccount : option string;
}.
End Transaction.

Module Webhook.
Record t := {
  id : string;
  url : string;
  description : string;
  createdAt : Js.Date;
  secretKey : option string;
}.
End Webhook.

Module Account.
(** [type] and [ownershipType] are whatever strings the server sent. *)
Record t := {
  id : string;
  type : string;
  name : string;
  ownershipType : string;
}.
End Account.

Module Api.
Record t := {
  apiKey : string;
  webhookSecret : string;
}.

(** [constructor(apiKey: string = "", webhookSecret: string = "")] *)
Definition new (apiKey webhookSecret : option string) : t :=
  {| apiKey := default "" apiKey; webhookSecret := default "" webhookSecret |}.

Definition baseUrl : string := "https://api.up.com.au/api/v1/".

(** [fullUrl(endpoint)] with the default empty query. *)
Definition fullUrl (endpoint : string) : string :=
  baseUrl +:+ "/" +:+ endpoint +:+ "?".

Definition validateWebhookSignature (rt : Runtime) (self : t)
    (body : string) (signature : option string) : bool :=
  if negb (Js.truthy_opt signature) || negb (Js.truthy (webhookSecret self))
  then false
  else
    let calculatedSignature := hmacSha256Hex rt (webhookSecret self) body in
    bool_decide (Some calculatedSignature = signature).
End Api.

End up.

(** ** [ynab.ts]: the destination ledger, data and pure helpers *)

Module ynab.

(** [removeEmptyProperties]: keep the entries whose value is neither
    null/undefined nor the empty string. *)
Definition removeEmptyProperties (data : Js.object) : Js.object :=
  List.filter (fun kv => Js.nonEmpty (snd kv)) data.

Definition msPerDay : Z := 86400000.

(** [LocalTime(t)] and [UTC(t)] *)
Definition localTime (rt : Runtime) (t : Z) : Z := t + localTZA rt t true.
Definition utc (rt : Runtime) (t : Z) : Z := t - localTZA rt t false.

(** [date.setDate(date.getDate() + days)]: in local time, the day of the
    month moves by [days] and the time within the day stays; a day of the
    month outside the month carries into the neighbouring months, so the
    local time value moves by [days] whole days. *)
Definition addDays (rt : Runtime) (t : Z) (days : Z) : Z :=
  utc rt (localTime rt t + days * msPerDay).

(** [date.setHours(0, 0, 0, 0)]: the start of the local day of [t]. *)
Definition startOfDay (rt : Runtime) (t : Z) : Z :=
  utc rt (localTime rt t / msPerDay * msPerDay).

(** [todayOffset(days)] with [startOfDay = true], at clock reading [now]. *)
Definition todayOffset (rt : Runtime) (now : Z) (days : Z) : Js.Date :=
  let date := now in
  let date := addDays rt date days in
  let date := startOfDay rt date in
  Js.ValidDate date.

Module AccountType.
Inductive t :=
| Checking | Savings | Cash | CreditCard | LineOfCredit | OtherAsset
| OtherLiability | Mortgage | AutoLoan | StudentLoan | PersonalLoan
| MedicalDebt | OtherDebt.

Definition toString (x : t) : string :=
  match x with
  | Checking => "checking"
  | Savings => "savings"
  | Cash => "cash"
  | CreditCard => "creditCard"
  | LineOfCredit => "lineOfCredit"
  | OtherAsset => "otherAsset"
  | OtherLiability => "otherLiability"
  | Mortgage => "mortgage"
  | AutoLoan => "autoLoan"
  | StudentLoan => "studentLoan"
  | PersonalLoan => "personalLoan"
  | MedicalDebt => "medicalDebt"
  | OtherDebt => "otherDebt"
  end.
End AccountType.

(** [ynab.Transaction] is only ever built as an object literal and sent;
    it is kept as its entries. *)
Abbreviation Transaction := Js.object.

Module TransactionIds.
Record t := {
  id : string;
  transfer_transaction_id : option string;
}.
End TransactionIds.

Module Account.
Record t := {
  id : string;
  payeeId : string;
}.
End Account.

(** One element of [data.transactions] in the server's listing. *)
Module TransactionJson.
Record t := {
  id : string;
  transfer_transaction_id : option string;
  import_id : option string;
}.
End TransactionJson.

(** One element of [data.accounts] in the server's listing. *)
Module AccountJson.
Record t := {
  id : string;
  transfer_payee_id : string;
  note : option string;
}.
End AccountJson.

(** [class YnabCache<T> extends Map<string, T>] *)
Module YnabCache.
Record t (T : Type) := {
  entries : gmap string T;
  lastKnowledgeOfServer : Z;
  sinceDate : option Js.Date;
}.
Arguments entries {T} _.
Arguments lastKnowledgeOfServer {T} _.
Arguments sinceDate {T} _.

Definition new {T} : t T :=
  {| entries := ∅; lastKnowledgeOfServer := 0; sinceDate := None |}.

Definition has {T} (c : t T) (k : string) : bool :=
  bool_decide (is_Some (entries c !! k)).

Definition get {T} (c : t T) (k : string) : option T := entries c !! k.

Definition set {T} (k : string) (v : T) (c : t T) : t T :=
  {| entries := <[k := v]> (entries c);
     lastKnowledgeOfServer := lastKnowledgeOfServer c;
     sinceDate := sinceDate c |}.

Definition setCursor {T} (knowledge : Z) (since : option Js.Date) (c : t T) : t T :=
  {| entries := entries c;
     lastKnowledgeOfServer := knowledge;
     sinceDate := since |}.
End YnabCache.

(** The private state of [class Api]: its two caches. *)
Module Api.
Record t := {
  accounts : YnabCache.t Account.t;
  transactions : YnabCache.t TransactionIds.t;
}.

Definition new : t :=
  {| accounts := YnabCache.new; transactions := YnabCache.new |}.
End Api.

(** *** The note tag [/upId:([a-f0-9-]{36}\b)/i] *)

Definition lower (c : ascii) : ascii :=
  let n := nat_of_ascii c in
  if (Nat.leb 65 n && Nat.leb n 90)%bool then ascii_of_nat (n + 32) else c.

Definition isDigit (c : ascii) : bool :=
  let n := nat_of_ascii c in (Nat.leb 48 n && Nat.leb n 57)%bool.

(** [[a-f0-9-]] under the [i] flag. *)
Definition isIdChar (c : ascii) : bool :=
  let n := nat_of_ascii (lower c) in
  (isDigit c || (Nat.leb 97 n && Nat.leb n 102) || Nat.eqb n 45)%bool.

(** [\w] *)
Definition isWordChar (c : ascii) : bool :=
  let n := nat_of_ascii (lower c) in
  (isDigit c || (Nat.leb 97 n && Nat.leb n 122) || Nat.eqb n 95)%bool.

Fixpoint string_forall (p : ascii -> bool) (s : string) : bool :=
  match s with
  | EmptyString => true
  | String c s' => (p c && string_forall p s')%bool
  end.

Fixpoint string_map (f : ascii -> ascii) (s : string) : string :=
  match s with
  | EmptyString => EmptyString
  | String c s' => String (f c) (string_map f s')
  end.

(** The pattern matches ASCII characters only, each a single byte and a
    single code unit: the match is read off the bytes. *)
Fixpoint string_take (n : nat) (s : string) : string :=
  match n, s with
  | S n', String c s' => String c (string_take n' s')
  | _, _ => EmptyString
  end.

Fixpoint string_drop (n : nat) (s : string) : string :=
  match n, s with
  | S n', String _ s' => string_drop n' s'
  | _, _ => s
  end.

Fixpoint string_last (s : string) : option ascii :=
  match s with
  | EmptyString => None
  | String c EmptyString => Some c
  | String _ s' => string_last s'
  end.

Definition string_head (s : string) : option ascii :=
  match s with EmptyString => None | String c _ => Some c end.

Definition isWord (o : option ascii) : bool :=
  match o with Some c => isWordChar c | None => false end.

(** The regular expression anchored at the start of [s]: the tag, 36
    identifier characters, then a word boundary.  Returns group 1. *)
Definition matchUpIdHere (s : string) : option string :=
  if Js.startsWith "upid:" (string_map lower (string_take 5 s)) then
    let group := string_take 36 (string_drop 5 s) in
    let next := string_head (string_drop 41 s) in
    if (Nat.eqb (String.length group) 36 && string_forall isIdChar group
        && xorb (isWord (string_last group)) (isWord next))%bool
    then Some group else None
  else None.

(** [note.match(/upId:([a-f0-9-]{36}\b)/i)]: the leftmost match, group 1. *)
Fixpoint matchUpId (s : string) : option string :=
  match matchUpIdHere s with
  | Some g => Some g
  | None => match s with
            | EmptyString => None
            | String _ s' => matchUpId s'
            end
  end.

End ynab.

(** The idempotency key of [webhook], line 248:
    [`up:${upTransaction.id.replaceAll("-", "")}`]. *)
Definition importId (id : string) : string :=
  "up:" +:+ Js.replaceAll "-" "" id.

(** ** Remote calls, the environment and the handler monad *)

(** A request handed to the global [fetch].  A source-ledger request is
    identified by its bearer key, method, URL and JSON body; a
    destination-ledger request by method, endpoint, query and JSON body (its
    key and budget are fixed when the module is loaded). *)
Inductive Call :=
| UpFetch (apiKey : string) (method url : string) (payload : option Js.value)
| YnabFetch (method endpoint : string) (query : Js.object) (payload : option Js.value).

(** The outcome of a request: a failure (network error or a status that is
    not ok, on which the client throws) or the decoded JSON body, kept at the
    shapes the code reads. *)
Inductive Reply :=
| Failed
| UpTransactionData (data : up.Transaction.t)
| UpAccountData (data : up.Account.t)
| UpWebhookPage (data : list up.Webhook.t) (next : option string)
| UpWebhookData (data : up.Webhook.t)
| YnabTransactions (transactions : list ynab.TransactionJson.t) (server_knowledge : Z)
| YnabAccounts (accounts : list ynab.AccountJson.t) (server_knowledge : Z)
| YnabAccountData (id transfer_payee_id : string)
| YnabTransactionData (data : ynab.TransactionJson.t)
| OtherJson.

(** Everything outside the process: the two ledgers answer a request as a
    function of the requests issued before it, the clock is read the same
    way, and [process.env] is fixed. *)
Record Remote := {
  respond : list Call -> Call -> Reply;
  clock : list Call -> Z;
  processEnv : string -> option string;
}.

(** The mutable state of the process: the destination client with its two
    caches, and the requests issued so far. *)
Record World := {
  ynabApi : ynab.Api.t;
  trace : list Call;
}.

Definition World_init : World :=
  {| ynabApi := ynab.Api.new; trace := [] |}.

Inductive Abort :=
| Thrown        (* an exception leaves the async function *)
| OutOfFuel.    (* a loop of the model ran out of fuel *)

Inductive Result (A : Type) :=
| Ok (a : A)
| Stop (why : Abort).
Arguments Ok {A} a.
Arguments Stop {A} why.

Definition M (A : Type) : Type := World -> Result A * World.

Definition ret {A} (a : A) : M A := fun w => (Ok a, w).

Definition bind {A B} (m : M A) (k : A -> M B) : M B :=
  fun w => match m w with
           | (Ok a, w') => k a w'
           | (Stop e, w') => (Stop e, w')
           end.

Definition throw {A} : M A := fun w => (Stop Thrown, w).
Definition exhausted {A} : M A := fun w => (Stop OutOfFuel, w).

(** Sequencing uses stdpp's monad notations [x ← m; k] and [m;; k]. *)
#[global] Instance M_ret : MRet M := @ret.
#[global] Instance M_bind : MBind M := fun A B k m => bind m k.

(** [try { m } catch (e) { h }] *)
Definition try_catch {A} (m h : M A) : M A :=
  fun w => match m w with
           | (Stop Thrown, w') => h w'
           | r => r
           end.

(** Calling an async function without [await]: its body runs up to the
    request it issues; its result, or its rejection, is never observed. *)
Definition unawaited {A} (m : M A) : M unit :=
  fun w => (Ok tt, snd (m w)).

Definition getApi : M ynab.Api.t := fun w => (Ok (ynabApi w), w).

Definition setAccounts (c : ynab.YnabCache.t ynab.Account.t) : M unit :=
  fun w => (Ok tt,
            {| ynabApi := {| ynab.Api.accounts := c;
                             ynab.Api.transactions := ynab.Api.transactions (ynabApi w) |};
               trace := trace w |}).

Definition setTransactions (c : ynab.YnabCache.t ynab.TransactionIds.t) : M unit :=
  fun w => (Ok tt,
            {| ynabApi := {| ynab.Api.accounts := ynab.Api.accounts (ynabApi w);
                             ynab.Api.transactions := c |};
               trace := trace w |}).

(** The world after request [c] has been issued. *)
Definition issue (c : Call) (w : World) : World :=
  {| ynabApi := ynabApi w; trace := trace w ++ [c] |}.

(** The global [fetch] followed by [resp.json()]: record the request, let
    the environment answer. *)
Definition fetchJson (remote : Remote) (c : Call) : M Reply :=
  fun w => (Ok (respond remote (trace w) c), issue c w).

(** [new Date()] *)
Definition now (remote : Remote) : M Z :=
  fun w => (Ok (clock remote (trace w)), w).

(** [for (const x of xs) { await f(x) }] *)
Fixpoint forEach {A} (f : A -> M unit) (xs : list A) : M unit :=
  match xs with
  | [] => mret tt
  | x :: xs' => f x;; forEach f xs'
  end.

(** ** [up.ts]: the methods of [Api] *)

Module UpApi.
Section Methods.
Context (remote : Remote).
Import up.Api.

(** The [headers] getter. *)
Definition headers (self : up.Api.t) : M unit :=
  if Js.truthy (apiKey self) then mret tt else throw.

Definition fetchUrl (self : up.Api.t) (method url : string)
    (payload : option Js.value) : M Reply :=
  headers self;;
  resp ← fetchJson remote (UpFetch (apiKey self) method url payload);
  match resp with
  | Failed => throw
  | json => mret json
  end.

Definition fetch (self : up.Api.t) (method endpoint : string)
    (payload : option Js.value) : M Reply :=
  fetchUrl self method (fullUrl endpoint) payload.

Definition delete (self : up.Api.t) (endpoint : string) : M Reply :=
  fetch self "delete" endpoint None.

Definition get (self : up.Api.t) (endpoint : string) : M Reply :=
  fetch self "get" endpoint None.

Definition post (self : up.Api.t) (endpoint : string) (payload : Js.value) : M Reply :=
  fetch self "post" endpoint (Some payload).

(** The loop of [getAllPages]; [fuel] bounds the number of pages read. *)
Fixpoint getAllPages_loop (fuel : nat) (self : up.Api.t)
    (data : list up.Webhook.t) (nextLink : option string) : M (list up.Webhook.t) :=
  match nextLink with
  | Some link =>
      if Js.truthy link then
        match fuel with
        | O => exhausted
        | S fuel' =>
            json ← fetchUrl self "get" link None;
            match json with
            | UpWebhookPage items next => getAllPages_loop fuel' self (data ++ items) next
            | _ => throw
            end
        end
      else mret data
  | None => mret data
  end.

Definition getAllPages (fuel : nat) (self : up.Api.t) (endpoint : string)
  : M (list up.Webhook.t) :=
  getAllPages_loop fuel self [] (Some (fullUrl endpoint)).

Definition getTransaction (self : up.Api.t) (id : string) : M up.Transaction.t :=
  json ← get self ("transactions/" +:+ id);
  match json with
  | UpTransactionData data => mret data
  | _ => throw
  end.

Definition getAccount (self : up.Api.t) (id : string) : M up.Account.t :=
  json ← get self ("accounts/" +:+ id);
  match json with
  | UpAccountData data => mret data
  | _ => throw
  end.

Definition getWebhooks (fuel : nat) (self : up.Api.t) : M (list up.Webhook.t) :=
  getAllPages fuel self "webhooks".

Definition newWebhook (self : up.Api.t) (url description : string) : M up.Webhook.t :=
  let payload :=
    Js.obj [("data", Js.obj [("attributes",
      Js.obj [("url", Js.str url); ("description", Js.str description)])])] in
  json ← post self "webhooks" payload;
  match json with
  | UpWebhookData data => mret data
  | _ => throw
  end.

Definition deleteWebhook (self : up.Api.t) (id : string) : M unit :=
  delete self ("webhooks/" +:+ id);; mret tt.

End Methods.
End UpApi.

(** ** [ynab.ts]: the methods of [Api] *)

Module YnabApi.

(** A [getTransactionFromImportId] that awaits its listing (line 494): the
    locals it resumes with, and the reply it resumes on. *)
Module Awaiting.
Record t := {
  importId : string;
  syncFrom : Js.Date;
  json : Reply;
}.
End Awaiting.

Section Methods.
Context (rt : Runtime) (remote : Remote).
Import ynab.

Definition fetch (method endpoint : string) (query : Js.object)
    (payload : option Js.value) : M Reply :=
  resp ← fetchJson remote (YnabFetch method endpoint query payload);
  match resp with
  | Failed => throw
  | json => mret json
  end.

Definition get (endpoint : string) (query : Js.object) : M Reply :=
  fetch "get" endpoint query None.

Definition post (endpoint : string) (payload : Js.value) : M Reply :=
  fetch "post" endpoint [] (Some payload).

Definition put (endpoint : string) (payload : Js.value) : M Reply :=
  fetch "put" endpoint [] (Some payload).

(** Lines 483-487 of [getTransactionFromImportId]: the window start and the
    change token to query with, from the current window start, the
    remembered token and the caller's transaction date. *)
Definition syncWindow (syncFrom : Js.Date) (lastKnowledgeOfServer : Z)
    (transactionDate : option Js.Date) : Js.Date * Z :=
  match transactionDate with
  | Some date =>
      if Js.date_lt date syncFrom then (date, 0)
      else (syncFrom, lastKnowledgeOfServer)
  | None => (syncFrom, lastKnowledgeOfServer)
  end.

(** The loop over [data.transactions.filter(x => x.import_id)]. *)
Definition cacheTransactions (transactions : list TransactionJson.t)
    (cache : YnabCache.t TransactionIds.t) : YnabCache.t TransactionIds.t :=
  fold_left
    (fun cache transaction =>
       let ids := {| TransactionIds.id := TransactionJson.id transaction;
                     TransactionIds.transfer_transaction_id :=
                       TransactionJson.transfer_transaction_id transaction |} in
       YnabCache.set (default "" (TransactionJson.import_id transaction)) ids cache)
    (List.filter (fun x => Js.truthy_opt (TransactionJson.import_id x)) transactions)
    cache.

Definition getTransactionFromImportId (importId : string)
    (transactionDate : option Js.Date) : M (option TransactionIds.t) :=
  api ← getApi;
  let cache := Api.transactions api in
  (if negb (YnabCache.has cache importId) then
     syncFrom ← match YnabCache.sinceDate cache with
                | Some date => mret date
                | None => t ← now remote; mret (todayOffset rt t (-4))
                end;
     let '(syncFrom, lastKnowledgeOfServer) :=
       syncWindow syncFrom (YnabCache.lastKnowledgeOfServer cache) transactionDate in
     let query :=
       [("since_date", Js.str (toLocaleDateString rt syncFrom));
        ("last_knowledge_of_server", Js.num lastKnowledgeOfServer)] in
     json ← get "transactions" query;
     match json with
     | YnabTransactions transactions server_knowledge =>
         setTransactions
           (YnabCache.setCursor server_knowledge (Some syncFrom)
              (cacheTransactions transactions cache))
     | _ => throw
     end
   else mret tt);;
  api ← getApi;
  mret (YnabCache.get (Api.transactions api) importId).

(** [getTransactionFromImportId] up to its await, lines 476-494: the
    request is issued and the method suspends; [None] when the key is
    cached and nothing is awaited. *)
Definition refreshBegin (importId : string) (transactionDate : option Js.Date)
  : M (option Awaiting.t) :=
  api ← getApi;
  let cache := Api.transactions api in
  if negb (YnabCache.has cache importId) then
    syncFrom ← match YnabCache.sinceDate cache with
               | Some date => mret date
               | None => t ← now remote; mret (todayOffset rt t (-4))
               end;
    let '(syncFrom, lastKnowledgeOfServer) :=
      syncWindow syncFrom (YnabCache.lastKnowledgeOfServer cache) transactionDate in
    let query :=
      [("since_date", Js.str (toLocaleDateString rt syncFrom));
       ("last_knowledge_of_server", Js.num lastKnowledgeOfServer)] in
    json ← fetchJson remote (YnabFetch "get" "transactions" query None);
    mret (Some {| Awaiting.importId := importId;
                  Awaiting.syncFrom := syncFrom;
                  Awaiting.json := json |})
  else mret None.

(** [getTransactionFromImportId] from its await on, lines 494-505: the
    listing is written into the cache as it is by then, with the window
    start computed before the await. *)
Definition refreshEnd (awaiting : Awaiting.t) : M (option TransactionIds.t) :=
  match Awaiting.json awaiting with
  | YnabTransactions transactions server_knowledge =>
      api ← getApi;
      setTransactions
        (YnabCache.setCursor server_knowledge (Some (Awaiting.syncFrom awaiting))
           (cacheTransactions transactions (Api.transactions api)));;
      api ← getApi;
      mret (YnabCache.get (Api.transactions api) (Awaiting.importId awaiting))
  | _ => throw
  end.

(** The loop over [data.accounts]. *)
Definition cacheAccounts (accounts : list AccountJson.t)
    (cache : YnabCache.t Account.t) : YnabCache.t Account.t :=
  fold_left
    (fun cache account =>
       match AccountJson.note account ≫= matchUpId with
       | Some upId =>
           YnabCache.set upId
             {| Account.id := AccountJson.id account;
                Account.payeeId := AccountJson.transfer_payee_id account |} cache
       | None => cache
       end)
    accounts cache.

Definition getAccount (upAccountId : string) : M (option Account.t) :=
  api ← getApi;
  let cache := Api.accounts api in
  (if negb (YnabCache.has cache upAccountId) then
     let query :=
       [("last_knowledge_of_server", Js.num (YnabCache.lastKnowledgeOfServer cache))] in
     json ← get "accounts" query;
     match json with
     | YnabAccounts accounts server_knowledge =>
         setAccounts
           (YnabCache.setCursor server_knowledge (YnabCache.sinceDate cache)
              (cacheAccounts accounts cache))
     | _ => throw
     end
   else mret tt);;
  api ← getApi;
  mret (YnabCache.get (Api.accounts api) upAccountId).

(** [createAccount(name, type, upAccountId)] with the default [balance = 0]. *)
Definition createAccount (name : string) (type : AccountType.t)
    (upAccountId : string) : M Account.t :=
  let balance := 0 in
  let note := "upId:" +:+ upAccountId in
  let payload :=
    Js.obj [("account",
      Js.obj [("name", Js.str (Js.slice0 50 name));
              ("type", Js.str (AccountType.toString type));
              ("balance", Js.num balance);
              ("note", Js.str note)])] in
  json ← post "accounts" payload;
  match json with
  | YnabAccountData id transfer_payee_id =>
      let account := {| Account.id := id; Account.payeeId := transfer_payee_id |} in
      api ← getApi;
      setAccounts (YnabCache.set upAccountId account (Api.accounts api));;
      mret account
  | _ => throw
  end.

Definition createTransaction (transaction : Transaction) : M TransactionIds.t :=
  let payload := Js.obj [("transaction", Js.obj transaction)] in
  json ← post "transactions" payload;
  match json with
  | YnabTransactionData data =>
      let import_id := TransactionJson.import_id data in
      let transactionCache :=
        {| TransactionIds.id := TransactionJson.id data;
           TransactionIds.transfer_transaction_id :=
             TransactionJson.transfer_transaction_id data |} in
      (match import_id with
       | Some key =>
           if Js.truthy key then
             api ← getApi;
             setTransactions (YnabCache.set key transactionCache (Api.transactions api))
           else mret tt
       | None => mret tt
       end);;
      mret transactionCache
  | _ => throw
  end.

Definition updateTransaction (id : string) (transaction : Transaction) : M unit :=
  let payload := Js.obj [("transaction", Js.obj (removeEmptyProperties transaction))] in
  put ("transactions/" +:+ id) payload;; mret tt.

End Methods.
End YnabApi.

(** ** The function module: configuration, [webhook] and [init] *)

Inductive Selector := primary | secondary.

Definition Selector_name (account : Selector) : string :=
  match account with primary => "primary" | secondary => "secondary" end.

(** [account.toUpperCase()] *)
Definition Selector_upper (account : Selector) : string :=
  match account with primary => "PRIMARY" | secondary => "SECONDARY" end.

(** [request.query.get("account")] narrowed by
    [account != "primary" && account != "secondary"]. *)
Definition Selector_parse (account : option string) : option Selector :=
  match account with
  | Some a =>
      if String.eqb a "primary" then Some primary
      else if String.eqb a "secondary" then Some secondary
      else None
  | None => None
  end.

Module HttpRequest.
Record t := {
  text : string;
  query : string -> option string;
  headers : string -> option string;
}.
End HttpRequest.

Module HttpResponseInit.
Record t := {
  status : Z;
  body : option string;
}.
End HttpResponseInit.

(** What the guard rules of [webhook] (lines 215-245, 292-296) decide:
    answer at once, or go on to reconcile a fetched transaction of a fetched
    account. *)
Inductive Verdict :=
| Respond (response : HttpResponseInit.t)
| Process (upTransaction : up.Transaction.t) (upAccount : up.Account.t).

Section Handlers.

Context (rt : Runtime) (remote : Remote).

(** [const upApis = { primary: ..., secondary: ... }] *)
Definition upApis (account : Selector) : up.Api.t :=
  match account with
  | primary =>
      up.Api.new (processEnv remote "UP_PRIMARY_TOKEN")
                 (processEnv remote "UP_PRIMARY_WEBHOOK")
  | secondary =>
      up.Api.new (processEnv remote "UP_SECONDARY_TOKEN")
                 (processEnv remote "UP_SECONDARY_WEBHOOK")
  end.

Definition createYnabAccount (upAccount : up.Account.t) : M ynab.Account.t :=
  let type := if String.eqb (up.Account.type upAccount) "TRANSACTIONAL"
              then ynab.AccountType.Checking else ynab.AccountType.Savings in
  let name := Js.slice0 50
    ("Up: " +:+ up.Account.name upAccount +:+ " (" +:+ up.Account.id upAccount +:+ ")") in
  account ← YnabApi.createAccount remote name type (up.Account.id upAccount);
  mret account.

Definition getYnabTransferAccountPayeeId (upTransferAccountId : string) : M string :=
  ynabAccount ← YnabApi.getAccount remote upTransferAccountId;
  ynabAccount ← match ynabAccount with
                | Some a => mret a
                | None =>
                    upAccount ← try_catch
                      (UpApi.getAccount remote (upApis primary) upTransferAccountId)
                      (UpApi.getAccount remote (upApis secondary) upTransferAccountId);
                    createYnabAccount upAccount
                end;
  mret (ynab.Account.payeeId ynabAccount).

Definition isTransactionEvent (type : string) : bool :=
  String.eqb type "TRANSACTION_CREATED" || String.eqb type "TRANSACTION_SETTLED".

(** Line 236: the internal-transfer guard. *)
Definition isTransferCredit (upTransaction : up.Transaction.t) : bool :=
  Js.truthy_opt (up.Transaction.transferAccount upTransaction)
  && Z.ltb 0 (up.TransactionAmount.valueInBaseUnits (up.Transaction.amount upTransaction)).

(** Line 242: the joint-account guard. *)
Definition isJointOnSecondary (upAccount : up.Account.t) (account : Selector) : bool :=
  String.eqb (up.Account.ownershipType upAccount) "JOINT"
  && match account with secondary => true | primary => false end.

(** [webhook], lines 215-245 and 292-296: the checks before reconciliation. *)
Definition classify (request : HttpRequest.t) : M Verdict :=
  let body := HttpRequest.text request in
  match Selector_parse (HttpRequest.query request "account") with
  | None =>
      mret (Respond {| HttpResponseInit.status := 403;
                       HttpResponseInit.body := Some "Invalid account" |})
  | Some account =>
      let upApi := upApis account in
      let signature := HttpRequest.headers request "x-up-authenticity-signature" in
      if negb (up.Api.validateWebhookSignature rt upApi body signature) then
        mret (Respond {| HttpResponseInit.status := 403;
                         HttpResponseInit.body := Some "Invalid signature" |})
      else
        match parseEvent rt body with
        | None => throw
        | Some json =>
            if isTransactionEvent (eventType json) then
              match transactionId json with
              | None => throw
              | Some id =>
                  upTransaction ← UpApi.getTransaction remote upApi id;
                  if isTransferCredit upTransaction then
                    mret (Respond {| HttpResponseInit.status := 200;
                                     HttpResponseInit.body := None |})
                  else
                    upAccount ← UpApi.getAccount remote upApi
                                  (up.Transaction.accountId upTransaction);
                    if isJointOnSecondary upAccount account then
                      mret (Respond {| HttpResponseInit.status := 200;
                                       HttpResponseInit.body := None |})
                    else mret (Process upTransaction upAccount)
              end
            else
              mret (Respond {| HttpResponseInit.status := 200;
                               HttpResponseInit.body := Some "" |})
        end
  end.

(** The two fields every destination transaction object starts with. *)
Definition amountAndCleared (upTransaction : up.Transaction.t) : ynab.Transaction :=
  [("amount",
    Js.times (up.TransactionAmount.valueInBaseUnits (up.Transaction.amount upTransaction)) 10);
   ("cleared",
    Js.str (if up.Transaction.isSettled upTransaction then "cleared" else "uncleared"))].

(** Lines 262-268. *)
Definition memoOf (upTransaction : up.Transaction.t) : string :=
  let memo := Js.slice0 5 (toTimeString rt (up.Transaction.createdAt upTransaction)) in
  let memo := match up.Transaction.message upTransaction with
              | Some message => if Js.truthy message then memo +:+ ": " +:+ message else memo
              | None => memo
              end in
  match up.Transaction.foreignAmount upTransaction with
  | Some foreignAmount =>
      memo +:+ " (" +:+ up.TransactionAmount.currencyCode foreignAmount +:+ " "
           +:+ up.TransactionAmount.value foreignAmount +:+ ")"
  | None => memo
  end.

(** [webhook], lines 258-281: the transaction object of the creation branch,
    with the destination account (and, for a transfer, the payee) resolved
    or created on the way. *)
Definition newTransaction (upTransaction : up.Transaction.t) (upAccount : up.Account.t)
    (importId : string) : M ynab.Transaction :=
  ynabAccount ← YnabApi.getAccount remote (up.Account.id upAccount);
  ynabAccount ← match ynabAccount with
                | Some a => mret a
                | None => createYnabAccount upAccount
                end;
  let memo := memoOf upTransaction in
  let ynabTransaction :=
    amountAndCleared upTransaction ++
    [("account_id", Js.str (ynab.Account.id ynabAccount));
     ("date", Js.str (toLocaleDateString rt (up.Transaction.createdAt upTransaction)));
     ("import_id", Js.str importId);
     ("memo", Js.str memo);
     ("payee_name", Js.str (up.Transaction.description upTransaction))] in
  match up.Transaction.transferAccount upTransaction with
  | Some transferAccount =>
      if Js.truthy transferAccount then
        payee_id ← getYnabTransferAccountPayeeId transferAccount;
        mret (ynabTransaction ++ [("payee_id", Js.str payee_id)])
      else mret ynabTransaction
  | None => mret ynabTransaction
  end.

(** [webhook], lines 247-287: find the destination transaction by its import
    id and update it, or create it; the value is [ynabTransactionId]. *)
Definition resolve (upTransaction : up.Transaction.t) (upAccount : up.Account.t)
  : M ynab.TransactionIds.t :=
  let importId := importId (up.Transaction.id upTransaction) in
  ynabTransactionId ← YnabApi.getTransactionFromImportId rt remote importId
                        (Some (up.Transaction.createdAt upTransaction));
  match ynabTransactionId with
  | Some ids =>
      let ynabTransaction := amountAndCleared upTransaction in
      unawaited (YnabApi.updateTransaction remote (ynab.TransactionIds.id ids) ynabTransaction);;
      mret ids
  | None =>
      ynabTransaction ← newTransaction upTransaction upAccount importId;
      YnabApi.createTransaction remote ynabTransaction
  end.

(** [webhook], lines 288-291: clear the other side of a settled transfer. *)
Definition propagate (ynabTransactionId : ynab.TransactionIds.t)
    (upTransaction : up.Transaction.t) : M unit :=
  match ynab.TransactionIds.transfer_transaction_id ynabTransactionId with
  | Some transfer_transaction_id =>
      if Js.truthy transfer_transaction_id && up.Transaction.isSettled upTransaction then
        YnabApi.updateTransaction remote transfer_transaction_id
          [("cleared", Js.str "cleared")]
      else mret tt
  | None => mret tt
  end.

Definition webhook (request : HttpRequest.t) : M HttpResponseInit.t :=
  verdict ← classify request;
  match verdict with
  | Respond response => mret response
  | Process upTransaction upAccount =>
      ynabTransactionId ← resolve upTransaction upAccount;
      propagate ynabTransactionId upTransaction;;
      mret {| HttpResponseInit.status := 200; HttpResponseInit.body := Some "" |}
  end.

Definition init (fuel : nat) (request : HttpRequest.t) : M HttpResponseInit.t :=
  let replaceExisting :=
    bool_decide (HttpRequest.query request "replaceExisting" = Some "true") in
  match Selector_parse (HttpRequest.query request "account") with
  | None =>
      mret {| HttpResponseInit.status := 403;
              HttpResponseInit.body := Some "Invalid account" |}
  | Some account =>
      let WEBHOOK_URL := processEnv remote "WEBHOOK_URL" in
      if negb (Js.truthy_opt WEBHOOK_URL) then
        mret {| HttpResponseInit.status := 500;
                HttpResponseInit.body :=
                  Some "Environmental variable WEBHOOK_URL is missing." |}
      else
        let secretVariableName := "UP_" +:+ Selector_upper account +:+ "_WEBHOOK" in
        if Js.truthy_opt (processEnv remote secretVariableName) then
          mret {| HttpResponseInit.status := 500;
                  HttpResponseInit.body :=
                    Some ("Environmental variable " +:+ secretVariableName
                          +:+ " is already set.") |}
        else
          match urlWithAccount rt (default "" WEBHOOK_URL) (Selector_name account) with
          | None => throw
          | Some webhookUrl =>
              let upApi := upApis account in
              webhooks ← UpApi.getWebhooks remote fuel upApi;
              let matchingWebhooks :=
                List.filter (fun x => String.eqb (up.Webhook.url x) webhookUrl) webhooks in
              if Nat.ltb 0 (length matchingWebhooks) && negb replaceExisting then
                mret {| HttpResponseInit.status := 500;
                        HttpResponseInit.body :=
                          Some ("Found " +:+ pretty (length matchingWebhooks)
                                +:+ " existing webhooks using this url. Delete them with replaceExisting=true") |}
              else
                (if replaceExisting
                 then forEach (fun webhook =>
                                 UpApi.deleteWebhook remote upApi (up.Webhook.id webhook))
                              matchingWebhooks
                 else mret tt);;
                newWebhook ← UpApi.newWebhook remote upApi webhookUrl
                               ("up-ynab-sync " +:+ Selector_name account);
                let newWebhookMessage :=
                  "Save the secret as a variable in " +:+ secretVariableName +:+ ": "
                  +:+ default "undefined" (up.Webhook.secretKey newWebhook) in
                mret {| HttpResponseInit.status := 200;
                        HttpResponseInit.body := Some newWebhookMessage |}
          end
  end.

End Handlers.

(** * Observations on runs

    The vocabulary of the properties below: the requests a run issued, the
    kinds of request, and what it means for a webhook request to be an
    accepted transaction event. *)

(** The requests issued between world [w] and a later world [w']. *)
Definition issued (w w' : World) : list Call :=
  drop (length (trace w)) (trace w').

(** The world after the requests [l] have been issued, in order. *)
Definition issueAll (l : list Call) (w : World) : World :=
  {| ynabApi := ynabApi w; trace := trace w ++ l |}.

Definition isYnab (c : Call) : bool :=
  match c with YnabFetch _ _ _ _ => true | UpFetch _ _ _ _ => false end.

Definition isUp (c : Call) : bool := negb (isYnab c).

(** A destination-ledger request other than a [get]. *)
Definition isYnabWrite (c : Call) : bool :=
  match c with
  | YnabFetch method _ _ _ => negb (String.eqb method "get")
  | UpFetch _ _ _ _ => false
  end.

(** The request [createTransaction] issues. *)
Definition isCreateTransaction (c : Call) : bool :=
  match c with
  | YnabFetch method endpoint _ _ =>
      String.eqb method "post" && String.eqb endpoint "transactions"
  | UpFetch _ _ _ _ => false
  end.

(** The request [updateTransaction(id, transaction)] issues once
    [removeEmptyProperties] has left [fields]. *)
Definition updateCall (id : string) (fields : Js.object) : Call :=
  YnabFetch "put" ("transactions/" +:+ id) []
    (Some (Js.obj [("transaction", Js.obj fields)])).

(** The requests of lines 288-291 for a resolved identity. *)
Definition counterpartUpdates (ids : ynab.TransactionIds.t)
    (upTransaction : up.Transaction.t) : list Call :=
  match ynab.TransactionIds.transfer_transaction_id ids with
  | Some counterpart =>
      if Js.truthy counterpart && up.Transaction.isSettled upTransaction
      then [updateCall counterpart [("cleared", Js.str "cleared")]]
      else []
  | None => []
  end.

(** The transaction cache of a world. *)
Definition transactionCache (w : World) : gmap string ynab.TransactionIds.t :=
  ynab.YnabCache.entries (ynab.Api.transactions (ynabApi w)).

Definition accountCache (w : World) : gmap string ynab.Account.t :=
  ynab.YnabCache.entries (ynab.Api.accounts (ynabApi w)).

(** [request] passes the selector and signature checks on connection
    [account] and carries a "transaction created" or "transaction settled"
    event for source transaction [id]. *)
Definition transactionEvent (rt : Runtime) (remote : Remote)
    (request : HttpRequest.t) (account : Selector) (id : string) : Prop :=
  Selector_parse (HttpRequest.query request "account") = Some account /\
  up.Api.validateWebhookSignature rt (upApis remote account) (HttpRequest.text request)
    (HttpRequest.headers request "x-up-authenticity-signature") = true /\
  exists json, parseEvent rt (HttpRequest.text request) = Some json /\
               isTransactionEvent (eventType json) = true /\
               transactionId json = Some id.

(** A run skipped reconciliation: it answered 200 and issued no write to
    the destination ledger. *)
Definition skipped (w w' : World) (r : Result HttpResponseInit.t) : Prop :=
  (exists response, r = Ok response /\ HttpResponseInit.status response = 200) /\
  List.filter isYnabWrite (issued w w') = [].


(** The idempotency key as the specification words it: the source id with
    every dash removed, behind the prefix. *)
Fixpoint stripDashes (s : string) : string :=
  match s with
  | EmptyString => EmptyString
  | String c s' =>
      if Ascii.eqb c "-"%char then stripDashes s' else String c (stripDashes s')
  end.

(** ** Frames: what a computation may change *)

(** [frame P Q]: the later world has issued further requests, all
    satisfying [P], and its destination client is [Q]-related to the
    earlier one. *)
Definition frame (P : Call -> Prop) (Q : ynab.Api.t -> ynab.Api.t -> Prop)
    (w w' : World) : Prop :=
  (exists l, trace w' = trace w ++ l /\ Forall P l) /\ Q (ynabApi w) (ynabApi w').

(** Every run of [m] stays within relation [R]. *)
Definition within (R : World -> World -> Prop) {A} (m : M A) : Prop :=
  forall w r w', m w = (r, w') -> R w w'.

(** Only source-ledger requests, caches untouched. *)
Definition upOnly : World -> World -> Prop :=
  frame (fun c => isUp c = true) eq.

(** Any requests but no transaction creation, transaction cache untouched. *)
Definition transactionsKept : World -> World -> Prop :=
  frame (fun c => isCreateTransaction c = false)
        (fun a a' => ynab.Api.transactions a' = ynab.Api.transactions a).

(** Requests are only ever appended. *)
Definition appended : World -> World -> Prop :=
  frame (fun _ => True) (fun _ _ => True).

(** ** The sync cursors over a process lifetime *)

(** The window start and the change token the transaction cache remembers. *)
Definition window (w : World) : option Js.Date :=
  ynab.YnabCache.sinceDate (ynab.Api.transactions (ynabApi w)).

Definition token (w : World) : Z :=
  ynab.YnabCache.lastKnowledgeOfServer (ynab.Api.transactions (ynabApi w)).

(** One step of the process as the destination client sees it: a request to
    the source ledger, or a call of one of the client's public methods. *)
Inductive step (rt : Runtime) (remote : Remote) : World -> World -> Prop :=
| step_up c w :
    isUp c = true -> step rt remote w (issue c w)
| step_getTransactionFromImportId key date r w w' :
    YnabApi.getTransactionFromImportId rt remote key date w = (r, w') ->
    step rt remote w w'
| step_getAccount id r w w' :
    YnabApi.getAccount remote id w = (r, w') -> step rt remote w w'
| step_createAccount name type id r w w' :
    YnabApi.createAccount remote name type id w = (r, w') -> step rt remote w w'
| step_createTransaction fields r w w' :
    YnabApi.createTransaction remote fields w = (r, w') -> step rt remote w w'
| step_updateTransaction id fields r w w' :
    YnabApi.updateTransaction remote id fields w = (r, w') -> step rt remote w w'.

(** The worlds of a process lifetime in which calls follow one another:
    those reached from the freshly constructed client when every call of a
    method runs to its end before the next one starts. *)
Definition reachedInSequence (rt : Runtime) (remote : Remote) (w : World) : Prop :=
  rtc (step rt remote) World_init w.

(** A process lifetime in which refreshes overlap.  The handlers are
    asynchronous and share one destination client: while a refresh awaits
    its listing, another invocation may run.  A state is the world together
    with the refreshes that await their listing; a refresh begins, or one
    of the awaiting ones resumes and ends. *)
Inductive overlapping (rt : Runtime) (remote : Remote)
  : World * list YnabApi.Awaiting.t -> World * list YnabApi.Awaiting.t -> Prop :=
| overlapping_begin key date w awaiting w' others :
    YnabApi.refreshBegin rt remote key date w = (Ok (Some awaiting), w') ->
    overlapping rt remote (w, others) (w', others ++ [awaiting])
| overlapping_end awaiting r w w' before after :
    YnabApi.refreshEnd awaiting w = (r, w') ->
    overlapping rt remote (w, before ++ awaiting :: after) (w', before ++ after).

(** An established window start has not moved later from [w] to [w']. *)
Definition windowNotLater (w w' : World) : Prop :=
  forall ms, window w = Some (Js.ValidDate ms) ->
             exists ms', window w' = Some (Js.ValidDate ms') /\ ms' <= ms.

(** The cursors are well formed: the account cache has no window, the
    transaction cache has a valid window start or none and the zero token. *)
Definition cursorsOk (w : World) : Prop :=
  ynab.YnabCache.sinceDate (ynab.Api.accounts (ynabApi w)) = None /\
  (window w = None -> token w = 0) /\
  window w <> Some Js.InvalidDate.

(** * A concrete deployment

    One runtime, one pair of ledgers and a few requests, on which the
    properties below are instantiated. *)

Module Scenario.

Definition created : WebhookEvent :=
  {| eventType := "TRANSACTION_CREATED"; transactionId := Some "t1" |}.

Definition rt : Runtime :=
  {| hmacSha256Hex := fun key body => "hmac:" +:+ key +:+ ":" +:+ body;
     toTimeString := fun _ => "09:41:07 GMT+1000 (Australian Eastern Standard Time)";
     toLocaleDateString := fun date =>
       match date with
       | Js.ValidDate ms => "day " +:+ pretty (ms `div` ynab.msPerDay)
       | Js.InvalidDate => "Invalid Date"
       end;
     parseEvent := fun body =>
       if String.eqb body "created t1" then Some created else None;
     urlWithAccount := fun base account => Some (base +:+ "?account=" +:+ account);
     localTZA := fun _ _ => 36000000 |}.

(** The source transaction of the event: a settled debit of 15.00, a
    transfer to account [a2] when [transfer] is set. *)
Definition debit (transfer : bool) : up.Transaction.t :=
  {| up.Transaction.id := "t1";
     up.Transaction.accountId := "a1";
     up.Transaction.createdAt := Js.ValidDate 1700000000000;
     up.Transaction.isSettled := true;
     up.Transaction.description := "Coffee";
     up.Transaction.amount :=
       {| up.TransactionAmount.currencyCode := "AUD";
          up.TransactionAmount.value := "-15.00";
          up.TransactionAmount.valueInBaseUnits := -1500 |};
     up.Transaction.message := None;
     up.Transaction.foreignAmount := None;
     up.Transaction.transferAccount := if transfer then Some "a2" else None |}.

Definition account (id ownershipType : string) : up.Account.t :=
  {| up.Account.id := id;
     up.Account.type := "TRANSACTIONAL";
     up.Account.name := "Spending";
     up.Account.ownershipType := ownershipType |}.

Definition issuedWebhook : up.Webhook.t :=
  {| up.Webhook.id := "w2";
     up.Webhook.url := "https://sync.example/api/webhook?account=primary";
     up.Webhook.description := "up-ynab-sync primary";
     up.Webhook.createdAt := Js.ValidDate 1700000000000;
     up.Webhook.secretKey := Some "s3cret" |}.

Definition staleWebhook : up.Webhook.t :=
  {| up.Webhook.id := "w1";
     up.Webhook.url := "https://sync.example/api/webhook?account=primary";
     up.Webhook.description := "up-ynab-sync primary";
     up.Webhook.createdAt := Js.ValidDate 1600000000000;
     up.Webhook.secretKey := None |}.

(** Environment variables: both tokens, the callback URL, and the two
    webhook secrets when [secrets] is set. *)
Definition env (secrets : bool) (name : string) : option string :=
  if String.eqb name "UP_PRIMARY_TOKEN" then Some "token-1"
  else if String.eqb name "UP_SECONDARY_TOKEN" then Some "token-2"
  else if String.eqb name "WEBHOOK_URL" then Some "https://sync.example/api/webhook"
  else if String.eqb name "UP_PRIMARY_WEBHOOK" then
         (if secrets then Some "key-1" else None)
  else if String.eqb name "UP_SECONDARY_WEBHOOK" then
         (if secrets then Some "key-2" else None)
  else None.

(** The [import_id] of a creation payload, when it has one. *)
Definition submittedImportId (payload : option Js.value) : option string :=
  match payload with
  | Some (Js.obj [(_, Js.obj fields)]) =>
      match Js.get "import_id" fields with
      | Js.str key => Some key
      | _ => None
      end
  | _ => None
  end.

(** The two ledgers.  The source ledger knows transaction [t1] and accounts
    [a1] (with the given ownership) and [a2], and lists [webhooks].  The
    destination ledger lists nothing, numbers what it creates by the length
    of the history, links a created transfer to a counterpart when
    [transfer] is set, and echoes the import id only when [echo] is set. *)
Definition remote (secrets echo transfer : bool) (ownershipType : string)
    (webhooks : list up.Webhook.t) : Remote :=
  {| respond := fun hist c =>
       match c with
       | UpFetch _ method url _ =>
           if String.eqb url (up.Api.fullUrl "transactions/t1")
           then UpTransactionData (debit transfer)
           else if String.eqb url (up.Api.fullUrl "accounts/a1")
           then UpAccountData (account "a1" ownershipType)
           else if String.eqb url (up.Api.fullUrl "accounts/a2")
           then UpAccountData (account "a2" "INDIVIDUAL")
           else if String.eqb url (up.Api.fullUrl "webhooks")
           then (if String.eqb method "get" then UpWebhookPage webhooks None
                 else UpWebhookData issuedWebhook)
           else OtherJson
       | YnabFetch method endpoint _ payload =>
           if String.eqb method "get" then
             (if String.eqb endpoint "transactions" then YnabTransactions [] 7
              else YnabAccounts [] 3)
           else if String.eqb method "post" then
             (if String.eqb endpoint "accounts"
              then YnabAccountData ("account-" +:+ pretty (length hist))
                                   ("payee-" +:+ pretty (length hist))
              else YnabTransactionData
                     {| ynab.TransactionJson.id := "transaction-" +:+ pretty (length hist);
                        ynab.TransactionJson.transfer_transaction_id :=
                          if transfer then Some "counterpart-1" else None;
                        ynab.TransactionJson.import_id :=
                          if echo then submittedImportId payload else None |})
           else OtherJson
       end;
     clock := fun _ => 1700000300000;
     processEnv := env secrets |}.

(** The webhook delivery of the event on connection [account], signed with
    that connection's key. *)
Definition delivery (account : string) (key : string) : HttpRequest.t :=
  {| HttpRequest.text := "created t1";
     HttpRequest.query := fun name =>
       if String.eqb name "account" then Some account else None;
     HttpRequest.headers := fun name =>
       if String.eqb name "x-up-authenticity-signature"
       then Some ("hmac:" +:+ key +:+ ":created t1") else None |}.

(** The same delivery without its signature header. *)
Definition unsignedDelivery : HttpRequest.t :=
  {| HttpRequest.text := "created t1";
     HttpRequest.query := fun name =>
       if String.eqb name "account" then Some "primary" else None;
     HttpRequest.headers := fun _ => None |}.

(** A provisioning request for the primary connection. *)
Definition provision : HttpRequest.t :=
  {| HttpRequest.text := "";
     HttpRequest.query := fun name =>
       if String.eqb name "account" then Some "primary" else None;
     HttpRequest.headers := fun _ => None |}.

End Scenario.

(** Worlds and identities of the scenario. *)
Module Run.
Import Scenario.

(** A plain debit on an individual account, the ledger echoing import ids. *)
Definition ledger : Remote := remote true true false "INDIVIDUAL" [].
Definition request : HttpRequest.t := delivery "primary" "key-1".

(** The world after the first delivery, and after its guard rules ran again. *)
Definition afterFirst : World := snd (webhook rt ledger request World_init).
Definition classifiedAgain : World := snd (classify rt ledger request afterFirst).

Definition coffeeIds : ynab.TransactionIds.t :=
  {| ynab.TransactionIds.id := "transaction-5";
     ynab.TransactionIds.transfer_transaction_id := None |}.

(** The same debit as one side of a transfer. *)
Definition transferLedger : Remote := remote true true true "INDIVIDUAL" [].
Definition classifiedTransfer : World :=
  snd (classify rt transferLedger request World_init).
Definition resolvedTransfer : World :=
  snd (resolve rt transferLedger (debit true) (account "a1" "INDIVIDUAL") classifiedTransfer).

Definition transferIds : ynab.TransactionIds.t :=
  {| ynab.TransactionIds.id := "transaction-8";
     ynab.TransactionIds.transfer_transaction_id := Some "counterpart-1" |}.

(** The same ledger, not echoing import ids. *)
Definition silentLedger : Remote := remote true false false "INDIVIDUAL" [].

(** The creation request of the event's transaction. *)
Definition creation : Call :=
  YnabFetch "post" "transactions" []
    (Some (Js.obj [("transaction",
       Js.obj [("amount", Js.num (-15000)); ("cleared", Js.str "cleared");
               ("account_id", Js.str "account-4"); ("date", Js.str "day 19675");
               ("import_id", Js.str "up:t1"); ("memo", Js.str "09:41");
               ("payee_name", Js.str "Coffee")])])).

End Run.

Module JointRun.
Import Scenario.

(** The plain debit on a joint account, delivered on the secondary
    connection. *)
Definition ledger : Remote := remote true true false "JOINT" [].
Definition request : HttpRequest.t := delivery "secondary" "key-2".
Definition fetched : World :=
  snd (UpApi.getTransaction ledger (upApis ledger secondary) "t1" World_init).
Definition fetchedAccount : World :=
  snd (UpApi.getAccount ledger (upApis ledger secondary) "a1" fetched).
Definition final : World := snd (webhook rt ledger request World_init).

End JointRun.

Module ProvisionRun.
Import Scenario.

(** The world right after account [a1] was provisioned from an empty cache. *)
Definition provisioned : World :=
  snd (createYnabAccount Run.ledger (account "a1" "INDIVIDUAL") World_init).

Definition reference : ynab.Account.t :=
  {| ynab.Account.id := "account-0"; ynab.Account.payeeId := "payee-0" |}.

End ProvisionRun.

Module ProvisionWebhook.
Import Scenario.

(** No webhook secret configured yet; one webhook already registered for
    the callback URL in [staleLedger], none in [freshLedger]. *)
Definition staleLedger : Remote := remote false true false "INDIVIDUAL" [staleWebhook].
Definition freshLedger : Remote := remote false true false "INDIVIDUAL" [].
Definition listed : World :=
  snd (UpApi.getWebhooks staleLedger 5 (upApis staleLedger primary) World_init).
Definition provisionedFresh : World := snd (init rt freshLedger 5 provision World_init).

End ProvisionWebhook.

Module Overlap.
Import Scenario.

(** Two refreshes on the fresh client of [Run.ledger]: the first for a
    transaction of the day, the second, begun while the first awaits its
    listing, for a transaction dated long before; the second ends first. *)
Definition recent : Js.Date := Js.ValidDate 1700000000000.
Definition early : Js.Date := Js.ValidDate 1000.

Definition firstAwaiting : YnabApi.Awaiting.t :=
  {| YnabApi.Awaiting.importId := "up:t1";
     YnabApi.Awaiting.syncFrom := Js.ValidDate 1699624800000;
     YnabApi.Awaiting.json := YnabTransactions [] 7 |}.
Definition secondAwaiting : YnabApi.Awaiting.t :=
  {| YnabApi.Awaiting.importId := "up:t2";
     YnabApi.Awaiting.syncFrom := early;
     YnabApi.Awaiting.json := YnabTransactions [] 7 |}.

Definition firstBegun : World :=
  snd (YnabApi.refreshBegin rt Run.ledger "up:t1" (Some recent) World_init).
Definition secondBegun : World :=
  snd (YnabApi.refreshBegin rt Run.ledger "up:t2" (Some early) firstBegun).
Definition secondEnded : World := snd (YnabApi.refreshEnd secondAwaiting secondBegun).
Definition firstEnded : World := snd (YnabApi.refreshEnd firstAwaiting secondEnded).

End Overlap.

Module Relisting.
Import Scenario.

(** The rows of the transactions created so far, numbered as
    [Scenario.remote] numbers them. *)
Definition createdRows (hist : list Call) : list ynab.TransactionJson.t :=
  omap (fun x => x)
    (imap (fun i c =>
             match c with
             | YnabFetch method endpoint _ payload =>
                 if String.eqb method "post" && String.eqb endpoint "transactions"
                 then Some {| ynab.TransactionJson.id := "transaction-" +:+ pretty i;
                              ynab.TransactionJson.transfer_transaction_id := None;
                              ynab.TransactionJson.import_id :=
                                submittedImportId payload |}
                 else None
             | UpFetch _ _ _ _ => None
             end) hist).

(** The ledgers of [Run.silentLedger], the destination ledger not echoing
    import ids, but listing the transactions it has created. *)
Definition ledger : Remote :=
  {| respond := fun hist c =>
       match c with
       | YnabFetch method endpoint _ _ =>
           if String.eqb method "get" && String.eqb endpoint "transactions"
           then YnabTransactions (createdRows hist) (Z.of_nat (length hist))
           else respond Run.silentLedger hist c
       | UpFetch _ _ _ _ => respond Run.silentLedger hist c
       end;
     clock := clock Run.silentLedger;
     processEnv := processEnv Run.silentLedger |}.

Definition afterFirst : World := snd (webhook rt ledger Run.request World_init).
Definition classifiedAgain : World := snd (classify rt ledger Run.request afterFirst).
Definition afterSecond : World := snd (webhook rt ledger Run.request afterFirst).

(** The source ledger of [Run.ledger], naming the transaction of the event
    [t1] until a destination transaction has been created and [t1-bis]
    from then on. *)
Definition renaming : Remote :=
  {| respond := fun hist c =>
       match c with
       | UpFetch _ _ url _ =>
           if String.eqb url (up.Api.fullUrl "transactions/t1")
              && existsb isCreateTransaction hist
           then UpTransactionData
                  {| up.Transaction.id := "t1-bis";
                     up.Transaction.accountId := up.Transaction.accountId (debit false);
                     up.Transaction.createdAt := up.Transaction.createdAt (debit false);
                     up.Transaction.isSettled := up.Transaction.isSettled (debit false);
                     up.Transaction.description := up.Transaction.description (debit false);
                     up.Transaction.amount := up.Transaction.amount (debit false);
                     up.Transaction.message := up.Transaction.message (debit false);
                     up.Transaction.foreignAmount :=
                       up.Transaction.foreignAmount (debit false);
                     up.Transaction.transferAccount :=
                       up.Transaction.transferAccount (debit false) |}
           else respond Run.ledger hist c
       | YnabFetch _ _ _ _ => respond Run.ledger hist c
       end;
     clock := clock Run.ledger;
     processEnv := processEnv Run.ledger |}.

Definition afterFirstRenamed : World := snd (webhook rt renaming Run.request World_init).
Definition afterSecondRenamed : World :=
  snd (webhook rt renaming Run.request afterFirstRenamed).

End Relisting.

Module Large.
Import Scenario.

(** A payment of 2^53 - 1 base units, the largest odd integer that doubles
    count exactly. *)
Definition payment : up.Transaction.t :=
  {| up.Transaction.id := "t1";
     up.Transaction.accountId := "a1";
     up.Transaction.createdAt := Js.ValidDate 1700000000000;
     up.Transaction.isSettled := true;
     up.Transaction.description := "Settlement";
     up.Transaction.amount :=
       {| up.TransactionAmount.currencyCode := "AUD";
          up.TransactionAmount.value := "90071992547409.91";
          up.TransactionAmount.valueInBaseUnits := 9007199254740991 |};
     up.Transaction.message := None;
     up.Transaction.foreignAmount := None;
     up.Transaction.transferAccount := None |}.

(** The ledgers of [Run.ledger] with that payment as transaction [t1]. *)
Definition ledger : Remote :=
  {| respond := fun hist c =>
       match c with
       | UpFetch _ _ url _ =>
           if String.eqb url (up.Api.fullUrl "transactions/t1")
           then UpTransactionData payment
           else respond Run.ledger hist c
       | YnabFetch _ _ _ _ => respond Run.ledger hist c
       end;
     clock := clock Run.ledger;
     processEnv := processEnv Run.ledger |}.

Definition afterFirst : World := snd (webhook rt ledger Run.request World_init).
Definition classifiedAgain : World := snd (classify rt ledger Run.request afterFirst).
Definition afterSecond : World := snd (webhook rt ledger Run.request afterFirst).

End Large.

Module Accented.
Import Scenario.

(** An account whose display name holds a letter outside ASCII: "Café",
    the accented letter being the two bytes 195 and 169, one code unit. *)
Definition cafe : string :=
  "Caf" +:+ String (ascii_of_nat 195) (String (ascii_of_nat 169) EmptyString).

Definition fund : up.Account.t :=
  {| up.Account.id := "a1";
     up.Account.type := "SAVER";
     up.Account.name := cafe +:+ " and holiday savings for the rainy season";
     up.Account.ownershipType := "INDIVIDUAL" |}.

(** The name [createYnabAccount] sends for it. *)
Definition sent : string :=
  "Up: " +:+ cafe +:+ " and holiday savings for the rainy season ".

End Accented.

(** * Further scenarios

    More events, ledgers and listings, used by the further properties
    below. *)

Module Events.

Definition deleted : WebhookEvent :=
  {| eventType := "TRANSACTION_DELETED"; transactionId := Some "t1" |}.

Definition ping : WebhookEvent :=
  {| eventType := "PING"; transactionId := None |}.

(** A settled event without the object its transaction id is read from. *)
Definition anonymous : WebhookEvent :=
  {| eventType := "TRANSACTION_SETTLED"; transactionId := None |}.

(** The runtime of [Scenario], parsing a few more bodies. *)
Definition rt : Runtime :=
  {| hmacSha256Hex := hmacSha256Hex Scenario.rt;
     toTimeString := toTimeString Scenario.rt;
     toLocaleDateString := toLocaleDateString Scenario.rt;
     parseEvent := fun body =>
       if String.eqb body "created t1" then Some Scenario.created
       else if String.eqb body "deleted t1" then Some deleted
       else if String.eqb body "ping" then Some ping
       else if String.eqb body "settled" then Some anonymous
       else None;
     urlWithAccount := urlWithAccount Scenario.rt;
     localTZA := localTZA Scenario.rt |}.

(** A delivery of [body] on the primary connection, signed with [key]. *)
Definition signed (body key : string) : HttpRequest.t :=
  {| HttpRequest.text := body;
     HttpRequest.query := fun name =>
       if String.eqb name "account" then Some "primary" else None;
     HttpRequest.headers := fun name =>
       if String.eqb name "x-up-authenticity-signature"
       then Some ("hmac:" +:+ key +:+ ":" +:+ body) else None |}.

(** Ledgers that fail every request; the webhook secrets are configured. *)
Definition down : Remote :=
  {| respond := fun _ _ => Failed;
     clock := fun _ => 1700000300000;
     processEnv := Scenario.env true |}.

(** The same, with no token configured for either connection. *)
Definition keyless : Remote :=
  {| respond := fun _ _ => Failed;
     clock := fun _ => 1700000300000;
     processEnv := fun name =>
       if String.eqb name "UP_PRIMARY_WEBHOOK" then Some "key-1" else None |}.

End Events.

(** ** Kinds of request, continued *)

(** A read of the source ledger: a [get] without a body. *)
Definition isSourceRead (c : Call) : Prop :=
  match c with
  | UpFetch _ method _ payload => method = "get" /\ payload = None
  | YnabFetch _ _ _ _ => True
  end.

(** A request to the source ledger under the bearer key [apiKey]. *)
Definition sentWith (apiKey : string) (c : Call) : Prop :=
  match c with
  | UpFetch key _ _ _ => key = apiKey
  | YnabFetch _ _ _ _ => False
  end.

(** Any requests but no transaction creation. *)
Definition noCreation_frame : World -> World -> Prop :=
  frame (fun c => isCreateTransaction c = false) (fun _ _ => True).

Definition isDelete (c : Call) : bool :=
  match c with
  | UpFetch _ method _ _ => String.eqb method "delete"
  | YnabFetch _ _ _ _ => false
  end.

(** The request [deleteWebhook(id)] issues. *)
Definition deleteCall (self : up.Api.t) (webhook : up.Webhook.t) : Call :=
  UpFetch (up.Api.apiKey self) "delete"
    (up.Api.fullUrl ("webhooks/" +:+ up.Webhook.id webhook)) None.

Module Replace.
Import Scenario.

Definition otherWebhook : up.Webhook.t :=
  {| up.Webhook.id := "w0";
     up.Webhook.url := "https://elsewhere.example/hook";
     up.Webhook.description := "something else";
     up.Webhook.createdAt := Js.ValidDate 1500000000000;
     up.Webhook.secretKey := None |}.

(** Two webhooks registered, one of them for the callback URL. *)
Definition ledger : Remote :=
  remote false true false "INDIVIDUAL" [otherWebhook; staleWebhook].

(** A provisioning request asking to replace existing webhooks. *)
Definition replacing : HttpRequest.t :=
  {| HttpRequest.text := "";
     HttpRequest.query := fun name =>
       if String.eqb name "account" then Some "primary"
       else if String.eqb name "replaceExisting" then Some "true"
       else None;
     HttpRequest.headers := fun _ => None |}.

Definition listed : World :=
  snd (UpApi.getWebhooks ledger 5 (upApis ledger primary) World_init).
Definition replaced : World := snd (init rt ledger 5 replacing World_init).

End Replace.

(** ** Listings *)

(** The identity a listed transaction is cached as. *)
Definition idsOf (x : ynab.TransactionJson.t) : ynab.TransactionIds.t :=
  {| ynab.TransactionIds.id := ynab.TransactionJson.id x;
     ynab.TransactionIds.transfer_transaction_id :=
       ynab.TransactionJson.transfer_transaction_id x |}.

(** The identity of the last row of a listing that carries import id [key]. *)
Definition lastListed (key : string) (transactions : list ynab.TransactionJson.t)
  : option ynab.TransactionIds.t :=
  idsOf <$> List.find
    (fun x => bool_decide (ynab.TransactionJson.import_id x = Some key))
    (rev transactions).

(** A source account id the note pattern can match: 36 characters out of
    [[a-f0-9-]] (either case), the last of them a word character. *)
Definition matchable (id : string) : Prop :=
  String.length id = 36%nat /\
  ynab.string_forall ynab.isIdChar id = true /\
  ynab.isWord (ynab.string_last id) = true.

(** Both caches of [w'] hold every key that those of [w] hold. *)
Definition keysKept (w w' : World) : Prop :=
  (forall k, is_Some (transactionCache w !! k) -> is_Some (transactionCache w' !! k)) /\
  (forall k, is_Some (accountCache w !! k) -> is_Some (accountCache w' !! k)).

Module Listing.

Definition row (id : string) (import_id : option string) : ynab.TransactionJson.t :=
  {| ynab.TransactionJson.id := id;
     ynab.TransactionJson.transfer_transaction_id := None;
     ynab.TransactionJson.import_id := import_id |}.

Definition rows : list ynab.TransactionJson.t :=
  [row "first" (Some "up:t1"); row "manual" None; row "blank" (Some "");
   row "second" (Some "up:t1"); row "other" (Some "up:t2")].

Definition uuid : string := "0123abcd-0123-4abc-8def-0123456789ab".

Definition accounts : list ynab.AccountJson.t :=
  [{| ynab.AccountJson.id := "ya-0"; ynab.AccountJson.transfer_payee_id := "yp-0";
      ynab.AccountJson.note := None |};
   {| ynab.AccountJson.id := "ya-1"; ynab.AccountJson.transfer_payee_id := "yp-1";
      ynab.AccountJson.note := Some "upId:a1" |};
   {| ynab.AccountJson.id := "ya-2"; ynab.AccountJson.transfer_payee_id := "yp-2";
      ynab.AccountJson.note := Some ("upId:" +:+ uuid) |}].

(** A destination ledger that lists [rows] and [accounts]. *)
Definition ledger : Remote :=
  {| respond := fun _ c =>
       match c with
       | YnabFetch method endpoint _ _ =>
           if String.eqb method "get" then
             (if String.eqb endpoint "transactions" then YnabTransactions rows 42
              else YnabAccounts accounts 17)
           else OtherJson
       | UpFetch _ _ _ _ => Failed
       end;
     clock := fun _ => 1700000300000;
     processEnv := Scenario.env true |}.

(** The same ledger listing only the accounts with short notes. *)
Definition shortLedger : Remote :=
  {| respond := fun _ c =>
       match c with
       | YnabFetch method endpoint _ _ =>
           if String.eqb method "get" then
             (if String.eqb endpoint "transactions" then YnabTransactions rows 42
              else YnabAccounts (firstn 2 accounts) 17)
           else OtherJson
       | UpFetch _ _ _ _ => Failed
       end;
     clock := fun _ => 1700000300000;
     processEnv := Scenario.env true |}.

End Listing.

(** ** Pagination *)

(** A page of a listing of the source ledger: [json.data] and
    [json.links.next]. *)
Definition Page : Type := list up.Webhook.t * option string.

(** The requests that read [pages], the first of them at [link]. *)
Fixpoint pageCalls (apiKey link : string) (pages : list Page) : list Call :=
  match pages with
  | [] => []
  | (_, next) :: rest =>
      UpFetch apiKey "get" link None :: pageCalls apiKey (default "" next) rest
  end.

(** After the requests [hist], the source ledger serves [pages] from [link]
    on: every page but the last names the link of the next one, the last
    names none (or an empty one). *)
Fixpoint paged (remote : Remote) (apiKey : string) (hist : list Call) (link : string)
    (pages : list Page) : Prop :=
  match pages with
  | [] => False
  | (items, next) :: rest =>
      respond remote hist (UpFetch apiKey "get" link None) = UpWebhookPage items next /\
      match rest with
      | [] => Js.truthy_opt next = false
      | _ :: _ =>
          Js.truthy_opt next = true /\
          paged remote apiKey (hist ++ [UpFetch apiKey "get" link None])
            (default "" next) rest
      end
  end.

Module Pages.

Definition second : string := "https://api.up.com.au/api/v1/webhooks?page=2".

(** A source ledger that lists its webhooks in two pages. *)
Definition ledger : Remote :=
  {| respond := fun _ c =>
       match c with
       | UpFetch _ _ url _ =>
           if String.eqb url (up.Api.fullUrl "webhooks")
           then UpWebhookPage [Replace.otherWebhook] (Some second)
           else if String.eqb url second
           then UpWebhookPage [Scenario.staleWebhook] None
           else Failed
       | YnabFetch _ _ _ _ => Failed
       end;
     clock := fun _ => 1700000300000;
     processEnv := Scenario.env false |}.

Definition pages : list Page :=
  [([Replace.otherWebhook], Some second); ([Scenario.staleWebhook], None)].

End Pages.

(** ** Transfer accounts *)

(** The read of source account [id] through connection [account]. *)
Definition accountRead (remote : Remote) (account : Selector) (id : string) : Call :=
  UpFetch (up.Api.apiKey (upApis remote account)) "get"
    (up.Api.fullUrl ("accounts/" +:+ id)) None.

(** [createYnabAccount(upAccount)] followed by [.payeeId]. *)
Definition createdPayeeId (remote : Remote) (upAccount : up.Account.t) : M string :=
  ynabAccount ← createYnabAccount remote upAccount;
  mret (ynab.Account.payeeId ynabAccount).

Module Fallback.

(** Account [a2] is visible through the secondary connection only; the
    destination ledger lists no account and creates what it is asked to. *)
Definition ledger : Remote :=
  {| respond := fun hist c =>
       match c with
       | UpFetch key _ url _ =>
           if String.eqb key "token-2" && String.eqb url (up.Api.fullUrl "accounts/a2")
           then UpAccountData (Scenario.account "a2" "INDIVIDUAL")
           else Failed
       | YnabFetch method endpoint _ _ =>
           if String.eqb method "get" then YnabAccounts [] 3
           else if String.eqb endpoint "accounts"
           then YnabAccountData ("account-" +:+ pretty (length hist))
                                ("payee-" +:+ pretty (length hist))
           else Failed
       end;
     clock := fun _ => 1700000300000;
     processEnv := Scenario.env true |}.

Definition looked : World := snd (YnabApi.getAccount ledger "a2" World_init).

End Fallback.

(** ** Creation requests *)

(** The fields [webhook] builds for a new destination transaction (lines
    258-281), given the id of the destination account and the payee of a
    transfer, when there is one. *)
Definition creationFields (rt : Runtime) (upTransaction : up.Transaction.t)
    (account_id : string) (payee_id : option string) : ynab.Transaction :=
  [("amount",
    Js.times (up.TransactionAmount.valueInBaseUnits (up.Transaction.amount upTransaction)) 10);
   ("cleared",
    Js.str (if up.Transaction.isSettled upTransaction then "cleared" else "uncleared"));
   ("account_id", Js.str account_id);
   ("date", Js.str (toLocaleDateString rt (up.Transaction.createdAt upTransaction)));
   ("import_id", Js.str (importId (up.Transaction.id upTransaction)));
   ("memo", Js.str (memoOf rt upTransaction));
   ("payee_name", Js.str (up.Transaction.description upTransaction))]
  ++ match payee_id with
     | Some payee => [("payee_id", Js.str payee)]
     | None => []
     end.

(** The request [createTransaction(transaction)] issues. *)
Definition createCall (transaction : ynab.Transaction) : Call :=
  YnabFetch "post" "transactions" [] (Some (Js.obj [("transaction", Js.obj transaction)])).

(** ** Layout of source ids *)

(** The number of dashes of an id. *)
Fixpoint dashes (s : string) : nat :=
  match s with
  | EmptyString => 0
  | String c s' => (if Ascii.eqb c "-"%char then 1 else 0) + dashes s'
  end.

(** Two ids of the same length with their dashes at the same positions, as
    two UUIDs are. *)
Fixpoint sameLayout (a b : string) : bool :=
  match a, b with
  | EmptyString, EmptyString => true
  | String x a', String y b' =>
      Bool.eqb (Ascii.eqb x "-"%char) (Ascii.eqb y "-"%char) && sameLayout a' b'
  | _, _ => false
  end.
(** * Properties *)

(** ** The handler monad *)

Ltac mrun :=
  repeat (progress (unfold mbind, M_bind, bind, mret, M_ret, ret, throw, exhausted,
                     getApi, setTransactions, setAccounts, unawaited, try_catch,
                     fetchJson, now; cbv beta iota zeta delta [fst snd])).

Lemma bind_run {A B} (m : M A) (k : A -> M B) w :
  (x ← m; k x) w =
  match m w with
  | (Ok a, w') => k a w'
  | (Stop e, w') => (Stop e, w')
  end.
Proof. reflexivity. Qed.

Lemma issued_app w w' l : trace w' = trace w ++ l -> issued w w' = l.
Proof. intros H. unfold issued. rewrite H. apply drop_app_length. Qed.

Lemma issued_refl w : issued w w = [].
Proof. apply issued_app. now rewrite app_nil_r. Qed.

Section Frames.
Context (R : World -> World -> Prop).
Context (R_refl : forall w, R w w) (R_trans : forall a b c, R a b -> R b c -> R a c).

Lemma within_ret {A} (a : A) : within R (mret a).
Proof. intros w r w' H. inversion H. apply R_refl. Qed.

Lemma within_throw {A} : within R (@throw A).
Proof. intros w r w' H. inversion H. apply R_refl. Qed.

Lemma within_exhausted {A} : within R (@exhausted A).
Proof. intros w r w' H. inversion H. apply R_refl. Qed.

Lemma within_getApi : within R getApi.
Proof. intros w r w' H. inversion H. apply R_refl. Qed.

Lemma within_bind {A B} (m : M A) (k : A -> M B) :
  within R m -> (forall a, within R (k a)) -> within R (x ← m; k x).
Proof.
  intros Hm Hk w r w' H. rewrite bind_run in H.
  destruct (m w) as [[a|e] w1] eqn:E.
  - eapply R_trans; [eapply Hm, E | eapply Hk, H].
  - inversion H; subst. eapply Hm, E.
Qed.

Lemma within_try_catch {A} (m h : M A) :
  within R m -> within R h -> within R (try_catch m h).
Proof.
  intros Hm Hh w r w' H. unfold try_catch in H.
  destruct (m w) as [[a|[|]] w1] eqn:E.
  - inversion H; subst. eapply Hm, E.
  - eapply R_trans; [eapply Hm, E | eapply Hh, H].
  - inversion H; subst. eapply Hm, E.
Qed.

Lemma within_unawaited {A} (m : M A) : within R m -> within R (unawaited m).
Proof.
  intros Hm w r w' H. unfold unawaited in H. inversion H; subst.
  destruct (m w) as [r1 w1] eqn:E. eapply Hm, E.
Qed.

Lemma within_forEach {A} (f : A -> M unit) xs :
  (forall x, within R (f x)) -> within R (forEach f xs).
Proof.
  intros Hf. induction xs as [|x xs IH]; cbn [forEach].
  - apply within_ret.
  - apply within_bind; auto.
Qed.
End Frames.

Lemma frame_refl P Q : (forall a, Q a a) -> forall w, frame P Q w w.
Proof.
  intros HQ w. split; [|apply HQ]. exists []. rewrite app_nil_r. auto.
Qed.

Lemma frame_trans P Q :
  (forall a b c, Q a b -> Q b c -> Q a c) ->
  forall a b c, frame P Q a b -> frame P Q b c -> frame P Q a c.
Proof.
  intros HQ a b c [[l1 [E1 F1]] Q1] [[l2 [E2 F2]] Q2]. split; [|eauto].
  exists (l1 ++ l2). rewrite E2, E1, <- app_assoc. split; [reflexivity|].
  apply Forall_app; auto.
Qed.

Lemma frame_issue (P : Call -> Prop) (Q : ynab.Api.t -> ynab.Api.t -> Prop) c w :
  (forall a, Q a a) -> P c -> frame P Q w (issue c w).
Proof.
  intros HQ Hc. split; [|apply HQ]. exists [c]. split; [reflexivity|].
  constructor; auto.
Qed.

Lemma within_fetchJson P Q remote c :
  (forall a, Q a a) -> P c -> within (frame P Q) (fetchJson remote c).
Proof. intros HQ Hc w r w' H. inversion H. now apply frame_issue. Qed.

Lemma within_now R remote : (forall w, R w w) -> within R (now remote).
Proof. intros HR w r w' H. inversion H. apply HR. Qed.

(** ** Frames of the client methods *)

Ltac within_step R_refl R_trans :=
  match goal with
  | |- within _ (mret _) => apply within_ret; exact R_refl
  | |- within _ throw => apply within_throw; exact R_refl
  | |- within _ exhausted => apply within_exhausted; exact R_refl
  | |- within _ getApi => apply within_getApi; exact R_refl
  | |- within _ (now _) => apply within_now; exact R_refl
  | |- within _ (mbind _ _) => apply (within_bind _ R_trans); [|intros]
  | |- within _ (try_catch _ _) => apply (within_try_catch _ R_trans)
  | |- within _ (unawaited _) => apply within_unawaited
  | |- within _ (forEach _ _) => apply (within_forEach _ R_refl R_trans); intros
  | |- within _ (match ?x with _ => _ end) => destruct x
  end.

(** Handlers and composite operations stay within every preorder that the
    requests to the source ledger and the methods of the destination client
    stay within. *)
Section Composite.
Context (rt : Runtime) (remote : Remote).
Context (R : World -> World -> Prop).
Context (R_refl : forall w, R w w) (R_trans : forall a b c, R a b -> R b c -> R a c).

Ltac within_tac := repeat within_step R_refl R_trans.

(** *** The source-ledger client *)

Context (R_up : forall c, isUp c = true -> within R (fetchJson remote c)).

Lemma within_up_fetchUrl self method url payload :
  within R (UpApi.fetchUrl remote self method url payload).
Proof.
  unfold UpApi.fetchUrl, UpApi.headers. within_tac. now apply R_up.
Qed.

Lemma within_up_getTransaction self id :
  within R (UpApi.getTransaction remote self id).
Proof.
  unfold UpApi.getTransaction, UpApi.get, UpApi.fetch.
  apply (within_bind _ R_trans); [apply within_up_fetchUrl|intros]. within_tac.
Qed.

Lemma within_up_getAccount self id :
  within R (UpApi.getAccount remote self id).
Proof.
  unfold UpApi.getAccount, UpApi.get, UpApi.fetch.
  apply (within_bind _ R_trans); [apply within_up_fetchUrl|intros]. within_tac.
Qed.

Lemma within_up_getAllPages_loop fuel self data nextLink :
  within R (UpApi.getAllPages_loop remote fuel self data nextLink).
Proof.
  revert data nextLink. induction fuel as [|fuel IH]; intros data nextLink;
    cbn [UpApi.getAllPages_loop].
  - within_tac.
  - destruct nextLink as [link|]; [|within_tac]. destruct (Js.truthy link); [|within_tac].
    apply (within_bind _ R_trans); [apply within_up_fetchUrl|intros json].
    destruct json; try apply IH; within_tac.
Qed.

Lemma within_up_getWebhooks fuel self :
  within R (UpApi.getWebhooks remote fuel self).
Proof. apply within_up_getAllPages_loop. Qed.

Lemma within_up_deleteWebhook self id :
  within R (UpApi.deleteWebhook remote self id).
Proof.
  unfold UpApi.deleteWebhook, UpApi.delete, UpApi.fetch.
  apply (within_bind _ R_trans); [apply within_up_fetchUrl|intros]. within_tac.
Qed.

Lemma within_up_newWebhook self url description :
  within R (UpApi.newWebhook remote self url description).
Proof.
  unfold UpApi.newWebhook, UpApi.post, UpApi.fetch.
  apply (within_bind _ R_trans); [apply within_up_fetchUrl|intros]. within_tac.
Qed.

Lemma within_classify request : within R (classify rt remote request).
Proof.
  unfold classify. within_tac.
  - apply within_up_getTransaction.
  - apply within_up_getAccount.
Qed.

Lemma within_init fuel request : within R (init rt remote fuel request).
Proof.
  unfold init. within_tac;
    solve [apply within_up_getWebhooks | apply within_up_deleteWebhook
          | apply within_up_newWebhook].
Qed.

(** *** Account provisioning *)

Context (R_getAccount : forall id, within R (YnabApi.getAccount remote id)).
Context (R_createAccount :
  forall name type id, within R (YnabApi.createAccount remote name type id)).

Lemma within_createYnabAccount upAccount :
  within R (createYnabAccount remote upAccount).
Proof. unfold createYnabAccount. within_tac. apply R_createAccount. Qed.

Lemma within_getYnabTransferAccountPayeeId upTransferAccountId :
  within R (getYnabTransferAccountPayeeId remote upTransferAccountId).
Proof.
  unfold getYnabTransferAccountPayeeId. within_tac;
    solve [apply R_getAccount | apply within_up_getAccount
          | apply within_createYnabAccount].
Qed.

Lemma within_newTransaction t a key :
  within R (newTransaction rt remote t a key).
Proof.
  unfold newTransaction.
  apply (within_bind _ R_trans); [apply R_getAccount|intros o].
  apply (within_bind _ R_trans).
  - destruct o; [within_tac | apply within_createYnabAccount].
  - intros ya. destruct (up.Transaction.transferAccount t) as [ta|]; [|within_tac].
    destruct (Js.truthy ta); [|within_tac].
    apply (within_bind _ R_trans); [apply within_getYnabTransferAccountPayeeId|].
    intros. within_tac.
Qed.

(** *** Reconciliation *)

Context (R_lookup :
  forall key date, within R (YnabApi.getTransactionFromImportId rt remote key date)).
Context (R_createTransaction :
  forall fields, within R (YnabApi.createTransaction remote fields)).
Context (R_updateTransaction :
  forall id fields, within R (YnabApi.updateTransaction remote id fields)).

Lemma within_resolve t a : within R (resolve rt remote t a).
Proof.
  unfold resolve. within_tac;
    solve [apply R_lookup | apply R_updateTransaction | apply within_newTransaction
          | apply R_createTransaction].
Qed.

Lemma within_propagate ids t : within R (propagate remote ids t).
Proof. unfold propagate. within_tac. apply R_updateTransaction. Qed.

Lemma within_webhook request : within R (webhook rt remote request).
Proof.
  unfold webhook. within_tac;
    solve [apply within_classify | apply within_resolve | apply within_propagate].
Qed.

End Composite.

(** The account methods of the destination client, in a frame. *)
Section FrameMethods.
Context (remote : Remote).
Context (P : Call -> Prop) (Q : ynab.Api.t -> ynab.Api.t -> Prop).
Context (Q_refl : forall a, Q a a) (Q_trans : forall a b c, Q a b -> Q b c -> Q a c).
Context (P_other : forall c, isCreateTransaction c = false -> P c).
Context (Q_accounts : forall api c,
  Q api {| ynab.Api.accounts := c; ynab.Api.transactions := ynab.Api.transactions api |}).

Local Abbreviation R := (frame P Q).

Lemma frame_methods_refl : forall w, R w w.
Proof. exact (frame_refl P Q Q_refl). Qed.

Lemma frame_methods_trans : forall a b c, R a b -> R b c -> R a c.
Proof. exact (frame_trans P Q Q_trans). Qed.

Ltac within_tac := repeat within_step frame_methods_refl frame_methods_trans.

Lemma frame_up c : isUp c = true -> within R (fetchJson remote c).
Proof.
  intros Hc. apply within_fetchJson; auto. apply P_other. now destruct c.
Qed.

Lemma within_setAccounts c : within R (setAccounts c).
Proof.
  intros w r w' H. inversion H; subst. split; [|apply Q_accounts].
  exists []. cbn. rewrite app_nil_r. auto.
Qed.

Lemma frame_ynab_getAccount upAccountId :
  within R (YnabApi.getAccount remote upAccountId).
Proof.
  unfold YnabApi.getAccount, YnabApi.get, YnabApi.fetch. within_tac;
    solve [apply within_fetchJson; auto | apply within_setAccounts].
Qed.

Lemma frame_ynab_createAccount name type id :
  within R (YnabApi.createAccount remote name type id).
Proof.
  unfold YnabApi.createAccount, YnabApi.post, YnabApi.fetch.
  within_tac; solve [apply within_fetchJson; auto | apply within_setAccounts].
Qed.

Lemma frame_newTransaction rt t a key : within R (newTransaction rt remote t a key).
Proof.
  exact (within_newTransaction rt remote R frame_methods_refl frame_methods_trans
           frame_up frame_ynab_getAccount frame_ynab_createAccount t a key).
Qed.

End FrameMethods.

(** ** Exact runs *)

Lemma issueAll_nil w : issueAll [] w = w.
Proof. destruct w. unfold issueAll. cbn. now rewrite app_nil_r. Qed.

Lemma issueAll_issue c l w : issueAll l (issue c w) = issueAll (c :: l) w.
Proof. unfold issueAll, issue. cbn. now rewrite <- app_assoc. Qed.

Lemma issue_issueAll c w : issue c w = issueAll [c] w.
Proof. reflexivity. Qed.

Lemma issueAll_app l1 l2 w : issueAll l2 (issueAll l1 w) = issueAll (l1 ++ l2) w.
Proof. unfold issueAll. cbn. now rewrite <- app_assoc. Qed.

Lemma issued_issueAll l w : issued w (issueAll l w) = l.
Proof. now apply issued_app. Qed.

(** ** Numbers *)

Lemma times_cases a b : Js.times a b = Js.nonfinite \/ exists n, Js.times a b = Js.num n.
Proof.
  unfold Js.times.
  destruct (Js.overflows (Js.roundToDouble a) || Js.overflows (Js.roundToDouble b));
    [now left|].
  destruct (Js.overflows _); [now left | right; eauto].
Qed.

Lemma times_nonEmpty a b : Js.nonEmpty (Js.times a b) = true.
Proof. destruct (times_cases a b) as [-> | [n ->]]; reflexivity. Qed.

Lemma roundToDouble_exact z : Z.abs z < 9007199254740992 -> Js.roundToDouble z = z.
Proof. intros H. unfold Js.roundToDouble. apply Z.ltb_lt in H. now rewrite H. Qed.

Lemma overflows_small z : Z.abs z < 9007199254740992 -> Js.overflows z = false.
Proof.
  intros H. unfold Js.overflows. apply Z.leb_gt.
  assert (9007199254740992 < 2 ^ 1024) by (apply Z.ltb_lt; vm_compute; reflexivity).
  lia.
Qed.

(** Within the integers that doubles count exactly, the product is the
    product of the integers. *)
Lemma times_exact a b :
  Z.abs a < 9007199254740992 -> Z.abs b < 9007199254740992 ->
  Z.abs (a * b) < 9007199254740992 ->
  Js.times a b = Js.num (a * b).
Proof.
  intros Ha Hb Hab. unfold Js.times.
  rewrite !roundToDouble_exact by assumption.
  rewrite !overflows_small by assumption. cbn [orb].
  unfold Js.written. apply Z.ltb_lt in Hab. now rewrite Hab.
Qed.

Lemma removeEmptyProperties_amountAndCleared t :
  ynab.removeEmptyProperties (amountAndCleared t) = amountAndCleared t.
Proof.
  unfold amountAndCleared, ynab.removeEmptyProperties. cbn [List.filter snd].
  rewrite times_nonEmpty. now destruct (up.Transaction.isSettled t).
Qed.

Section Runs.
Context (rt : Runtime) (remote : Remote).

Lemma getTransactionFromImportId_hit key date w ids :
  transactionCache w !! key = Some ids ->
  YnabApi.getTransactionFromImportId rt remote key date w = (Ok (Some ids), w).
Proof.
  unfold transactionCache. intros H.
  unfold YnabApi.getTransactionFromImportId, ynab.YnabCache.has, ynab.YnabCache.get.
  mrun. rewrite H, bool_decide_eq_true_2 by eauto. cbn [negb]. mrun. now rewrite H.
Qed.


Lemma updateTransaction_run id fields w :
  exists r, YnabApi.updateTransaction remote id fields w =
            (r, issue (updateCall id (ynab.removeEmptyProperties fields)) w).
Proof.
  unfold YnabApi.updateTransaction, YnabApi.put, YnabApi.fetch. mrun.
  destruct (respond remote (trace w) _); eauto.
Qed.

Lemma propagate_run ids t w :
  exists r, propagate remote ids t w = (r, issueAll (counterpartUpdates ids t) w).
Proof.
  unfold propagate, counterpartUpdates.
  destruct (ynab.TransactionIds.transfer_transaction_id ids) as [c|].
  - destruct (Js.truthy c && up.Transaction.isSettled t).
    + destruct (updateTransaction_run c [("cleared", Js.str "cleared")] w) as [r Hr].
      exists r. rewrite Hr. reflexivity.
    + exists (Ok tt). now rewrite issueAll_nil.
  - exists (Ok tt). now rewrite issueAll_nil.
Qed.

Lemma resolve_found t a w ids w1 :
  YnabApi.getTransactionFromImportId rt remote (importId (up.Transaction.id t))
    (Some (up.Transaction.createdAt t)) w = (Ok (Some ids), w1) ->
  resolve rt remote t a w =
    (Ok ids, issue (updateCall (ynab.TransactionIds.id ids) (amountAndCleared t)) w1).
Proof.
  intros H. unfold resolve. rewrite bind_run, H. rewrite bind_run.
  unfold unawaited.
  destruct (updateTransaction_run (ynab.TransactionIds.id ids) (amountAndCleared t) w1)
    as [r Hr].
  rewrite Hr, removeEmptyProperties_amountAndCleared. reflexivity.
Qed.

Lemma webhook_process request w t a w0 :
  classify rt remote request w = (Ok (Process t a), w0) ->
  webhook rt remote request w =
    (ynabTransactionId ← resolve rt remote t a;
     propagate remote ynabTransactionId t;;
     mret {| HttpResponseInit.status := 200; HttpResponseInit.body := Some "" |}) w0.
Proof. intros H. unfold webhook. rewrite bind_run, H. reflexivity. Qed.

Lemma webhook_respond request w response w0 :
  classify rt remote request w = (Ok (Respond response), w0) ->
  webhook rt remote request w = (Ok response, w0).
Proof. intros H. unfold webhook. rewrite bind_run, H. reflexivity. Qed.

Lemma webhook_stop request w e w0 :
  classify rt remote request w = (Stop e, w0) ->
  webhook rt remote request w = (Stop e, w0).
Proof. intros H. unfold webhook. rewrite bind_run, H. reflexivity. Qed.

Lemma webhook_resolved request w t a w0 ids w1 :
  classify rt remote request w = (Ok (Process t a), w0) ->
  resolve rt remote t a w0 = (Ok ids, w1) ->
  exists r, webhook rt remote request w = (r, issueAll (counterpartUpdates ids t) w1).
Proof.
  intros Hc Hr. rewrite (webhook_process _ _ _ _ _ Hc). rewrite bind_run, Hr.
  rewrite bind_run. destruct (propagate_run ids t w1) as [r Hp]. rewrite Hp.
  destruct r as [[]|e]; eauto.
Qed.

End Runs.

(** ** The idempotency key *)

Lemma replaceAll_dash s : Js.replaceAll "-" "" s = stripDashes s.
Proof.
  unfold Js.replaceAll. induction s as [|c s IH]; [reflexivity|].
  cbn [Js.replaceAll_from stripDashes Js.startsWith].
  rewrite (Ascii.eqb_sym "-"%char c).
  destruct (Ascii.eqb c "-"); cbn; now rewrite IH.
Qed.

Lemma stripDashes_no_dash s c : In c (list_ascii_of_string (stripDashes s)) -> c <> "-"%char.
Proof.
  induction s as [|a s IH]; cbn; [tauto|].
  destruct (Ascii.eqb a "-") eqn:E; [exact IH|].
  cbn. intros [<-|H]; [|auto]. now apply Ascii.eqb_neq.
Qed.

(** C7: the idempotency key is the prefix ["up:"] followed by the source
    transaction id with every dash removed (the other characters kept, in
    order); for the id ["t1"] it is ["up:t1"]; no dash is left behind the
    prefix; and the key is determined by the source id alone. *)
Theorem importId_is_prefixed_dashless_id (id : string) :
  importId id = "up:" +:+ stripDashes id /\
  importId "t1" = "up:t1" /\
  (forall c, In c (list_ascii_of_string (stripDashes id)) -> c <> "-"%char) /\
  (forall t t' : up.Transaction.t,
     up.Transaction.id t = up.Transaction.id t' ->
     importId (up.Transaction.id t) = importId (up.Transaction.id t')).
Proof.
  repeat split.
  - unfold importId. now rewrite replaceAll_dash.
  - apply stripDashes_no_dash.
  - intros t t' H. now rewrite H.
Qed.

(** ** Signature check (C10) *)

(** C10: on a valid connection selector, when the signature header is
    absent or the connection's webhook secret is not configured (the
    environment variable is unset or empty), [validateWebhookSignature]
    returns false and [webhook] answers 403 "Invalid signature" in an
    unchanged world: no request is issued, no cache is touched. *)
Theorem unsigned_or_unkeyed_webhook_is_rejected
    (rt : Runtime) (remote : Remote) (request : HttpRequest.t)
    (account : Selector) (w : World) :
  Selector_parse (HttpRequest.query request "account") = Some account ->
  HttpRequest.headers request "x-up-authenticity-signature" = None \/
  Js.truthy_opt (processEnv remote ("UP_" +:+ Selector_upper account +:+ "_WEBHOOK")) = false ->
  up.Api.validateWebhookSignature rt (upApis remote account) (HttpRequest.text request)
    (HttpRequest.headers request "x-up-authenticity-signature") = false /\
  webhook rt remote request w =
    (Ok {| HttpResponseInit.status := 403;
           HttpResponseInit.body := Some "Invalid signature" |}, w).
Proof.
  intros Hsel Hmissing.
  assert (Hv : up.Api.validateWebhookSignature rt (upApis remote account)
                 (HttpRequest.text request)
                 (HttpRequest.headers request "x-up-authenticity-signature") = false).
  { unfold up.Api.validateWebhookSignature.
    destruct Hmissing as [-> | Hsecret]; [reflexivity|].
    assert (Js.truthy (up.Api.webhookSecret (upApis remote account)) = false) as ->.
    { destruct account; unfold upApis, up.Api.new; cbn [up.Api.webhookSecret];
        [ change ("UP_" +:+ Selector_upper primary +:+ "_WEBHOOK")
            with "UP_PRIMARY_WEBHOOK" in Hsecret
        | change ("UP_" +:+ Selector_upper secondary +:+ "_WEBHOOK")
            with "UP_SECONDARY_WEBHOOK" in Hsecret ];
        destruct (processEnv remote _); auto. }
    now rewrite orb_true_r. }
  split; [exact Hv|].
  unfold webhook, classify. rewrite Hsel, Hv. reflexivity.
Qed.

Lemma unsigned_or_unkeyed_webhook_is_rejected_witness :
  Selector_parse (HttpRequest.query Scenario.unsignedDelivery "account") = Some primary /\
  webhook Scenario.rt (Scenario.remote true true false "INDIVIDUAL" [])
    Scenario.unsignedDelivery World_init =
    (Ok {| HttpResponseInit.status := 403;
           HttpResponseInit.body := Some "Invalid signature" |}, World_init).
Proof.
  split; [reflexivity|].
  apply (unsigned_or_unkeyed_webhook_is_rejected Scenario.rt
           (Scenario.remote true true false "INDIVIDUAL" [])
           Scenario.unsignedDelivery primary World_init);
    [reflexivity | left; reflexivity].
Defined.

(** ** Updates of a found transaction (C6) and of its counterpart (C3) *)

(** C6, as the code has it: when the lookup of the idempotency key finds
    a destination transaction (at once or after a refresh), the handler's
    next request is the update of that transaction, and its payload has
    exactly the two fields [amount] and [cleared]; no account, date,
    import-id, memo or payee field is sent.  [cleared] is "cleared" for a
    settled source transaction and "uncleared" otherwise.  [amount] is the
    product of the source minor-unit value and 10 as JavaScript computes
    it, in doubles: exactly ten times the value as long as that stays below
    2^53 in magnitude, a rounded product beyond.  The only request after
    the update is the counterpart update of lines 288-291. *)
Theorem found_transaction_update_has_two_fields
    (rt : Runtime) (remote : Remote) (request : HttpRequest.t)
    (w w0 w1 : World) (t : up.Transaction.t) (a : up.Account.t)
    (ids : ynab.TransactionIds.t) :
  classify rt remote request w = (Ok (Process t a), w0) ->
  YnabApi.getTransactionFromImportId rt remote (importId (up.Transaction.id t))
    (Some (up.Transaction.createdAt t)) w0 = (Ok (Some ids), w1) ->
  let value := up.TransactionAmount.valueInBaseUnits (up.Transaction.amount t) in
  let fields :=
    [("amount", Js.times value 10);
     ("cleared", Js.str (if up.Transaction.isSettled t then "cleared" else "uncleared"))] in
  (exists r, webhook rt remote request w =
     (r, issueAll (YnabFetch "put" ("transactions/" +:+ ynab.TransactionIds.id ids) []
                     (Some (Js.obj [("transaction", Js.obj fields)]))
                   :: counterpartUpdates ids t) w1)) /\
  Forall (fun k => Js.get k fields = Js.undefined)
    ["account_id"; "date"; "import_id"; "memo"; "payee_id"; "payee_name"] /\
  (Z.abs (value * 10) < 9007199254740992 -> Js.times value 10 = Js.num (value * 10)).
Proof.
  intros Hc Hl value fields. split; [|split].
  - pose proof (resolve_found rt remote t a w0 ids w1 Hl) as Hr.
    destruct (webhook_resolved rt remote _ _ _ _ _ _ _ Hc Hr) as [r Hw].
    exists r. rewrite Hw. now rewrite issueAll_issue.
  - repeat constructor.
  - intros Hsafe. apply times_exact; [lia | reflexivity | exact Hsafe].
Qed.

(** C3: once a transaction is resolved to a destination identity, the
    handler ends with exactly one further request when that identity
    carries a counterpart id and the source transaction is settled: the
    update of the counterpart whose payload is the single field [cleared]
    set to "cleared", whatever the ledger holds for the counterpart.  When
    the transaction is not settled, or the counterpart id is missing or
    empty, the handler issues nothing further.  The caches are left as the
    resolution left them. *)
Theorem settled_transfer_clears_counterpart
    (rt : Runtime) (remote : Remote) (request : HttpRequest.t)
    (w w0 w1 : World) (t : up.Transaction.t) (a : up.Account.t)
    (ids : ynab.TransactionIds.t) :
  classify rt remote request w = (Ok (Process t a), w0) ->
  resolve rt remote t a w0 = (Ok ids, w1) ->
  exists r w2,
    webhook rt remote request w = (r, w2) /\
    ynabApi w2 = ynabApi w1 /\
    (forall counterpart,
       ynab.TransactionIds.transfer_transaction_id ids = Some counterpart ->
       counterpart <> "" ->
       up.Transaction.isSettled t = true ->
       trace w2 = trace w1 ++
         [YnabFetch "put" ("transactions/" +:+ counterpart) []
            (Some (Js.obj [("transaction", Js.obj [("cleared", Js.str "cleared")])]))]) /\
    (up.Transaction.isSettled t = false \/
     ynab.TransactionIds.transfer_transaction_id ids = None \/
     ynab.TransactionIds.transfer_transaction_id ids = Some "" ->
     trace w2 = trace w1).
Proof.
  intros Hc Hr.
  destruct (webhook_resolved rt remote _ _ _ _ _ _ _ Hc Hr) as [r Hw].
  exists r, (issueAll (counterpartUpdates ids t) w1).
  split; [exact Hw|]. split; [reflexivity|]. unfold counterpartUpdates. split.
  - intros c -> Hne ->. destruct c; [congruence|]. reflexivity.
  - intros [-> | [-> | ->]]; cbn; rewrite ?andb_false_r, ?app_nil_r; try reflexivity.
    destruct (ynab.TransactionIds.transfer_transaction_id ids);
      rewrite ?andb_false_r, ?app_nil_r; reflexivity.
Qed.

Lemma found_transaction_update_has_two_fields_witness :
  classify Scenario.rt Run.ledger Run.request Run.afterFirst =
    (Ok (Process (Scenario.debit false) (Scenario.account "a1" "INDIVIDUAL")),
     Run.classifiedAgain) /\
  exists r, webhook Scenario.rt Run.ledger Run.request Run.afterFirst =
    (r, issueAll
          [YnabFetch "put" "transactions/transaction-5" []
             (Some (Js.obj [("transaction",
                Js.obj [("amount", Js.num (-15000)); ("cleared", Js.str "cleared")])]))]
          Run.classifiedAgain).
Proof.
  split; [vm_compute; reflexivity|].
  apply (found_transaction_update_has_two_fields Scenario.rt Run.ledger Run.request
           Run.afterFirst Run.classifiedAgain Run.classifiedAgain
           (Scenario.debit false) (Scenario.account "a1" "INDIVIDUAL") Run.coffeeIds);
    vm_compute; reflexivity.
Defined.

(** C6 as stated fails beyond the integers that doubles count exactly: for
    a source value of 2^53 - 1 base units, ten times the value is
    90071992547409910, and the update of the found transaction carries the
    amount 90071992547409900. *)
Lemma update_amount_is_rounded_beyond_2_53 :
  classify Scenario.rt Large.ledger Run.request Large.afterFirst =
    (Ok (Process Large.payment (Scenario.account "a1" "INDIVIDUAL")),
     Large.classifiedAgain) /\
  transactionCache Large.classifiedAgain !! importId (up.Transaction.id Large.payment) =
    Some Run.coffeeIds /\
  webhook Scenario.rt Large.ledger Run.request Large.afterFirst =
    (Ok {| HttpResponseInit.status := 200; HttpResponseInit.body := Some "" |},
     Large.afterSecond) /\
  List.filter isYnab (issued Large.afterFirst Large.afterSecond) =
    [updateCall "transaction-5"
       [("amount", Js.num 90071992547409900); ("cleared", Js.str "cleared")]] /\
  up.TransactionAmount.valueInBaseUnits (up.Transaction.amount Large.payment) * 10 =
    90071992547409910.
Proof. repeat split; vm_compute; reflexivity. Qed.

Lemma settled_transfer_clears_counterpart_witness :
  resolve Scenario.rt Run.transferLedger (Scenario.debit true)
    (Scenario.account "a1" "INDIVIDUAL") Run.classifiedTransfer =
    (Ok Run.transferIds, Run.resolvedTransfer) /\
  exists r w2,
    webhook Scenario.rt Run.transferLedger Run.request World_init = (r, w2) /\
    trace w2 = trace Run.resolvedTransfer ++
      [YnabFetch "put" "transactions/counterpart-1" []
         (Some (Js.obj [("transaction", Js.obj [("cleared", Js.str "cleared")])]))].
Proof.
  split; [vm_compute; reflexivity|].
  destruct (settled_transfer_clears_counterpart Scenario.rt Run.transferLedger Run.request
              World_init Run.classifiedTransfer Run.resolvedTransfer
              (Scenario.debit true) (Scenario.account "a1" "INDIVIDUAL") Run.transferIds)
    as (r & w2 & Hw & _ & Hput & _); [vm_compute; reflexivity .. |].
  exists r, w2. split; [exact Hw|].
  apply (Hput "counterpart-1"); [reflexivity | discriminate | reflexivity].
Defined.

(** ** The guard rules (C2, C5) *)

Lemma filter_isYnab_up l :
  Forall (fun c => isUp c = true) l -> List.filter isYnab l = [].
Proof.
  induction 1 as [|c l Hc _ IH]; [reflexivity|]. cbn.
  unfold isUp in Hc. apply negb_true_iff in Hc. now rewrite Hc.
Qed.

Lemma isYnabWrite_isYnab c : isYnabWrite c = true -> isYnab c = true.
Proof. now destruct c. Qed.

Lemma filter_isYnabWrite_up l :
  Forall (fun c => isUp c = true) l -> List.filter isYnabWrite l = [].
Proof.
  induction 1 as [|c l Hc _ IH]; [reflexivity|]. cbn.
  destruct (isYnabWrite c) eqn:E; [|exact IH].
  apply isYnabWrite_isYnab in E. unfold isUp in Hc. now rewrite E in Hc.
Qed.

Lemma upOnly_refl w : upOnly w w.
Proof. now apply frame_refl. Qed.

Lemma upOnly_trans a b c : upOnly a b -> upOnly b c -> upOnly a c.
Proof. apply frame_trans. congruence. Qed.

Lemma upOnly_issued w w' :
  upOnly w w' ->
  ynabApi w' = ynabApi w /\ Forall (fun c => isUp c = true) (issued w w').
Proof.
  intros [[l [E F]] Q]. split; [now symmetry|]. now rewrite (issued_app _ _ _ E).
Qed.

Section Guards.
Context (rt : Runtime) (remote : Remote).

Lemma upOnly_fetch c : isUp c = true -> within upOnly (fetchJson remote c).
Proof. intros Hc. now apply within_fetchJson. Qed.

Lemma classify_upOnly request : within upOnly (classify rt remote request).
Proof. exact (within_classify rt remote _ upOnly_refl upOnly_trans upOnly_fetch request). Qed.

Lemma up_getTransaction_upOnly self id : within upOnly (UpApi.getTransaction remote self id).
Proof. exact (within_up_getTransaction remote _ upOnly_refl upOnly_trans upOnly_fetch self id). Qed.

Lemma up_getAccount_upOnly self id : within upOnly (UpApi.getAccount remote self id).
Proof. exact (within_up_getAccount remote _ upOnly_refl upOnly_trans upOnly_fetch self id). Qed.

(** On an accepted transaction event the guard rules are the two fetches
    and the two skip tests. *)
Lemma classify_transactionEvent request account id w :
  transactionEvent rt remote request account id ->
  classify rt remote request w =
    (upTransaction ← UpApi.getTransaction remote (upApis remote account) id;
     if isTransferCredit upTransaction then
       mret (Respond {| HttpResponseInit.status := 200; HttpResponseInit.body := None |})
     else
       upAccount ← UpApi.getAccount remote (upApis remote account)
                     (up.Transaction.accountId upTransaction);
       if isJointOnSecondary upAccount account then
         mret (Respond {| HttpResponseInit.status := 200; HttpResponseInit.body := None |})
       else mret (Process upTransaction upAccount)) w.
Proof.
  intros (Hsel & Hsig & json & Hjson & Htype & Hid).
  unfold classify. now rewrite Hsel, Hsig, Hjson, Htype, Hid.
Qed.

Lemma classify_transfer_credit request account id w t w0 :
  transactionEvent rt remote request account id ->
  UpApi.getTransaction remote (upApis remote account) id w = (Ok t, w0) ->
  isTransferCredit t = true ->
  classify rt remote request w =
    (Ok (Respond {| HttpResponseInit.status := 200; HttpResponseInit.body := None |}), w0).
Proof.
  intros He Ht Hc. rewrite (classify_transactionEvent _ _ _ _ He), bind_run, Ht, Hc.
  reflexivity.
Qed.

Lemma classify_account request account id w t w0 :
  transactionEvent rt remote request account id ->
  UpApi.getTransaction remote (upApis remote account) id w = (Ok t, w0) ->
  isTransferCredit t = false ->
  classify rt remote request w =
    match UpApi.getAccount remote (upApis remote account) (up.Transaction.accountId t) w0 with
    | (Ok a, w1) =>
        if isJointOnSecondary a account
        then (Ok (Respond {| HttpResponseInit.status := 200;
                             HttpResponseInit.body := None |}), w1)
        else (Ok (Process t a), w1)
    | (Stop e, w1) => (Stop e, w1)
    end.
Proof.
  intros He Ht Hc. rewrite (classify_transactionEvent _ _ _ _ He), bind_run, Ht, Hc.
  rewrite bind_run. destruct (UpApi.getAccount _ _ _ _) as [[a|e] w1]; [|reflexivity].
  now destruct (isJointOnSecondary a account).
Qed.

End Guards.

(** C5: for a transaction event whose owning account is joint, the
    handler on the "secondary" connection answers 200 without any request
    to the destination ledger and without touching a cache.  On "primary",
    and for an account that is not joint on either connection, the joint
    rule does not fire: unless the transfer rule has skipped the event
    first, the guard rules hand the transaction to reconciliation and the
    handler runs it. *)
Theorem joint_account_only_through_primary
    (rt : Runtime) (remote : Remote) (request : HttpRequest.t)
    (account : Selector) (id : string) (w w0 w1 : World)
    (t : up.Transaction.t) (a : up.Account.t) :
  transactionEvent rt remote request account id ->
  UpApi.getTransaction remote (upApis remote account) id w = (Ok t, w0) ->
  UpApi.getAccount remote (upApis remote account) (up.Transaction.accountId t) w0 = (Ok a, w1) ->
  (up.Account.ownershipType a = "JOINT" -> account = secondary ->
   exists w',
     webhook rt remote request w =
       (Ok {| HttpResponseInit.status := 200; HttpResponseInit.body := None |}, w') /\
     ynabApi w' = ynabApi w /\
     List.filter isYnab (issued w w') = []) /\
  (account = primary \/ up.Account.ownershipType a <> "JOINT" ->
   isJointOnSecondary a account = false /\
   (isTransferCredit t = false ->
    classify rt remote request w = (Ok (Process t a), w1) /\
    webhook rt remote request w =
      (ynabTransactionId ← resolve rt remote t a;
       propagate remote ynabTransactionId t;;
       mret {| HttpResponseInit.status := 200; HttpResponseInit.body := Some "" |}) w1)).
Proof.
  intros He Ht Ha.
  pose proof (up_getTransaction_upOnly remote _ _ _ _ _ Ht) as F0.
  pose proof (up_getAccount_upOnly remote _ _ _ _ _ Ha) as F1.
  split.
  - intros Hj ->.
    assert (Hjs : isJointOnSecondary a secondary = true).
    { unfold isJointOnSecondary. rewrite Hj. reflexivity. }
    destruct (isTransferCredit t) eqn:Hc.
    + exists w0. rewrite (webhook_respond rt remote _ _ _ _
                           (classify_transfer_credit rt remote _ _ _ _ _ _ He Ht Hc)).
      destruct (upOnly_issued _ _ F0) as [E F].
      repeat split; [exact E | now apply filter_isYnab_up].
    + exists w1.
      assert (Hcl : classify rt remote request w =
                (Ok (Respond {| HttpResponseInit.status := 200;
                                HttpResponseInit.body := None |}), w1)).
      { rewrite (classify_account rt remote _ _ _ _ _ _ He Ht Hc), Ha, Hjs. reflexivity. }
      rewrite (webhook_respond rt remote _ _ _ _ Hcl).
      destruct (upOnly_issued _ _ (upOnly_trans _ _ _ F0 F1)) as [E F].
      repeat split; [exact E | now apply filter_isYnab_up].
  - intros Hp.
    assert (Hjs : isJointOnSecondary a account = false).
    { unfold isJointOnSecondary. destruct Hp as [-> | Hn]; [apply andb_false_r|].
      destruct (String.eqb_spec (up.Account.ownershipType a) "JOINT"); [contradiction|].
      reflexivity. }
    split; [exact Hjs|]. intros Hc.
    assert (Hcl : classify rt remote request w = (Ok (Process t a), w1)).
    { rewrite (classify_account rt remote _ _ _ _ _ _ He Ht Hc), Ha, Hjs. reflexivity. }
    split; [exact Hcl | now apply webhook_process].
Qed.

(** ** Resolution always writes *)

Lemma appended_refl w : appended w w.
Proof. now apply frame_refl. Qed.

Lemma appended_trans a b c : appended a b -> appended b c -> appended a c.
Proof. now apply frame_trans. Qed.

Lemma appended_trace w w' : appended w w' -> exists l, trace w' = trace w ++ l.
Proof. intros [[l [E _]] _]. eauto. Qed.

Section Resolution.
Context (rt : Runtime) (remote : Remote).

Lemma within_setTransactions_appended c : within appended (setTransactions c).
Proof.
  intros w r w' H. inversion H; subst. split; [|exact I].
  exists []. cbn. rewrite app_nil_r. auto.
Qed.

Lemma getTransactionFromImportId_appended key date :
  within appended (YnabApi.getTransactionFromImportId rt remote key date).
Proof.
  unfold YnabApi.getTransactionFromImportId, YnabApi.get, YnabApi.fetch.
  repeat (first [ within_step appended_refl appended_trans
                | apply within_fetchJson; auto
                | apply within_setTransactions_appended
                | match goal with |- within _ (let '(_, _) := ?x in _) => destruct x end ]).
Qed.

Lemma createTransaction_ok fields w ids w' :
  YnabApi.createTransaction remote fields w = (Ok ids, w') ->
  let call := YnabFetch "post" "transactions" []
                (Some (Js.obj [("transaction", Js.obj fields)])) in
  exists data,
    respond remote (trace w) call = YnabTransactionData data /\
    ids = {| ynab.TransactionIds.id := ynab.TransactionJson.id data;
             ynab.TransactionIds.transfer_transaction_id :=
               ynab.TransactionJson.transfer_transaction_id data |} /\
    trace w' = trace w ++ [call] /\
    ynab.Api.accounts (ynabApi w') = ynab.Api.accounts (ynabApi w) /\
    transactionCache w' =
      match ynab.TransactionJson.import_id data with
      | Some key => if Js.truthy key then <[key := ids]> (transactionCache w)
                    else transactionCache w
      | None => transactionCache w
      end.
Proof.
  unfold YnabApi.createTransaction, YnabApi.post, YnabApi.fetch, transactionCache.
  mrun. destruct (respond remote (trace w) _) as [| | | | | | | |data|] eqn:E;
    try discriminate.
  intros H. exists data. split; [reflexivity|].
  destruct (ynab.TransactionJson.import_id data) as [key|];
    [destruct (Js.truthy key)|]; mrun; inversion H; subst; cbn; auto.
Qed.

Lemma newTransaction_appended t a key : within appended (newTransaction rt remote t a key).
Proof. apply frame_newTransaction; auto. Qed.

Lemma resolve_missed t a w w1 :
  YnabApi.getTransactionFromImportId rt remote (importId (up.Transaction.id t))
    (Some (up.Transaction.createdAt t)) w = (Ok None, w1) ->
  resolve rt remote t a w =
    (ynabTransaction ← newTransaction rt remote t a (importId (up.Transaction.id t));
     YnabApi.createTransaction remote ynabTransaction) w1.
Proof. intros H. unfold resolve. now rewrite bind_run, H. Qed.

Lemma resolve_ok_ends_with_write t a w ids w' :
  resolve rt remote t a w = (Ok ids, w') ->
  exists l c, trace w' = trace w ++ l ++ [c] /\ isYnabWrite c = true.
Proof.
  intros H.
  destruct (YnabApi.getTransactionFromImportId rt remote (importId (up.Transaction.id t))
              (Some (up.Transaction.createdAt t)) w) as [[o|e] w1] eqn:El.
  2:{ unfold resolve in H. rewrite bind_run, El in H. discriminate. }
  destruct (appended_trace _ _ (getTransactionFromImportId_appended _ _ _ _ _ El))
    as [l1 E1].
  destruct o as [found|].
  - rewrite (resolve_found rt remote _ a _ _ _ El) in H. inversion H; subst.
    exists l1, (updateCall (ynab.TransactionIds.id ids) (amountAndCleared t)).
    cbn. rewrite E1, <- app_assoc. auto.
  - rewrite (resolve_missed _ a _ _ El), bind_run in H.
    destruct (newTransaction rt remote t a _ w1) as [[fields|e] w2] eqn:En; [|discriminate].
    destruct (appended_trace _ _ (newTransaction_appended _ _ _ _ _ _ En)) as [l2 E2].
    destruct (createTransaction_ok _ _ _ _ H) as (data & _ & _ & E3 & _).
    eexists (l1 ++ l2), _. rewrite E3, E2, E1, <- !app_assoc. split; reflexivity.
Qed.

End Resolution.

Lemma isTransferCredit_spec t :
  isTransferCredit t = true <->
  (exists account, up.Transaction.transferAccount t = Some account /\ account <> "") /\
  0 < up.TransactionAmount.valueInBaseUnits (up.Transaction.amount t).
Proof.
  unfold isTransferCredit. rewrite andb_true_iff, Z.ltb_lt.
  destruct (up.Transaction.transferAccount t) as [[|c s]|]; cbn; split.
  - intros [? _]; discriminate.
  - intros [(x & [= <-] & Hx) _]. contradiction.
  - intros [_ H]. split; [eexists; split; [reflexivity|discriminate]|exact H].
  - intros [_ H]. auto.
  - intros [? _]; discriminate.
  - intros [(x & Hx & _) _]. discriminate.
Qed.

Lemma filter_app_cons_ne {A} (f : A -> bool) l1 c l2 :
  f c = true -> List.filter f (l1 ++ c :: l2) <> [].
Proof.
  intros Hc H. rewrite List.filter_app in H. apply app_eq_nil in H as [_ H].
  cbn in H. now rewrite Hc in H.
Qed.

(** C2, as the code has it: for a fetched transaction of a transaction
    event, the handler skips reconciliation (answers 200 and issues no
    write to the destination ledger) if and only if the transaction has a
    transfer counterpart account and a strictly positive minor-unit amount,
    or its owning account is joint and the connection is "secondary".  A
    transfer credit is skipped right after the fetch of the transaction.
    Of a transfer pair of opposite amounts the transfer rule skips the
    credit side and never the debit side. *)
Theorem skip_iff_transfer_credit_or_joint_on_secondary
    (rt : Runtime) (remote : Remote) (request : HttpRequest.t)
    (account : Selector) (id : string) (w w0 w' : World)
    (t : up.Transaction.t) (r : Result HttpResponseInit.t) :
  transactionEvent rt remote request account id ->
  UpApi.getTransaction remote (upApis remote account) id w = (Ok t, w0) ->
  webhook rt remote request w = (r, w') ->
  (skipped w w' r <->
     ((exists counterpart, up.Transaction.transferAccount t = Some counterpart /\
                           counterpart <> "") /\
      0 < up.TransactionAmount.valueInBaseUnits (up.Transaction.amount t)) \/
     (exists a w1,
        UpApi.getAccount remote (upApis remote account) (up.Transaction.accountId t) w0
          = (Ok a, w1) /\
        up.Account.ownershipType a = "JOINT" /\ account = secondary)) /\
  (isTransferCredit t = true ->
   r = Ok {| HttpResponseInit.status := 200; HttpResponseInit.body := None |} /\ w' = w0) /\
  (forall debit credit : up.Transaction.t,
     Js.truthy_opt (up.Transaction.transferAccount debit) = true ->
     Js.truthy_opt (up.Transaction.transferAccount credit) = true ->
     0 < up.TransactionAmount.valueInBaseUnits (up.Transaction.amount credit) ->
     up.TransactionAmount.valueInBaseUnits (up.Transaction.amount debit) =
       - up.TransactionAmount.valueInBaseUnits (up.Transaction.amount credit) ->
     isTransferCredit credit = true /\ isTransferCredit debit = false).
Proof.
  intros He Ht Hw.
  pose proof (up_getTransaction_upOnly remote _ _ _ _ _ Ht) as F0.
  assert (Hjoint : forall a, isJointOnSecondary a account = true <->
                     up.Account.ownershipType a = "JOINT" /\ account = secondary).
  { intros a. unfold isJointOnSecondary. rewrite andb_true_iff, String.eqb_eq.
    destruct account; intuition congruence. }
  split; [|split].
  - rewrite <- isTransferCredit_spec.
    destruct (isTransferCredit t) eqn:Hc.
    + rewrite (webhook_respond rt remote _ _ _ _
                 (classify_transfer_credit rt remote _ _ _ _ _ _ He Ht Hc)) in Hw.
      inversion Hw; subst. split; [auto|]. intros _. split; [eauto|].
      destruct (upOnly_issued _ _ F0) as [_ F]. now apply filter_isYnabWrite_up.
    + pose proof (classify_account rt remote _ _ _ _ _ _ He Ht Hc) as Hcl.
      destruct (UpApi.getAccount remote (upApis remote account)
                  (up.Transaction.accountId t) w0) as [[a|e] w1] eqn:Ha.
      * pose proof (up_getAccount_upOnly remote _ _ _ _ _ Ha) as F1.
        destruct (isJointOnSecondary a account) eqn:Hj.
        -- rewrite (webhook_respond rt remote _ _ _ _ Hcl) in Hw. inversion Hw; subst.
           split.
           ++ intros _. right. exists a, w'. split; [reflexivity|]. now apply Hjoint.
           ++ intros _. split; [eauto|].
              destruct (upOnly_issued _ _ (upOnly_trans _ _ _ F0 F1)) as [_ F].
              now apply filter_isYnabWrite_up.
        -- split.
           ++ intros [(response & -> & _) Hnone]. exfalso.
              rewrite (webhook_process rt remote _ _ _ _ _ Hcl), bind_run in Hw.
              destruct (resolve rt remote t a w1) as [[ids|e] w2] eqn:Hr; [|discriminate].
              destruct (resolve_ok_ends_with_write _ _ _ _ _ _ _ Hr) as (l & c & E2 & Hc2).
              rewrite bind_run in Hw.
              destruct (propagate_run remote ids t w2) as [rp Hp]. rewrite Hp in Hw.
              assert (E : trace w' = trace w ++
                            (issued w w1 ++ l) ++ c :: counterpartUpdates ids t).
              { destruct (upOnly_trans _ _ _ F0 F1) as [[l0 [E0 _]] _].
                rewrite (issued_app _ _ _ E0).
                destruct rp as [[]|]; inversion Hw; subst; cbn;
                  rewrite E2, E0, <- !app_assoc; reflexivity. }
              rewrite (issued_app _ _ _ E) in Hnone.
              now apply filter_app_cons_ne in Hnone.
           ++ intros [[=] | (a' & w1' & [= <- <-] & Hj')].
              apply Hjoint in Hj'. congruence.
      * rewrite (webhook_stop rt remote _ _ _ _ Hcl) in Hw. inversion Hw; subst. split.
        -- intros [(response & [=] & _) _].
        -- intros [[=] | (a' & w1' & [=] & _)].
  - intros Hc.
    rewrite (webhook_respond rt remote _ _ _ _
               (classify_transfer_credit rt remote _ _ _ _ _ _ He Ht Hc)) in Hw.
    now inversion Hw.
  - intros debit credit Hd Hcr Hpos Hopp. unfold isTransferCredit.
    rewrite Hd, Hcr, Hopp. cbn. split; [now apply Z.ltb_lt | apply Z.ltb_ge; lia].
Qed.

Lemma skip_iff_transfer_credit_or_joint_on_secondary_witness :
  transactionEvent Scenario.rt JointRun.ledger JointRun.request secondary "t1" /\
  (skipped World_init JointRun.final
     (Ok {| HttpResponseInit.status := 200; HttpResponseInit.body := None |}) <->
     ((exists counterpart,
         up.Transaction.transferAccount (Scenario.debit false) = Some counterpart /\
         counterpart <> "") /\
      0 < up.TransactionAmount.valueInBaseUnits (up.Transaction.amount (Scenario.debit false))) \/
     (exists a w1,
        UpApi.getAccount JointRun.ledger (upApis JointRun.ledger secondary)
          (up.Transaction.accountId (Scenario.debit false)) JointRun.fetched = (Ok a, w1) /\
        up.Account.ownershipType a = "JOINT" /\ secondary = secondary)).
Proof.
  assert (He : transactionEvent Scenario.rt JointRun.ledger JointRun.request secondary "t1").
  { repeat split; try reflexivity. exists Scenario.created. repeat split; reflexivity. }
  split; [exact He|].
  apply (skip_iff_transfer_credit_or_joint_on_secondary Scenario.rt JointRun.ledger
           JointRun.request secondary "t1" World_init JointRun.fetched JointRun.final
           (Scenario.debit false)
           (Ok {| HttpResponseInit.status := 200; HttpResponseInit.body := None |}));
    [exact He | vm_compute; reflexivity | vm_compute; reflexivity].
Defined.

(** C2 as stated fails: a debit without transfer counterpart, on a joint
    account, delivered on the secondary connection, is skipped (200, no
    write to the destination ledger) although it is no transfer credit. *)
Lemma joint_debit_on_secondary_is_skipped :
  transactionEvent Scenario.rt JointRun.ledger JointRun.request secondary "t1" /\
  UpApi.getTransaction JointRun.ledger (upApis JointRun.ledger secondary) "t1" World_init =
    (Ok (Scenario.debit false), JointRun.fetched) /\
  webhook Scenario.rt JointRun.ledger JointRun.request World_init =
    (Ok {| HttpResponseInit.status := 200; HttpResponseInit.body := None |},
     JointRun.final) /\
  ~ (skipped World_init JointRun.final
       (Ok {| HttpResponseInit.status := 200; HttpResponseInit.body := None |}) <->
     up.Transaction.transferAccount (Scenario.debit false) <> None /\
     0 < up.TransactionAmount.valueInBaseUnits (up.Transaction.amount (Scenario.debit false))).
Proof.
  split; [|split; [|split]].
  - repeat split; try reflexivity. exists Scenario.created. repeat split; reflexivity.
  - vm_compute; reflexivity.
  - vm_compute; reflexivity.
  - intros [H _]. destruct H as [Hn _]; [|now apply Hn].
    split; [eexists; split; reflexivity | reflexivity].
Qed.

Lemma joint_account_only_through_primary_witness :
  transactionEvent Scenario.rt JointRun.ledger JointRun.request secondary "t1" /\
  exists w',
    webhook Scenario.rt JointRun.ledger JointRun.request World_init =
      (Ok {| HttpResponseInit.status := 200; HttpResponseInit.body := None |}, w') /\
    ynabApi w' = ynabApi World_init /\
    List.filter isYnab (issued World_init w') = [].
Proof.
  assert (He : transactionEvent Scenario.rt JointRun.ledger JointRun.request secondary "t1").
  { repeat split; try reflexivity. exists Scenario.created. repeat split; reflexivity. }
  split; [exact He|].
  apply (joint_account_only_through_primary Scenario.rt JointRun.ledger JointRun.request
           secondary "t1" World_init JointRun.fetched JointRun.fetchedAccount
           (Scenario.debit false) (Scenario.account "a1" "JOINT"));
    [exact He | vm_compute; reflexivity | vm_compute; reflexivity
    | reflexivity | reflexivity].
Defined.

(** ** Account provisioning (C8) *)

Lemma units_pos c : (1 <= Js.units c)%nat.
Proof. unfold Js.units. destruct (Nat.eqb _ _); lia. Qed.

(** A cut leaves at most [n] code units. *)
Lemma length_slice_from skip n s :
  (Js.length_from skip (Js.slice_from skip n s) <= n)%nat.
Proof.
  revert skip n. induction s as [|c s IH]; intros skip n; [cbn; lia|].
  destruct skip as [|k]; cbn [Js.slice_from].
  - destruct (Nat.leb (Js.units c) n) eqn:E.
    + apply Nat.leb_le in E. cbn [Js.length_from].
      specialize (IH (Js.trail c) (n - Js.units c)%nat). lia.
    + destruct n as [|n]; [cbn; lia|].
      unfold Js.highSurrogate. cbn [Js.length_from].
      change (Js.units (ascii_of_nat 237)) with 1%nat.
      change (Js.trail (ascii_of_nat 237)) with 2%nat.
      cbn [Js.length_from]. lia.
  - cbn [Js.length_from]. apply IH.
Qed.

Lemma slice0_length n s : (Js.length (Js.slice0 n s) <= n)%nat.
Proof. apply length_slice_from. Qed.

(** A string of at most [n] code units is left whole. *)
Lemma slice_from_all skip n s :
  (Js.length_from skip s <= n)%nat -> Js.slice_from skip n s = s.
Proof.
  revert skip n. induction s as [|c s IH]; intros skip n H; [reflexivity|].
  destruct skip as [|k]; cbn [Js.slice_from Js.length_from] in *.
  - assert (E : Nat.leb (Js.units c) n = true) by (apply Nat.leb_le; lia).
    rewrite E. f_equal. apply IH. lia.
  - f_equal. now apply IH.
Qed.

Lemma slice0_idem n s : Js.slice0 n (Js.slice0 n s) = Js.slice0 n s.
Proof. apply slice_from_all, length_slice_from. Qed.

(** On ASCII text a code unit is a byte. *)
Lemma length_ascii s :
  ynab.string_forall (fun c => Nat.ltb (nat_of_ascii c) 128) s = true ->
  Js.length s = String.length s.
Proof.
  unfold Js.length. induction s as [|c s IH]; [reflexivity|].
  cbn [ynab.string_forall Js.length_from String.length].
  intros H. apply andb_prop in H as [Hc Hs]. apply Nat.ltb_lt in Hc.
  assert (Ht : Js.trail c = 0%nat).
  { unfold Js.trail. assert (Nat.ltb (nat_of_ascii c) 192 = true) as ->
      by (apply Nat.ltb_lt; lia). reflexivity. }
  unfold Js.units. rewrite Ht. cbn. now rewrite IH.
Qed.

Lemma ynab_getAccount_hit remote key w account :
  accountCache w !! key = Some account ->
  YnabApi.getAccount remote key w = (Ok (Some account), w).
Proof.
  unfold accountCache. intros H.
  unfold YnabApi.getAccount, ynab.YnabCache.has, ynab.YnabCache.get.
  mrun. rewrite H, bool_decide_eq_true_2 by eauto. cbn [negb]. mrun. now rewrite H.
Qed.

(** C8: provisioning a destination account issues exactly one request,
    the creation of an account whose name is "Up: <name> (<id>)" cut to its
    first 50 UTF-16 code units, hence to at most 50 characters, whose type
    is "checking" for a source account of type TRANSACTIONAL and "savings"
    for every other type, whose balance is 0 and whose note is
    "upId:<id>".  When the creation succeeds the new reference is in the
    account cache under the source account id, and a lookup of that id
    returns it without issuing any request. *)
Theorem createYnabAccount_provisions
    (remote : Remote) (upAccount : up.Account.t) (w : World) :
  let name := Js.slice0 50
    ("Up: " +:+ up.Account.name upAccount +:+ " (" +:+ up.Account.id upAccount +:+ ")") in
  let type := if String.eqb (up.Account.type upAccount) "TRANSACTIONAL"
              then "checking" else "savings" in
  let creation :=
    YnabFetch "post" "accounts" []
      (Some (Js.obj [("account",
         Js.obj [("name", Js.str name); ("type", Js.str type); ("balance", Js.num 0);
                 ("note", Js.str ("upId:" +:+ up.Account.id upAccount))])])) in
  (Js.length name <= 50)%nat /\
  exists r w',
    createYnabAccount remote upAccount w = (r, w') /\
    trace w' = trace w ++ [creation] /\
    forall account, r = Ok account ->
      accountCache w' !! up.Account.id upAccount = Some account /\
      YnabApi.getAccount remote (up.Account.id upAccount) w' = (Ok (Some account), w').
Proof.
  intros name type creation. split; [apply slice0_length|].
  unfold createYnabAccount, YnabApi.createAccount, YnabApi.post, YnabApi.fetch.
  cbv zeta. rewrite (slice0_idem 50). fold name.
  assert (Ht : ynab.AccountType.toString
                 (if String.eqb (up.Account.type upAccount) "TRANSACTIONAL"
                  then ynab.AccountType.Checking else ynab.AccountType.Savings) = type).
  { unfold type. now destruct (String.eqb _ _). }
  rewrite Ht. fold creation. mrun.
  destruct (respond remote (trace w) creation) eqn:E; mrun;
    try (eexists _, _; split; [reflexivity|]; split; [reflexivity|];
         intros account [=]; fail).
  eexists _, _. split; [reflexivity|]. split; [reflexivity|].
  intros account [= <-].
  assert (Hc : accountCache
                 {| ynabApi :=
                      {| ynab.Api.accounts :=
                           ynab.YnabCache.set (up.Account.id upAccount)
                             {| ynab.Account.id := id; ynab.Account.payeeId := transfer_payee_id |}
                             (ynab.Api.accounts (ynabApi (issue creation w)));
                         ynab.Api.transactions :=
                           ynab.Api.transactions (ynabApi (issue creation w)) |};
                    trace := trace (issue creation w) |} !! up.Account.id upAccount
               = Some {| ynab.Account.id := id; ynab.Account.payeeId := transfer_payee_id |}).
  { unfold accountCache. cbn. apply lookup_insert_eq. }
  split; [exact Hc | now apply ynab_getAccount_hit].
Qed.

Lemma createYnabAccount_provisions_witness :
  createYnabAccount Run.ledger (Scenario.account "a1" "INDIVIDUAL") World_init =
    (Ok ProvisionRun.reference, ProvisionRun.provisioned) /\
  trace ProvisionRun.provisioned =
    [YnabFetch "post" "accounts" []
       (Some (Js.obj [("account",
          Js.obj [("name", Js.str "Up: Spending (a1)"); ("type", Js.str "checking");
                  ("balance", Js.num 0); ("note", Js.str "upId:a1")])]))] /\
  YnabApi.getAccount Run.ledger "a1" ProvisionRun.provisioned =
    (Ok (Some ProvisionRun.reference), ProvisionRun.provisioned).
Proof.
  assert (Hrun0 : createYnabAccount Run.ledger (Scenario.account "a1" "INDIVIDUAL")
                    World_init = (Ok ProvisionRun.reference, ProvisionRun.provisioned))
    by (vm_compute; reflexivity).
  destruct (createYnabAccount_provisions Run.ledger (Scenario.account "a1" "INDIVIDUAL")
              World_init) as (_ & r & w' & Hrun & Htrace & Hcache).
  rewrite Hrun0 in Hrun. injection Hrun as <- <-.
  split; [exact Hrun0|]. split; [exact Htrace|].
  exact (proj2 (Hcache _ eq_refl)).
Defined.

(** The cut counts code units, not bytes: a name with an accented letter
    keeps 50 code units, which are 51 bytes of UTF-8. *)
Example createYnabAccount_cuts_code_units :
  issued World_init (snd (createYnabAccount Run.ledger Accented.fund World_init)) =
    [YnabFetch "post" "accounts" []
       (Some (Js.obj [("account",
          Js.obj [("name", Js.str Accented.sent); ("type", Js.str "savings");
                  ("balance", Js.num 0); ("note", Js.str "upId:a1")])]))] /\
  Js.length Accented.sent = 50%nat /\
  String.length Accented.sent = 51%nat.
Proof. repeat split; vm_compute; reflexivity. Qed.

(** A cut between the two code units of a character outside the basic
    plane leaves its high surrogate: of U+1F600 (bytes 240 159 152 128)
    the surrogate D83D (bytes 237 160 189). *)
Example slice0_splits_a_pair :
  Js.slice0 2
    (String "a" (String (ascii_of_nat 240) (String (ascii_of_nat 159)
       (String (ascii_of_nat 152) (String (ascii_of_nat 128) "b"))))) =
  String "a" (String (ascii_of_nat 237) (String (ascii_of_nat 160)
    (String (ascii_of_nat 189) EmptyString))).
Proof. vm_compute; reflexivity. Qed.

(** ** Idempotent redelivery (C1) *)


Lemma transactionsKept_refl w : transactionsKept w w.
Proof. now apply frame_refl. Qed.


Lemma filter_isYnab_counterpartUpdates ids t :
  List.filter isYnab (counterpartUpdates ids t) = counterpartUpdates ids t.
Proof.
  unfold counterpartUpdates.
  destruct (ynab.TransactionIds.transfer_transaction_id ids) as [c|]; [|reflexivity].
  now destruct (Js.truthy c && up.Transaction.isSettled t).
Qed.

Lemma filter_isCreateTransaction_counterpartUpdates ids t :
  List.filter isCreateTransaction (counterpartUpdates ids t) = [].
Proof.
  unfold counterpartUpdates.
  destruct (ynab.TransactionIds.transfer_transaction_id ids) as [c|]; [|reflexivity].
  now destruct (Js.truthy c && up.Transaction.isSettled t).
Qed.

Lemma filter_isCreateTransaction_up l :
  Forall (fun c => isUp c = true) l -> List.filter isCreateTransaction l = [].
Proof.
  induction 1 as [|c l Hc _ IH]; [reflexivity|]. cbn.
  destruct c; [exact IH | discriminate].
Qed.

Section Redelivery.
Context (rt : Runtime) (remote : Remote).

Lemma newTransaction_transactionsKept t a key :
  within transactionsKept (newTransaction rt remote t a key).
Proof.
  apply frame_newTransaction; auto; congruence.
Qed.




End Redelivery.

(** ** Webhook provisioning (C9) *)

Lemma up_newWebhook_ok remote self url description w data w' :
  UpApi.newWebhook remote self url description w = (Ok data, w') ->
  exists payload,
    let call := UpFetch (up.Api.apiKey self) "post" (up.Api.fullUrl "webhooks")
                  (Some payload) in
    w' = issue call w /\ respond remote (trace w) call = UpWebhookData data.
Proof.
  unfold UpApi.newWebhook, UpApi.post, UpApi.fetch, UpApi.fetchUrl, UpApi.headers.
  destruct (Js.truthy (up.Api.apiKey self)); mrun; [|discriminate].
  destruct (respond remote (trace w) _) eqn:E; mrun; try discriminate.
  intros [= <- <-]. eexists. split; [reflexivity | exact E].
Qed.

Lemma filter_nonempty_Exists {A} (f : A -> bool) l :
  Nat.ltb 0 (length (List.filter f l)) = true <-> Exists (fun x => f x = true) l.
Proof.
  rewrite Nat.ltb_lt. induction l as [|x l IH]; cbn.
  - split; [lia | inversion 1].
  - destruct (f x) eqn:E; cbn.
    + split; [intros _; now left | lia].
    + rewrite IH. split; [now right | inversion 1; [congruence | assumption]].
Qed.

(** C9, as the code has it: on a valid account selector, a response of
    [init] has status 500 exactly when the callback URL is not configured,
    or the connection's webhook secret variable is already set, or webhooks
    for the callback URL already exist and [replaceExisting] is not "true";
    every other response has status 200, and its body ends with the secret
    of the webhook the source ledger just issued. *)
Theorem init_status
    (rt : Runtime) (remote : Remote) (fuel : nat) (request : HttpRequest.t)
    (account : Selector) (w w' : World) (response : HttpResponseInit.t) :
  Selector_parse (HttpRequest.query request "account") = Some account ->
  init rt remote fuel request w = (Ok response, w') ->
  let secretVariableName := "UP_" +:+ Selector_upper account +:+ "_WEBHOOK" in
  (HttpResponseInit.status response = 500 <->
     Js.truthy_opt (processEnv remote "WEBHOOK_URL") = false \/
     Js.truthy_opt (processEnv remote secretVariableName) = true \/
     (exists webhookUrl webhooks wl,
        urlWithAccount rt (default "" (processEnv remote "WEBHOOK_URL"))
          (Selector_name account) = Some webhookUrl /\
        UpApi.getWebhooks remote fuel (upApis remote account) w = (Ok webhooks, wl) /\
        Exists (fun x => up.Webhook.url x = webhookUrl) webhooks /\
        HttpRequest.query request "replaceExisting" <> Some "true")) /\
  (HttpResponseInit.status response <> 500 ->
   HttpResponseInit.status response = 200 /\
   exists hist payload issuedWebhook,
     let call := UpFetch (up.Api.apiKey (upApis remote account)) "post"
                   (up.Api.fullUrl "webhooks") (Some payload) in
     trace w' = hist ++ [call] /\
     respond remote hist call = UpWebhookData issuedWebhook /\
     HttpResponseInit.body response =
       Some ("Save the secret as a variable in " +:+ secretVariableName +:+ ": "
             +:+ default "undefined" (up.Webhook.secretKey issuedWebhook))).
Proof.
  intros Hsel Hrun secretVariableName. unfold init in Hrun. rewrite Hsel in Hrun.
  fold secretVariableName in Hrun.
  destruct (Js.truthy_opt (processEnv remote "WEBHOOK_URL")) eqn:Hurl; cbn [negb] in Hrun.
  2:{ injection Hrun as <- <-. cbn. split; [tauto | congruence]. }
  destruct (Js.truthy_opt (processEnv remote secretVariableName)) eqn:Hsecret.
  { injection Hrun as <- <-. cbn. split; [tauto | congruence]. }
  destruct (urlWithAccount rt _ _) as [webhookUrl|] eqn:Hparse; [|discriminate].
  rewrite bind_run in Hrun.
  destruct (UpApi.getWebhooks remote fuel (upApis remote account) w)
    as [[webhooks|e] wl] eqn:Hlist; [|discriminate].
  set (matching x := String.eqb (up.Webhook.url x) webhookUrl) in *.
  assert (Hmatch : Nat.ltb 0 (length (List.filter matching webhooks)) = true <->
                   Exists (fun x => up.Webhook.url x = webhookUrl) webhooks).
  { rewrite filter_nonempty_Exists. unfold matching.
    split; intros H; (eapply Exists_impl; [exact H | intros x; apply String.eqb_eq]). }
  set (replaceExisting :=
         bool_decide (HttpRequest.query request "replaceExisting" = Some "true")) in *.
  assert (Hreplace : replaceExisting = false <->
                     HttpRequest.query request "replaceExisting" <> Some "true").
  { unfold replaceExisting. now rewrite bool_decide_eq_false. }
  destruct (Nat.ltb 0 (length (List.filter matching webhooks)) && negb replaceExisting)
    eqn:Hblocked.
  { injection Hrun as <- <-. cbn. split; [|congruence]. split; [|reflexivity].
    intros _. right; right. exists webhookUrl, webhooks, wl.
    apply andb_true_iff in Hblocked as [H1 H2]. apply negb_true_iff in H2.
    repeat split; [now apply Hmatch | now apply Hreplace]. }
  rewrite bind_run in Hrun.
  match type of Hrun with
  | context [match ?m wl with _ => _ end] => destruct (m wl) as [[[]|e] wd]
  end; [|discriminate].
  rewrite bind_run in Hrun.
  destruct (UpApi.newWebhook remote _ _ _ wd) as [[issuedWebhook|e] wn] eqn:Hnew;
    [|discriminate].
  injection Hrun as <- <-. cbn [HttpResponseInit.status HttpResponseInit.body].
  destruct (up_newWebhook_ok _ _ _ _ _ _ _ Hnew) as (payload & -> & Hreply).
  split.
  - split; [discriminate|]. intros [H | [H | (u & ws & wl' & Hu & Hl & Hex & Hrep)]];
      try congruence.
    exfalso. injection Hu as <-. injection Hl as <- <-.
    apply Hmatch in Hex. apply Hreplace in Hrep.
    rewrite Hex, Hrep in Hblocked. discriminate.
  - intros _. split; [reflexivity|].
    exists (trace wd), payload, issuedWebhook. repeat split. exact Hreply.
Qed.

Lemma init_status_witness :
  Selector_parse (HttpRequest.query Scenario.provision "account") = Some primary /\
  init Scenario.rt ProvisionWebhook.freshLedger 5 Scenario.provision World_init =
    (Ok {| HttpResponseInit.status := 200;
           HttpResponseInit.body :=
             Some "Save the secret as a variable in UP_PRIMARY_WEBHOOK: s3cret" |},
     ProvisionWebhook.provisionedFresh) /\
  (200 = 500 <->
     Js.truthy_opt (processEnv ProvisionWebhook.freshLedger "WEBHOOK_URL") = false \/
     Js.truthy_opt (processEnv ProvisionWebhook.freshLedger "UP_PRIMARY_WEBHOOK") = true \/
     (exists webhookUrl webhooks wl,
        urlWithAccount Scenario.rt
          (default "" (processEnv ProvisionWebhook.freshLedger "WEBHOOK_URL"))
          "primary" = Some webhookUrl /\
        UpApi.getWebhooks ProvisionWebhook.freshLedger 5
          (upApis ProvisionWebhook.freshLedger primary) World_init = (Ok webhooks, wl) /\
        Exists (fun x => up.Webhook.url x = webhookUrl) webhooks /\
        HttpRequest.query Scenario.provision "replaceExisting" <> Some "true")).
Proof.
  assert (Hrun : init Scenario.rt ProvisionWebhook.freshLedger 5 Scenario.provision
                   World_init =
                 (Ok {| HttpResponseInit.status := 200;
                        HttpResponseInit.body :=
                          Some "Save the secret as a variable in UP_PRIMARY_WEBHOOK: s3cret" |},
                  ProvisionWebhook.provisionedFresh)) by (vm_compute; reflexivity).
  split; [reflexivity|]. split; [exact Hrun|].
  exact (proj1 (init_status Scenario.rt ProvisionWebhook.freshLedger 5 Scenario.provision
                  primary World_init ProvisionWebhook.provisionedFresh _ eq_refl Hrun)).
Defined.

(** C9 as stated fails: with the callback URL configured and no webhook
    secret set, [init] still answers 500 when a webhook for the callback
    URL exists and [replaceExisting] is not given. *)
Lemma init_answers_500_on_existing_webhook :
  Selector_parse (HttpRequest.query Scenario.provision "account") = Some primary /\
  Js.truthy_opt (processEnv ProvisionWebhook.staleLedger "WEBHOOK_URL") = true /\
  Js.truthy_opt (processEnv ProvisionWebhook.staleLedger "UP_PRIMARY_WEBHOOK") = false /\
  init Scenario.rt ProvisionWebhook.staleLedger 5 Scenario.provision World_init =
    (Ok {| HttpResponseInit.status := 500;
           HttpResponseInit.body :=
             Some "Found 1 existing webhooks using this url. Delete them with replaceExisting=true" |},
     ProvisionWebhook.listed).
Proof. repeat split; vm_compute; reflexivity. Qed.

(** ** The sync window (C4) *)

Lemma cacheTransactions_cursor txs c :
  ynab.YnabCache.sinceDate (YnabApi.cacheTransactions txs c) = ynab.YnabCache.sinceDate c /\
  ynab.YnabCache.lastKnowledgeOfServer (YnabApi.cacheTransactions txs c)
    = ynab.YnabCache.lastKnowledgeOfServer c.
Proof.
  unfold YnabApi.cacheTransactions.
  generalize (List.filter (fun x => Js.truthy_opt (ynab.TransactionJson.import_id x)) txs).
  intros l. revert c. induction l as [|x l IH]; intros c; [auto|]. cbn.
  now rewrite (proj1 (IH _)), (proj2 (IH _)).
Qed.

Lemma cacheAccounts_cursor accounts c :
  ynab.YnabCache.sinceDate (YnabApi.cacheAccounts accounts c) = ynab.YnabCache.sinceDate c.
Proof.
  unfold YnabApi.cacheAccounts. revert c.
  induction accounts as [|x l IH]; intros c; [auto|]. cbn.
  destruct (ynab.AccountJson.note x ≫= ynab.matchUpId); rewrite IH; reflexivity.
Qed.

Lemma todayOffset_valid rt t days : exists ms, ynab.todayOffset rt t days = Js.ValidDate ms.
Proof. unfold ynab.todayOffset. eauto. Qed.

(** In a zone whose offset from UTC never changes, the start is the last
    local midnight at or before the instant [days] days from now. *)
Lemma todayOffset_within_a_day rt offset t days :
  (forall u isUTC, localTZA rt u isUTC = offset) ->
  exists ms, ynab.todayOffset rt t days = Js.ValidDate ms /\
             t + days * ynab.msPerDay - ynab.msPerDay < ms <= t + days * ynab.msPerDay.
Proof.
  intros Hzone.
  unfold ynab.todayOffset, ynab.startOfDay, ynab.addDays, ynab.utc, ynab.localTime.
  rewrite !Hzone. eexists. split; [reflexivity|].
  unfold ynab.msPerDay.
  replace (t + offset + days * 86400000 - offset + offset)
    with (t + days * 86400000 + offset) by lia.
  pose proof (Z.mul_div_le (t + days * 86400000 + offset) 86400000 ltac:(lia)).
  pose proof (Z.mul_succ_div_gt (t + days * 86400000 + offset) 86400000 ltac:(lia)).
  lia.
Qed.

Lemma syncWindow_spec start remembered date from tok :
  YnabApi.syncWindow start remembered date = (from, tok) ->
  (exists d, date = Some d /\ Js.date_lt d start = true /\ from = d /\ tok = 0) \/
  ((forall d, date = Some d -> Js.date_lt d start = false) /\
   from = start /\ tok = remembered).
Proof.
  unfold YnabApi.syncWindow. destruct date as [d|].
  - destruct (Js.date_lt d start) eqn:E; intros [= <- <-].
    + left. eauto.
    + right. split; [now intros ? [= <-]|auto].
  - intros [= <- <-]. right. split; [discriminate|auto].
Qed.

Lemma date_lt_valid d start :
  Js.date_lt d start = true ->
  exists x y, d = Js.ValidDate x /\ start = Js.ValidDate y /\ x < y.
Proof.
  destruct d as [x|], start as [y|]; cbn; try discriminate.
  intros H. apply Z.ltb_lt in H. eauto.
Qed.

Section Window.
Context (rt : Runtime) (remote : Remote).

(** What one refresh of the transaction cache queries and leaves behind. *)
Lemma getTransactionFromImportId_refresh key date w r w' :
  ynab.YnabCache.has (ynab.Api.transactions (ynabApi w)) key = false ->
  YnabApi.getTransactionFromImportId rt remote key date w = (r, w') ->
  let start := default (ynab.todayOffset rt (clock remote (trace w)) (-4)) (window w) in
  exists from tok,
    YnabApi.syncWindow start (token w) date = (from, tok) /\
    issued w w' =
      [YnabFetch "get" "transactions"
         [("since_date", Js.str (toLocaleDateString rt from));
          ("last_knowledge_of_server", Js.num tok)] None] /\
    ynab.Api.accounts (ynabApi w') = ynab.Api.accounts (ynabApi w) /\
    ((window w' = Some from /\ exists o, r = Ok o) \/
     (ynabApi w' = ynabApi w /\ r = Stop Thrown)).
Proof.
  intros Hmiss H start. revert H. unfold YnabApi.getTransactionFromImportId.
  rewrite bind_run. cbn [getApi]. rewrite Hmiss. cbn [negb].
  rewrite bind_run, bind_run.
  assert (Hstart :
    (match ynab.YnabCache.sinceDate (ynab.Api.transactions (ynabApi w)) with
     | Some date0 => mret date0
     | None => t ← now remote; mret (ynab.todayOffset rt t (-4))
     end) w = (Ok start, w)).
  { unfold start, window.
    destruct (ynab.YnabCache.sinceDate (ynab.Api.transactions (ynabApi w))); reflexivity. }
  rewrite Hstart. fold (token w).
  destruct (YnabApi.syncWindow start (token w) date) as [from tok] eqn:Hsync.
  intros H. exists from, tok. split; [reflexivity|]. revert H.
  unfold YnabApi.get, YnabApi.fetch. mrun.
  set (call := YnabFetch "get" "transactions" _ None).
  assert (Hi : issued w (issue call w) = [call]) by now apply issued_app.
  destruct (respond remote (trace w) call) eqn:E; mrun;
    try (intros [= <- <-]; split; [exact Hi|]; split; [reflexivity|];
         right; split; reflexivity).
  intros [= <- <-]. split; [apply issued_app; reflexivity|]. split; [reflexivity|].
  left. split; [reflexivity | eauto].
Qed.

Lemma getAccount_refresh id w r w' :
  ynab.YnabCache.has (ynab.Api.accounts (ynabApi w)) id = false ->
  YnabApi.getAccount remote id w = (r, w') ->
  issued w w' =
    [YnabFetch "get" "accounts"
       [("last_knowledge_of_server",
         Js.num (ynab.YnabCache.lastKnowledgeOfServer (ynab.Api.accounts (ynabApi w))))]
       None] /\
  ynab.Api.transactions (ynabApi w') = ynab.Api.transactions (ynabApi w) /\
  ynab.YnabCache.sinceDate (ynab.Api.accounts (ynabApi w'))
    = ynab.YnabCache.sinceDate (ynab.Api.accounts (ynabApi w)).
Proof.
  intros Hmiss. unfold YnabApi.getAccount.
  rewrite bind_run. cbn [getApi]. rewrite Hmiss. cbn [negb].
  unfold YnabApi.get, YnabApi.fetch. mrun.
  set (call := YnabFetch "get" "accounts" _ None).
  assert (Hi : issued w (issue call w) = [call]) by now apply issued_app.
  destruct (respond remote (trace w) call) eqn:E; mrun;
    (intros [= <- <-]; split; [exact Hi|]; split; reflexivity).
Qed.

(** Each step keeps the cursors well formed and the window start from
    moving later. *)
Lemma step_window w w' :
  step rt remote w w' -> cursorsOk w -> cursorsOk w' /\ windowNotLater w w'.
Proof.
  assert (Hsame : forall a b, ynabApi b = ynabApi a ->
                    cursorsOk a -> cursorsOk b /\ windowNotLater a b).
  { intros a b E Ha. unfold cursorsOk, windowNotLater, window, token in *.
    rewrite E. split; [exact Ha|]. intros ms H. exists ms. split; [exact H|lia]. }
  intros Hstep Hok. destruct Hstep as
    [c w _ | key date r w w' H | id r w w' H | name type id r w w' H
    | fields r w w' H | id fields r w w' H].
  - now apply Hsame.
  - destruct (ynab.YnabCache.has (ynab.Api.transactions (ynabApi w)) key) eqn:Hhas.
    + unfold YnabApi.getTransactionFromImportId in H.
      rewrite bind_run in H. cbn [getApi] in H. rewrite Hhas in H.
      cbn in H. injection H as _ <-. now apply Hsame.
    + destruct (getTransactionFromImportId_refresh _ _ _ _ _ Hhas H)
        as (from & tok & Hsync & _ & Hacc & [[Hw _] | [E _]]); [|now apply Hsame].
      destruct Hok as (Ha & Hzero & Hvalid).
      assert (Hfrom : exists x, from = Js.ValidDate x /\
                        forall ms, window w = Some (Js.ValidDate ms) -> x <= ms).
      { destruct (syncWindow_spec _ _ _ _ _ Hsync)
          as [(d & _ & Hlt & -> & _) | (_ & -> & _)].
        - destruct (date_lt_valid _ _ Hlt) as (x & y & -> & Hy & Hxy).
          exists x. split; [reflexivity|]. intros ms Hms.
          rewrite Hms in Hy. cbn in Hy. injection Hy as <-. lia.
        - destruct (window w) as [[ms|]|] eqn:Ew; cbn.
          + exists ms. split; [reflexivity|]. intros ? [= <-]. lia.
          + congruence.
          + destruct (todayOffset_valid rt (clock remote (trace w)) (-4)) as [x ->].
            exists x. split; [reflexivity | discriminate]. }
      destruct Hfrom as (x & -> & Hle).
      split.
      * unfold cursorsOk. rewrite Hacc, Hw. repeat split; [exact Ha | discriminate..].
      * intros ms Hms. exists x. split; [exact Hw | now apply Hle].
  - destruct (ynab.YnabCache.has (ynab.Api.accounts (ynabApi w)) id) eqn:Hhas.
    + unfold YnabApi.getAccount in H.
      rewrite bind_run in H. cbn [getApi] in H. rewrite Hhas in H.
      cbn in H. injection H as _ <-. now apply Hsame.
    + destruct (getAccount_refresh _ _ _ _ Hhas H) as (_ & Ht & Hs).
      unfold cursorsOk, windowNotLater, window, token in *. rewrite Ht, Hs.
      split; [exact Hok|]. intros ms Hms. exists ms. split; [exact Hms|lia].
  - unfold YnabApi.createAccount, YnabApi.post, YnabApi.fetch in H. revert H. mrun.
    destruct (respond remote (trace w) _); mrun; intros [= <- <-];
      try (now apply Hsame).
    unfold cursorsOk, windowNotLater, window, token in *. cbn.
    split; [exact Hok|]. intros ms Hms. exists ms. split; [exact Hms|lia].
  - unfold YnabApi.createTransaction, YnabApi.post, YnabApi.fetch in H. revert H. mrun.
    destruct (respond remote (trace w) _) as [| | | | | | | |data|]; mrun;
      try (intros [= <- <-]; now apply Hsame).
    destruct (ynab.TransactionJson.import_id data) as [k|];
      [destruct (Js.truthy k)|]; mrun; intros [= <- <-]; try (now apply Hsame).
    unfold cursorsOk, windowNotLater, window, token in *. cbn.
    split; [exact Hok|]. intros ms Hms. exists ms. split; [exact Hms|lia].
  - destruct (updateTransaction_run remote id fields w) as [r' Hr].
    rewrite Hr in H. injection H as _ <-. now apply Hsame.
Qed.

Lemma steps_window w w' :
  rtc (step rt remote) w w' -> cursorsOk w -> cursorsOk w' /\ windowNotLater w w'.
Proof.
  induction 1 as [w | w w1 w' Hs _ IH]; intros Hok.
  - split; [exact Hok|]. intros ms H. exists ms. split; [exact H | lia].
  - destruct (step_window _ _ Hs Hok) as [Hok1 H1].
    destruct (IH Hok1) as [Hok' H']. split; [exact Hok'|].
    intros ms Hms. destruct (H1 ms Hms) as (ms1 & E1 & L1).
    destruct (H' ms1 E1) as (ms' & E' & L'). exists ms'. split; [exact E'|lia].
Qed.

Lemma reachedInSequence_cursorsOk w : reachedInSequence rt remote w -> cursorsOk w.
Proof.
  intros H. apply (steps_window _ _ H). unfold cursorsOk, window, token. cbn.
  repeat split; congruence.
Qed.

(** The handlers are sequences of steps. *)
Lemma steps_up c : isUp c = true -> within (rtc (step rt remote)) (fetchJson remote c).
Proof. intros Hc w r w' [= <- <-]. apply rtc_once. now constructor. Qed.

Lemma webhook_steps request : within (rtc (step rt remote)) (webhook rt remote request).
Proof.
  apply within_webhook;
    [ intros w; apply rtc_refl
    | intros a b c Hab Hbc; etransitivity; eassumption
    | apply steps_up | .. ];
    intros; intros ? ? ? Hrun; apply rtc_once; econstructor; exact Hrun.
Qed.

Lemma init_steps fuel request : within (rtc (step rt remote)) (init rt remote fuel request).
Proof.
  apply within_init;
    [ intros w; apply rtc_refl
    | intros a b c Hab Hbc; etransitivity; eassumption
    | apply steps_up ].
Qed.

End Window.

(** C4, as the code has it: as long as the calls of a process lifetime
    follow one another, none starting while another awaits its reply, the
    cursors are well formed in every world, and across every sequence of
    client calls and handler invocations the window start of the
    transaction cache never moves later (the account cache never has one).
    A refresh of the transaction cache starts from the remembered window
    start, or from the default [todayOffset(-4)], the start of the local
    day four days before today, when none is remembered; when the caller's
    transaction date precedes that start, the query uses the transaction
    date and the change token 0; otherwise it uses the start and the
    remembered token; a successful refresh remembers the date it queried
    with, a failed one changes nothing.  A refresh of the account cache
    always sends the remembered token.  In a zone whose offset from UTC
    never changes the default lies more than four and at most five days
    before now. *)
Theorem sync_window_never_increases (rt : Runtime) (remote : Remote) (w : World) :
  reachedInSequence rt remote w ->
  cursorsOk w /\
  (forall w', rtc (step rt remote) w w' -> windowNotLater w w' /\ cursorsOk w') /\
  (forall request r w',
     webhook rt remote request w = (r, w') -> rtc (step rt remote) w w') /\
  (forall fuel request r w',
     init rt remote fuel request w = (r, w') -> rtc (step rt remote) w w') /\
  (forall key date r w',
     ynab.YnabCache.has (ynab.Api.transactions (ynabApi w)) key = false ->
     YnabApi.getTransactionFromImportId rt remote key date w = (r, w') ->
     let start := default (ynab.todayOffset rt (clock remote (trace w)) (-4)) (window w) in
     exists from tok,
       issued w w' =
         [YnabFetch "get" "transactions"
            [("since_date", Js.str (toLocaleDateString rt from));
             ("last_knowledge_of_server", Js.num tok)] None] /\
       ((exists d, date = Some d /\ Js.date_lt d start = true /\ from = d /\ tok = 0) \/
        ((forall d, date = Some d -> Js.date_lt d start = false) /\
         from = start /\ tok = token w)) /\
       (window w' = Some from \/ window w' = window w)) /\
  (forall id r w',
     ynab.YnabCache.has (ynab.Api.accounts (ynabApi w)) id = false ->
     YnabApi.getAccount remote id w = (r, w') ->
     issued w w' =
       [YnabFetch "get" "accounts"
          [("last_knowledge_of_server",
            Js.num (ynab.YnabCache.lastKnowledgeOfServer (ynab.Api.accounts (ynabApi w))))]
          None]) /\
  (forall offset,
     (forall u isUTC, localTZA rt u isUTC = offset) ->
     forall t, exists ms,
       ynab.todayOffset rt t (-4) = Js.ValidDate ms /\
       t - 5 * ynab.msPerDay < ms <= t - 4 * ynab.msPerDay).
Proof.
  intros Hreach. pose proof (reachedInSequence_cursorsOk rt remote w Hreach) as Hok.
  split; [exact Hok|]. split; [|split; [|split; [|split; [|split]]]].
  - intros w' Hsteps. destruct (steps_window rt remote w w' Hsteps Hok). auto.
  - intros request r w' H. exact (webhook_steps rt remote request w r w' H).
  - intros fuel request r w' H. exact (init_steps rt remote fuel request w r w' H).
  - intros key date r w' Hmiss H start.
    destruct (getTransactionFromImportId_refresh rt remote _ _ _ _ _ Hmiss H)
      as (from & tok & Hsync & Hi & _ & Hw).
    exists from, tok. split; [exact Hi|]. split; [exact (syncWindow_spec _ _ _ _ _ Hsync)|].
    destruct Hw as [[Hw _] | [E _]]; [now left | right]. unfold window. now rewrite E.
  - intros id r w' Hmiss H. exact (proj1 (getAccount_refresh remote _ _ _ _ Hmiss H)).
  - intros offset Hzone t.
    destruct (todayOffset_within_a_day rt offset t (-4) Hzone) as (ms & E & B).
    exists ms. split; [exact E | lia].
Qed.

Lemma Run_afterFirst_reachedInSequence : reachedInSequence Scenario.rt Run.ledger Run.afterFirst.
Proof.
  apply (webhook_steps Scenario.rt Run.ledger Run.request World_init
           (fst (webhook Scenario.rt Run.ledger Run.request World_init))).
  unfold Run.afterFirst. now destruct (webhook _ _ _ _).
Qed.

Lemma sync_window_never_increases_witness :
  window Run.afterFirst = Some (Js.ValidDate 1699624800000) /\
  windowNotLater Run.afterFirst
    (snd (webhook Scenario.rt Run.ledger Run.request Run.afterFirst)).
Proof.
  split; [vm_compute; reflexivity|].
  destruct (sync_window_never_increases Scenario.rt Run.ledger Run.afterFirst
              Run_afterFirst_reachedInSequence) as (_ & Hseq & Hhandler & _).
  apply Hseq.
  apply (Hhandler Run.request
           (fst (webhook Scenario.rt Run.ledger Run.request Run.afterFirst))).
  now destruct (webhook _ _ _ _).
Defined.

(** The method is what it does up to its await followed by what it does
    from there on. *)
Lemma getTransactionFromImportId_split rt remote key date w :
  YnabApi.getTransactionFromImportId rt remote key date w =
  (awaiting ← YnabApi.refreshBegin rt remote key date;
   match awaiting with
   | Some a => YnabApi.refreshEnd a
   | None => api ← getApi; mret (ynab.YnabCache.get (ynab.Api.transactions api) key)
   end) w.
Proof.
  unfold YnabApi.getTransactionFromImportId, YnabApi.refreshBegin, YnabApi.refreshEnd,
    YnabApi.get, YnabApi.fetch.
  rewrite !bind_run. cbn [getApi].
  destruct (ynab.YnabCache.has _ key); cbn [negb]; [reflexivity|].
  rewrite !bind_run.
  destruct (ynab.YnabCache.sinceDate (ynab.Api.transactions (ynabApi w))) as [d|]; mrun;
    destruct (YnabApi.syncWindow _ _ date) as [from tok]; mrun;
    destruct (respond remote (trace w) _); reflexivity.
Qed.

(** C4 as stated fails when refreshes overlap.  On a fresh client a first
    lookup, for a transaction of the day, reads that no window is
    remembered, takes the default start and awaits its listing.  While it
    waits a second lookup, for a transaction dated long before, takes that
    date as its start, receives its listing and remembers the date.  Then
    the first lookup resumes and remembers the start it had computed: the
    window start moves later, from the old date to the default. *)
Lemma overlapping_refreshes_move_the_window_later :
  rtc (overlapping Scenario.rt Run.ledger)
    (World_init, []) (Overlap.secondEnded, [Overlap.firstAwaiting]) /\
  rtc (overlapping Scenario.rt Run.ledger)
    (Overlap.secondEnded, [Overlap.firstAwaiting]) (Overlap.firstEnded, []) /\
  window Overlap.secondEnded = Some (Js.ValidDate 1000) /\
  window Overlap.firstEnded = Some (Js.ValidDate 1699624800000) /\
  ~ windowNotLater Overlap.secondEnded Overlap.firstEnded.
Proof.
  split; [|split; [|split; [|split]]].
  - eapply rtc_l.
    { apply (overlapping_begin Scenario.rt Run.ledger "up:t1" (Some Overlap.recent)
               World_init Overlap.firstAwaiting Overlap.firstBegun []).
      vm_compute; reflexivity. }
    eapply rtc_l.
    { apply (overlapping_begin Scenario.rt Run.ledger "up:t2" (Some Overlap.early)
               Overlap.firstBegun Overlap.secondAwaiting Overlap.secondBegun
               [Overlap.firstAwaiting]).
      vm_compute; reflexivity. }
    apply rtc_once.
    apply (overlapping_end Scenario.rt Run.ledger Overlap.secondAwaiting
             (fst (YnabApi.refreshEnd Overlap.secondAwaiting Overlap.secondBegun))
             Overlap.secondBegun Overlap.secondEnded [Overlap.firstAwaiting] []).
    vm_compute; reflexivity.
  - apply rtc_once.
    apply (overlapping_end Scenario.rt Run.ledger Overlap.firstAwaiting
             (fst (YnabApi.refreshEnd Overlap.firstAwaiting Overlap.secondEnded))
             Overlap.secondEnded Overlap.firstEnded [] []).
    vm_compute; reflexivity.
  - vm_compute; reflexivity.
  - vm_compute; reflexivity.
  - intros H. destruct (H 1000) as (ms & Hw & Hle); [vm_compute; reflexivity|].
    assert (E : window Overlap.firstEnded = Some (Js.ValidDate 1699624800000))
      by (vm_compute; reflexivity).
    rewrite E in Hw. injection Hw as <-. lia.
Qed.

(** ** Fuel *)

(** A result that is not the exhaustion of fuel does not depend on fuel. *)
Lemma getAllPages_loop_more_fuel remote fuel self data nextLink w r w' :
  UpApi.getAllPages_loop remote fuel self data nextLink w = (r, w') ->
  r <> Stop OutOfFuel ->
  UpApi.getAllPages_loop remote (S fuel) self data nextLink w = (r, w').
Proof.
  revert data nextLink w. induction fuel as [|fuel IH]; intros data nextLink w H Hr.
  - cbn in H. destruct nextLink as [link|]; [|exact H].
    destruct (Js.truthy link) eqn:E; [|cbn; now rewrite E].
    inversion H; subst. contradiction.
  - remember (S fuel) as n. cbn [UpApi.getAllPages_loop]. subst n.
    cbn [UpApi.getAllPages_loop] in H.
    destruct nextLink as [link|]; [|exact H].
    destruct (Js.truthy link); [|exact H].
    rewrite bind_run in *.
    destruct (UpApi.fetchUrl remote self "get" link None w) as [[json|e] w1]; [|exact H].
    destruct json; try exact H. now apply IH.
Qed.

Lemma init_more_fuel rt remote fuel request w r w' :
  init rt remote fuel request w = (r, w') ->
  r <> Stop OutOfFuel ->
  init rt remote (S fuel) request w = (r, w').
Proof.
  unfold init. intros H Hr.
  destruct (Selector_parse _) as [account|]; [|exact H].
  destruct (negb _); [exact H|].
  destruct (Js.truthy_opt (processEnv remote _)); [exact H|].
  destruct (urlWithAccount rt _ _) as [webhookUrl|]; [|exact H].
  rewrite bind_run in *. unfold UpApi.getWebhooks, UpApi.getAllPages in *.
  destruct (UpApi.getAllPages_loop remote fuel _ _ _ w) as [r1 w1] eqn:E.
  assert (Hr1 : r1 <> Stop OutOfFuel).
  { intros ->. inversion H; subst. contradiction. }
  now rewrite (getAllPages_loop_more_fuel _ _ _ _ _ _ _ _ E Hr1).
Qed.

(** ** Scenarios of the specification *)

Example matchUpId_tag :
  ynab.matchUpId "see upId:0123abcd-0123-4abc-8def-0123456789ab." =
  Some "0123abcd-0123-4abc-8def-0123456789ab".
Proof. reflexivity. Qed.

Example matchUpId_needs_36 : ynab.matchUpId "upId:a1" = None.
Proof. reflexivity. Qed.

Example removeEmptyProperties_drops :
  ynab.removeEmptyProperties
    [("cleared", Js.str "cleared"); ("memo", Js.str ""); ("amount", Js.num 0);
     ("payee_id", Js.undefined); ("date", Js.null)]
  = [("cleared", Js.str "cleared"); ("amount", Js.num 0)].
Proof. reflexivity. Qed.

Example replaceAll_uuid :
  importId "0123abcd-0123-4abc-8def-0123456789ab" = "up:0123abcd01234abc8def0123456789ab".
Proof. reflexivity. Qed.

(** New standalone debit: the account is provisioned, then the transaction
    is created with the rescaled amount, the clearing state, the payee name
    and the idempotency key. *)
Example standalone_debit :
  List.filter isYnabWrite (trace Run.afterFirst) =
    [YnabFetch "post" "accounts" []
       (Some (Js.obj [("account",
          Js.obj [("name", Js.str "Up: Spending (a1)"); ("type", Js.str "checking");
                  ("balance", Js.num 0); ("note", Js.str "upId:a1")])]));
     Run.creation].
Proof. vm_compute. reflexivity. Qed.

(** Duplicate delivery: an update with the same clearing state, no
    creation. *)
Example duplicate_delivery :
  List.filter isYnab
    (issued Run.afterFirst (snd (webhook Scenario.rt Run.ledger Run.request Run.afterFirst)))
  = [updateCall "transaction-5" [("amount", Js.num (-15000)); ("cleared", Js.str "cleared")]].
Proof. vm_compute. reflexivity. Qed.

(** * Further properties of the handlers and clients *)

(** ** The checks of [webhook] *)

Lemma validateWebhookSignature_true rt self body signature :
  up.Api.validateWebhookSignature rt self body signature = true ->
  up.Api.webhookSecret self <> "" /\
  signature = Some (hmacSha256Hex rt (up.Api.webhookSecret self) body).
Proof.
  unfold up.Api.validateWebhookSignature.
  destruct (Js.truthy_opt signature) eqn:Hs; [|discriminate].
  destruct (up.Api.webhookSecret self) as [|c s] eqn:Hk; [discriminate|]. cbn.
  intros H. apply bool_decide_eq_true in H. split; congruence.
Qed.

Lemma classify_respond rt remote request w response w' :
  classify rt remote request w = (Ok (Respond response), w') ->
  (HttpResponseInit.status response = 403 /\ w' = w) \/
  HttpResponseInit.status response = 200.
Proof.
  unfold classify.
  destruct (Selector_parse _) as [account|]; [|intros [= <- <-]; now left].
  destruct (up.Api.validateWebhookSignature _ _ _ _); cbn [negb];
    [|intros [= <- <-]; now left].
  destruct (parseEvent rt _) as [json|]; [|discriminate].
  destruct (isTransactionEvent _); [|intros [= <- <-]; now right].
  destruct (transactionId json) as [id|]; [|discriminate].
  rewrite bind_run.
  destruct (UpApi.getTransaction _ _ _ w) as [[t|e] w0]; [|discriminate].
  destruct (isTransferCredit t); [intros [= <- <-]; now right|].
  rewrite bind_run.
  destruct (UpApi.getAccount _ _ _ w0) as [[a|e] w1]; [|discriminate].
  destruct (isJointOnSecondary a account); [intros [= <- <-]; now right|discriminate].
Qed.

(** X1: a request that is not authentic - its selector names no connection,
    or the connection has no secret, or the signature header is not the
    HMAC of the body under that secret - is answered 403 and nothing else
    happens: no request is issued and no cache changes. *)
Theorem webhook_rejects_what_is_not_authentic
    (rt : Runtime) (remote : Remote) (request : HttpRequest.t) (w : World) :
  (forall account,
     Selector_parse (HttpRequest.query request "account") = Some account ->
     up.Api.webhookSecret (upApis remote account) = "" \/
     HttpRequest.headers request "x-up-authenticity-signature" <>
       Some (hmacSha256Hex rt (up.Api.webhookSecret (upApis remote account))
               (HttpRequest.text request))) ->
  exists reason,
    webhook rt remote request w =
      (Ok {| HttpResponseInit.status := 403; HttpResponseInit.body := Some reason |}, w).
Proof.
  intros Hbad. unfold webhook, classify.
  destruct (Selector_parse _) as [account|] eqn:Hsel; [|eauto].
  destruct (up.Api.validateWebhookSignature rt (upApis remote account) _ _) eqn:Hv;
    [|eauto].
  exfalso. apply validateWebhookSignature_true in Hv as [Hk Hs].
  destruct (Hbad account eq_refl); contradiction.
Qed.

Lemma webhook_rejects_what_is_not_authentic_witness :
  exists reason,
    webhook Scenario.rt Run.ledger (Scenario.delivery "primary" "key-2") World_init =
      (Ok {| HttpResponseInit.status := 403; HttpResponseInit.body := Some reason |},
       World_init).
Proof.
  apply webhook_rejects_what_is_not_authentic.
  intros account [= <-]. right. vm_compute. discriminate.
Defined.

(** X2: [webhook] only ever answers 200 or 403, and a 403 leaves the world
    as it was. *)
Theorem webhook_answers_200_or_403
    (rt : Runtime) (remote : Remote) (request : HttpRequest.t) (w w' : World)
    (response : HttpResponseInit.t) :
  webhook rt remote request w = (Ok response, w') ->
  (HttpResponseInit.status response = 200 \/ HttpResponseInit.status response = 403) /\
  (HttpResponseInit.status response = 403 -> w' = w).
Proof.
  unfold webhook. rewrite bind_run.
  destruct (classify rt remote request w) as [[[resp|t a]|e] w0] eqn:Hc; [| |discriminate].
  - intros [= <- <-]. destruct (classify_respond _ _ _ _ _ _ Hc) as [[H ->]|H];
      rewrite H; split; auto; discriminate.
  - rewrite bind_run. destruct (resolve rt remote t a w0) as [[ids|e] w1]; [|discriminate].
    rewrite bind_run. destruct (propagate remote ids t w1) as [[[]|e] w2]; [|discriminate].
    intros [= <- <-]. cbn. split; [now left | discriminate].
Qed.

Lemma webhook_answers_200_or_403_witness :
  webhook Scenario.rt Run.ledger Run.request World_init =
    (Ok {| HttpResponseInit.status := 200; HttpResponseInit.body := Some "" |},
     Run.afterFirst) /\
  (200 = 200 \/ 200 = 403).
Proof.
  assert (H : webhook Scenario.rt Run.ledger Run.request World_init =
                (Ok {| HttpResponseInit.status := 200; HttpResponseInit.body := Some "" |},
                 Run.afterFirst)) by (vm_compute; reflexivity).
  split; [exact H|].
  exact (proj1 (webhook_answers_200_or_403 _ _ _ _ _ _ H)).
Defined.

(** X3: an authentic event that is neither "transaction created" nor
    "transaction settled" (a deletion, a ping, anything else) is answered
    200 with an empty body, without any request and without touching a
    cache. *)
Theorem webhook_ignores_other_events
    (rt : Runtime) (remote : Remote) (request : HttpRequest.t)
    (account : Selector) (json : WebhookEvent) (w : World) :
  Selector_parse (HttpRequest.query request "account") = Some account ->
  up.Api.validateWebhookSignature rt (upApis remote account) (HttpRequest.text request)
    (HttpRequest.headers request "x-up-authenticity-signature") = true ->
  parseEvent rt (HttpRequest.text request) = Some json ->
  eventType json <> "TRANSACTION_CREATED" ->
  eventType json <> "TRANSACTION_SETTLED" ->
  webhook rt remote request w =
    (Ok {| HttpResponseInit.status := 200; HttpResponseInit.body := Some "" |}, w).
Proof.
  intros Hsel Hv Hjson Hc Hs. unfold webhook, classify.
  rewrite Hsel, Hv, Hjson. unfold isTransactionEvent.
  apply String.eqb_neq in Hc, Hs. now rewrite Hc, Hs.
Qed.

Lemma webhook_ignores_other_events_witness :
  webhook Events.rt Run.ledger (Events.signed "deleted t1" "key-1") World_init =
    (Ok {| HttpResponseInit.status := 200; HttpResponseInit.body := Some "" |}, World_init).
Proof.
  apply (webhook_ignores_other_events Events.rt Run.ledger
           (Events.signed "deleted t1" "key-1") primary Events.deleted World_init);
    try reflexivity; discriminate.
Defined.

(** X4: an authentic request whose body does not parse, or whose
    transaction event lacks the object to read the transaction id from
    ([relationships], [transaction] or [data] is missing, so that the
    access throws), makes [webhook] throw before any request is issued. *)
Theorem webhook_throws_on_malformed_event
    (rt : Runtime) (remote : Remote) (request : HttpRequest.t)
    (account : Selector) (w : World) :
  Selector_parse (HttpRequest.query request "account") = Some account ->
  up.Api.validateWebhookSignature rt (upApis remote account) (HttpRequest.text request)
    (HttpRequest.headers request "x-up-authenticity-signature") = true ->
  parseEvent rt (HttpRequest.text request) = None \/
  (exists json, parseEvent rt (HttpRequest.text request) = Some json /\
                isTransactionEvent (eventType json) = true /\
                transactionId json = None) ->
  webhook rt remote request w = (Stop Thrown, w).
Proof.
  intros Hsel Hv Hbad. unfold webhook, classify. rewrite Hsel, Hv.
  destruct Hbad as [-> | (json & -> & -> & ->)]; reflexivity.
Qed.

Lemma webhook_throws_on_malformed_event_witness :
  webhook Events.rt Run.ledger (Events.signed "settled" "key-1") World_init =
    (Stop Thrown, World_init) /\
  webhook Events.rt Run.ledger (Events.signed "{" "key-1") World_init =
    (Stop Thrown, World_init).
Proof.
  split.
  - apply (webhook_throws_on_malformed_event Events.rt Run.ledger
             (Events.signed "settled" "key-1") primary World_init);
      [reflexivity | reflexivity |].
    right. exists Events.anonymous. repeat split; reflexivity.
  - apply (webhook_throws_on_malformed_event Events.rt Run.ledger
             (Events.signed "{" "key-1") primary World_init);
      [reflexivity | reflexivity | left; reflexivity].
Defined.

(** X5: when the source ledger fails to deliver the transaction of an
    event, or the owning account of a transaction that is no transfer
    credit, [webhook] stops with that failure; the destination ledger has
    not been contacted and no cache has changed. *)
Theorem webhook_stops_when_source_fetch_fails
    (rt : Runtime) (remote : Remote) (request : HttpRequest.t)
    (account : Selector) (id : string) (w : World) :
  transactionEvent rt remote request account id ->
  (forall e w0,
     UpApi.getTransaction remote (upApis remote account) id w = (Stop e, w0) ->
     webhook rt remote request w = (Stop e, w0) /\
     ynabApi w0 = ynabApi w /\ List.filter isYnab (issued w w0) = []) /\
  (forall t w0 e w1,
     UpApi.getTransaction remote (upApis remote account) id w = (Ok t, w0) ->
     isTransferCredit t = false ->
     UpApi.getAccount remote (upApis remote account) (up.Transaction.accountId t) w0
       = (Stop e, w1) ->
     webhook rt remote request w = (Stop e, w1) /\
     ynabApi w1 = ynabApi w /\ List.filter isYnab (issued w w1) = []).
Proof.
  intros He. split.
  - intros e w0 Ht.
    assert (Hc : classify rt remote request w = (Stop e, w0)).
    { now rewrite (classify_transactionEvent rt remote _ _ _ _ He), bind_run, Ht. }
    split; [now apply webhook_stop|].
    destruct (upOnly_issued _ _ (up_getTransaction_upOnly remote _ _ _ _ _ Ht)) as [E F].
    split; [exact E | now apply filter_isYnab_up].
  - intros t w0 e w1 Ht Hcredit Ha.
    assert (Hc : classify rt remote request w = (Stop e, w1)).
    { now rewrite (classify_account rt remote _ _ _ _ _ _ He Ht Hcredit), Ha. }
    split; [now apply webhook_stop|].
    pose proof (upOnly_trans _ _ _ (up_getTransaction_upOnly remote _ _ _ _ _ Ht)
                  (up_getAccount_upOnly remote _ _ _ _ _ Ha)) as F.
    destruct (upOnly_issued _ _ F) as [E F']. split; [exact E | now apply filter_isYnab_up].
Qed.

Lemma webhook_stops_when_source_fetch_fails_witness :
  transactionEvent Scenario.rt Events.down Run.request primary "t1" /\
  webhook Scenario.rt Events.down Run.request World_init =
    (Stop Thrown,
     snd (UpApi.getTransaction Events.down (upApis Events.down primary) "t1" World_init)).
Proof.
  assert (He : transactionEvent Scenario.rt Events.down Run.request primary "t1").
  { repeat split; try reflexivity. exists Scenario.created. repeat split; reflexivity. }
  split; [exact He|].
  apply (proj1 (webhook_stops_when_source_fetch_fails Scenario.rt Events.down Run.request
                  primary "t1" World_init He)).
  vm_compute; reflexivity.
Defined.

(** X6: a source-ledger client without an API key throws on every method
    before any request is issued; so does [webhook] on a transaction event
    of a connection whose token is not configured. *)
Theorem up_client_without_key_issues_nothing
    (rt : Runtime) (remote : Remote) (self : up.Api.t) (w : World) :
  up.Api.apiKey self = "" ->
  (forall id, UpApi.getTransaction remote self id w = (Stop Thrown, w)) /\
  (forall id, UpApi.getAccount remote self id w = (Stop Thrown, w)) /\
  (forall fuel, UpApi.getWebhooks remote (S fuel) self w = (Stop Thrown, w)) /\
  (forall url description,
     UpApi.newWebhook remote self url description w = (Stop Thrown, w)) /\
  (forall id, UpApi.deleteWebhook remote self id w = (Stop Thrown, w)) /\
  (forall request account id,
     transactionEvent rt remote request account id ->
     upApis remote account = self ->
     webhook rt remote request w = (Stop Thrown, w)).
Proof.
  intros Hkey.
  assert (Hfetch : forall method url payload,
            UpApi.fetchUrl remote self method url payload w = (Stop Thrown, w)).
  { intros. unfold UpApi.fetchUrl, UpApi.headers. now rewrite Hkey. }
  assert (Ht : forall id, UpApi.getTransaction remote self id w = (Stop Thrown, w)).
  { intros id. unfold UpApi.getTransaction, UpApi.get, UpApi.fetch.
    now rewrite bind_run, Hfetch. }
  repeat split.
  - exact Ht.
  - intros id. unfold UpApi.getAccount, UpApi.get, UpApi.fetch.
    now rewrite bind_run, Hfetch.
  - intros fuel. unfold UpApi.getWebhooks, UpApi.getAllPages.
    cbn [UpApi.getAllPages_loop].
    assert (Js.truthy (up.Api.fullUrl "webhooks") = true) as -> by reflexivity.
    now rewrite bind_run, Hfetch.
  - intros url description. unfold UpApi.newWebhook, UpApi.post, UpApi.fetch.
    now rewrite bind_run, Hfetch.
  - intros id. unfold UpApi.deleteWebhook, UpApi.delete, UpApi.fetch.
    now rewrite bind_run, Hfetch.
  - intros request account id He <-.
    apply webhook_stop.
    now rewrite (classify_transactionEvent rt remote _ _ _ _ He), bind_run, Ht.
Qed.

Lemma up_client_without_key_issues_nothing_witness :
  up.Api.apiKey (upApis Events.keyless primary) = "" /\
  webhook Scenario.rt Events.keyless Run.request World_init = (Stop Thrown, World_init).
Proof.
  split; [reflexivity|].
  apply (proj2 (proj2 (proj2 (proj2 (proj2
           (up_client_without_key_issues_nothing Scenario.rt Events.keyless
              (upApis Events.keyless primary) World_init eq_refl)))))
           Run.request primary "t1"); [|reflexivity].
  repeat split; try reflexivity. exists Scenario.created. repeat split; reflexivity.
Defined.

(** ** What the handlers never request *)

(** The methods of one source-ledger client, in any preorder its fetches
    stay within. *)
Section UpMethodFrames.
Context (remote : Remote) (self : up.Api.t).
Context (R : World -> World -> Prop).
Context (R_refl : forall w, R w w) (R_trans : forall a b c, R a b -> R b c -> R a c).
Context (R_get : forall url, within R (UpApi.fetchUrl remote self "get" url None)).
Context (R_delete : forall url, within R (UpApi.fetchUrl remote self "delete" url None)).
Context (R_post :
  forall url payload, within R (UpApi.fetchUrl remote self "post" url (Some payload))).

Ltac within_tac := repeat within_step R_refl R_trans.

Lemma reads_getTransaction id : within R (UpApi.getTransaction remote self id).
Proof.
  unfold UpApi.getTransaction, UpApi.get, UpApi.fetch.
  apply (within_bind _ R_trans); [apply R_get|intros]. within_tac.
Qed.

Lemma reads_getAccount id : within R (UpApi.getAccount remote self id).
Proof.
  unfold UpApi.getAccount, UpApi.get, UpApi.fetch.
  apply (within_bind _ R_trans); [apply R_get|intros]. within_tac.
Qed.

Lemma reads_getAllPages_loop fuel data nextLink :
  within R (UpApi.getAllPages_loop remote fuel self data nextLink).
Proof.
  revert data nextLink. induction fuel as [|fuel IH]; intros data nextLink;
    cbn [UpApi.getAllPages_loop].
  - within_tac.
  - destruct nextLink as [link|]; [|within_tac]. destruct (Js.truthy link); [|within_tac].
    apply (within_bind _ R_trans); [apply R_get|intros json].
    destruct json; try apply IH; within_tac.
Qed.

Lemma reads_getWebhooks fuel : within R (UpApi.getWebhooks remote fuel self).
Proof. apply reads_getAllPages_loop. Qed.

Lemma writes_deleteWebhook id : within R (UpApi.deleteWebhook remote self id).
Proof.
  unfold UpApi.deleteWebhook, UpApi.delete, UpApi.fetch.
  apply (within_bind _ R_trans); [apply R_delete|intros]. within_tac.
Qed.

Lemma writes_newWebhook url description :
  within R (UpApi.newWebhook remote self url description).
Proof.
  unfold UpApi.newWebhook, UpApi.post, UpApi.fetch.
  apply (within_bind _ R_trans); [apply R_post|intros]. within_tac.
Qed.

End UpMethodFrames.

(** [webhook] in any preorder that the reads of the source ledger and the
    methods of the destination client stay within. *)
Section HandlerFrames.
Context (rt : Runtime) (remote : Remote).
Context (R : World -> World -> Prop).
Context (R_refl : forall w, R w w) (R_trans : forall a b c, R a b -> R b c -> R a c).
Context (R_get :
  forall self url, within R (UpApi.fetchUrl remote self "get" url None)).
Context (R_getAccount : forall id, within R (YnabApi.getAccount remote id)).
Context (R_createAccount :
  forall name type id, within R (YnabApi.createAccount remote name type id)).
Context (R_lookup :
  forall key date, within R (YnabApi.getTransactionFromImportId rt remote key date)).
Context (R_createTransaction :
  forall fields, within R (YnabApi.createTransaction remote fields)).
Context (R_updateTransaction :
  forall id fields, within R (YnabApi.updateTransaction remote id fields)).

Ltac within_tac := repeat within_step R_refl R_trans.

Lemma reads_classify request : within R (classify rt remote request).
Proof.
  unfold classify. within_tac.
  - apply reads_getTransaction; auto.
  - apply reads_getAccount; auto.
Qed.

Lemma reads_getYnabTransferAccountPayeeId id :
  within R (getYnabTransferAccountPayeeId remote id).
Proof.
  unfold getYnabTransferAccountPayeeId, createYnabAccount. within_tac;
    solve [apply R_getAccount | apply reads_getAccount; auto | apply R_createAccount].
Qed.

Lemma reads_newTransaction t a key : within R (newTransaction rt remote t a key).
Proof.
  unfold newTransaction.
  apply (within_bind _ R_trans); [apply R_getAccount|intros o].
  apply (within_bind _ R_trans).
  - destruct o; [within_tac|]. unfold createYnabAccount. within_tac. apply R_createAccount.
  - intros ya. destruct (up.Transaction.transferAccount t) as [ta|]; [|within_tac].
    destruct (Js.truthy ta); [|within_tac].
    apply (within_bind _ R_trans); [apply reads_getYnabTransferAccountPayeeId|].
    intros. within_tac.
Qed.

Lemma reads_webhook request : within R (webhook rt remote request).
Proof.
  unfold webhook, resolve, propagate. within_tac;
    solve [apply reads_classify | apply R_lookup | apply R_updateTransaction
          | apply reads_newTransaction | apply R_createTransaction].
Qed.

End HandlerFrames.

(** The destination client in a frame that admits all its requests. *)
Section YnabFrames.
Context (rt : Runtime) (remote : Remote) (P : Call -> Prop).
Context (P_ynab : forall c, isYnab c = true -> P c).

Local Abbreviation R := (frame P (fun _ _ => True)).

Lemma ynab_frame_refl : forall w, R w w.
Proof. now apply frame_refl. Qed.

Lemma ynab_frame_trans : forall a b c, R a b -> R b c -> R a c.
Proof. now apply frame_trans. Qed.

Ltac within_tac := repeat within_step ynab_frame_refl ynab_frame_trans.

Lemma ynab_frame_fetch method endpoint query payload :
  within R (YnabApi.fetch remote method endpoint query payload).
Proof.
  unfold YnabApi.fetch. within_tac. apply within_fetchJson; auto.
Qed.

Lemma ynab_frame_setAccounts c : within R (setAccounts c).
Proof.
  intros w r w' [= <- <-]. split; [|exact I]. exists []. cbn. now rewrite app_nil_r.
Qed.

Lemma ynab_frame_setTransactions c : within R (setTransactions c).
Proof.
  intros w r w' [= <- <-]. split; [|exact I]. exists []. cbn. now rewrite app_nil_r.
Qed.

Lemma ynab_frame_getAccount id : within R (YnabApi.getAccount remote id).
Proof.
  unfold YnabApi.getAccount, YnabApi.get. within_tac;
    solve [apply ynab_frame_fetch | apply ynab_frame_setAccounts].
Qed.

Lemma ynab_frame_createAccount name type id :
  within R (YnabApi.createAccount remote name type id).
Proof.
  unfold YnabApi.createAccount, YnabApi.post. within_tac;
    solve [apply ynab_frame_fetch | apply ynab_frame_setAccounts].
Qed.

Lemma ynab_frame_lookup key date :
  within R (YnabApi.getTransactionFromImportId rt remote key date).
Proof.
  unfold YnabApi.getTransactionFromImportId, YnabApi.get.
  repeat (first [ within_step ynab_frame_refl ynab_frame_trans
                | apply ynab_frame_fetch
                | apply ynab_frame_setTransactions
                | match goal with |- within _ (let '(_, _) := ?x in _) => destruct x end ]).
Qed.

Lemma ynab_frame_createTransaction fields :
  within R (YnabApi.createTransaction remote fields).
Proof.
  unfold YnabApi.createTransaction, YnabApi.post. within_tac;
    solve [apply ynab_frame_fetch | apply ynab_frame_setTransactions].
Qed.

Lemma ynab_frame_updateTransaction id fields :
  within R (YnabApi.updateTransaction remote id fields).
Proof.
  unfold YnabApi.updateTransaction, YnabApi.put. within_tac. apply ynab_frame_fetch.
Qed.

End YnabFrames.

Lemma sourceRead_fetch remote self url :
  within (frame isSourceRead (fun _ _ => True))
    (UpApi.fetchUrl remote self "get" url None).
Proof.
  unfold UpApi.fetchUrl, UpApi.headers.
  repeat within_step (ynab_frame_refl isSourceRead) (ynab_frame_trans isSourceRead).
  apply within_fetchJson; cbn; auto.
Qed.

(** X7: [webhook] never writes to the source ledger: every request it
    sends there is a [get] without a body. *)
Theorem webhook_only_reads_the_source_ledger
    (rt : Runtime) (remote : Remote) (request : HttpRequest.t) (w w' : World)
    (r : Result HttpResponseInit.t) :
  webhook rt remote request w = (r, w') ->
  Forall isSourceRead (issued w w').
Proof.
  intros H.
  assert (Py : forall c, isYnab c = true -> isSourceRead c) by (intros []; easy).
  destruct (reads_webhook rt remote _
              (ynab_frame_refl isSourceRead) (ynab_frame_trans isSourceRead)
              (sourceRead_fetch remote)
              (ynab_frame_getAccount remote _ Py)
              (ynab_frame_createAccount remote _ Py)
              (ynab_frame_lookup rt remote _ Py)
              (ynab_frame_createTransaction remote _ Py)
              (ynab_frame_updateTransaction remote _ Py)
              request w r w' H) as [[l [E F]] _].
  now rewrite (issued_app _ _ _ E).
Qed.

Lemma webhook_only_reads_the_source_ledger_witness :
  webhook Scenario.rt Run.transferLedger Run.request World_init =
    (fst (webhook Scenario.rt Run.transferLedger Run.request World_init),
     snd (webhook Scenario.rt Run.transferLedger Run.request World_init)) /\
  Forall isSourceRead
    (issued World_init (snd (webhook Scenario.rt Run.transferLedger Run.request World_init))).
Proof.
  assert (H : webhook Scenario.rt Run.transferLedger Run.request World_init =
                (fst (webhook Scenario.rt Run.transferLedger Run.request World_init),
                 snd (webhook Scenario.rt Run.transferLedger Run.request World_init)))
    by (vm_compute; reflexivity).
  split; [exact H|].
  exact (webhook_only_reads_the_source_ledger _ _ _ _ _ _ H).
Defined.

(** ** One creation at most *)

Lemma noCreation_filter w w' :
  noCreation_frame w w' ->
  exists l, trace w' = trace w ++ l /\ List.filter isCreateTransaction l = [].
Proof.
  intros [[l [E F]] _]. exists l. split; [exact E|]. clear E.
  induction F as [|c l Hc _ IH]; [reflexivity|]. cbn. now rewrite Hc.
Qed.

Lemma lookup_noCreation rt remote key date :
  within noCreation_frame (YnabApi.getTransactionFromImportId rt remote key date).
Proof.
  unfold YnabApi.getTransactionFromImportId, YnabApi.get, YnabApi.fetch.
  repeat (first [ within_step (frame_refl (fun c => isCreateTransaction c = false)
                                 (fun _ _ => True) (fun _ => I))
                              (frame_trans (fun c => isCreateTransaction c = false)
                                 (fun _ _ => True) (fun _ _ _ _ _ => I))
                | apply within_fetchJson; auto
                | match goal with |- within _ (let '(_, _) := ?x in _) => destruct x end
                | match goal with
                  | |- within _ (setTransactions _) =>
                      intros w r w' [= <- <-]; split; [|exact I];
                      exists []; cbn; now rewrite app_nil_r
                  end ]).
Qed.

Lemma createTransaction_trace remote fields w r w' :
  YnabApi.createTransaction remote fields w = (r, w') ->
  trace w' = trace w ++
    [YnabFetch "post" "transactions" [] (Some (Js.obj [("transaction", Js.obj fields)]))].
Proof.
  unfold YnabApi.createTransaction, YnabApi.post, YnabApi.fetch. mrun.
  destruct (respond remote (trace w) _) as [| | | | | | | |data|]; mrun;
    try (now intros [= <- <-]).
  destruct (ynab.TransactionJson.import_id data) as [k|];
    [destruct (Js.truthy k)|]; mrun; now intros [= <- <-].
Qed.

Lemma resolve_creates_once rt remote t a w r w' :
  resolve rt remote t a w = (r, w') ->
  exists l, trace w' = trace w ++ l /\
            (length (List.filter isCreateTransaction l) <= 1)%nat.
Proof.
  unfold resolve. rewrite bind_run.
  destruct (YnabApi.getTransactionFromImportId _ _ _ _ w) as [[o|e] w1] eqn:El.
  2:{ intros [= <- <-].
      destruct (noCreation_filter _ _ (lookup_noCreation _ _ _ _ _ _ _ El)) as (l & E & F).
      exists l. rewrite F. split; [exact E | cbn; lia]. }
  destruct (noCreation_filter _ _ (lookup_noCreation _ _ _ _ _ _ _ El)) as (l1 & E1 & F1).
  destruct o as [ids|].
  - rewrite bind_run. unfold unawaited.
    destruct (updateTransaction_run remote (ynab.TransactionIds.id ids)
                (amountAndCleared t) w1) as [ru Hu].
    rewrite Hu. intros [= <- <-]. eexists. cbn. rewrite E1, <- app_assoc.
    split; [reflexivity|]. rewrite List.filter_app, F1. cbn. lia.
  - rewrite bind_run.
    destruct (newTransaction rt remote t a _ w1) as [[fields|e] w2] eqn:En.
    + intros Hc. apply createTransaction_trace in Hc.
      destruct (newTransaction_transactionsKept _ _ _ _ _ _ _ _ En) as [[l2 [E2 F2]] _].
      eexists. rewrite Hc, E2, E1, <- !app_assoc. split; [reflexivity|].
      rewrite !List.filter_app, F1.
      assert (List.filter isCreateTransaction l2 = []) as ->.
      { clear -F2. induction F2 as [|c l Hc _ IH]; [reflexivity|]. cbn. now rewrite Hc. }
      cbn. lia.
    + intros [= <- <-].
      destruct (newTransaction_transactionsKept _ _ _ _ _ _ _ _ En) as [[l2 [E2 F2]] _].
      eexists. rewrite E2, E1, <- !app_assoc. split; [reflexivity|].
      rewrite !List.filter_app, F1.
      assert (List.filter isCreateTransaction l2 = []) as ->.
      { clear -F2. induction F2 as [|c l Hc _ IH]; [reflexivity|]. cbn. now rewrite Hc. }
      cbn. lia.
Qed.

(** X8: one delivery creates at most one destination transaction: among
    the requests of a run of [webhook] there is at most one creation of a
    transaction, whatever the ledgers answer. *)
Theorem webhook_creates_at_most_one_transaction
    (rt : Runtime) (remote : Remote) (request : HttpRequest.t) (w w' : World)
    (r : Result HttpResponseInit.t) :
  webhook rt remote request w = (r, w') ->
  (length (List.filter isCreateTransaction (issued w w')) <= 1)%nat.
Proof.
  unfold webhook. rewrite bind_run.
  destruct (classify rt remote request w) as [[[resp|t a]|e] w0] eqn:Hc.
  - intros [= <- <-].
    destruct (upOnly_issued _ _ (classify_upOnly rt remote _ _ _ _ Hc)) as [_ F].
    rewrite (filter_isCreateTransaction_up _ F). cbn. lia.
  - destruct (classify_upOnly rt remote _ _ _ _ Hc) as [[l0 [E0 F0]] _].
    rewrite bind_run.
    destruct (resolve rt remote t a w0) as [[ids|e] w1] eqn:Hr;
      destruct (resolve_creates_once _ _ _ _ _ _ _ Hr) as (l1 & E1 & L1).
    + rewrite bind_run. destruct (propagate_run remote ids t w1) as [rp Hp]. rewrite Hp.
      intros Hw.
      assert (E : trace w' = trace w ++ l0 ++ l1 ++ counterpartUpdates ids t).
      { destruct rp as [[]|]; injection Hw as _ <-; cbn;
          rewrite E1, E0, <- !app_assoc; reflexivity. }
      rewrite (issued_app _ _ _ E), !List.filter_app.
      rewrite (filter_isCreateTransaction_up _ F0),
        filter_isCreateTransaction_counterpartUpdates, app_nil_r. exact L1.
    + intros [= <- <-].
      assert (E : trace w1 = trace w ++ l0 ++ l1) by now rewrite E1, E0, <- app_assoc.
      rewrite (issued_app _ _ _ E), List.filter_app.
      rewrite (filter_isCreateTransaction_up _ F0). exact L1.
  - intros [= <- <-].
    destruct (upOnly_issued _ _ (classify_upOnly rt remote _ _ _ _ Hc)) as [_ F].
    rewrite (filter_isCreateTransaction_up _ F). cbn. lia.
Qed.

Lemma webhook_creates_at_most_one_transaction_witness :
  List.filter isCreateTransaction (issued World_init Run.afterFirst) = [Run.creation] /\
  (length (List.filter isCreateTransaction (issued World_init Run.afterFirst)) <= 1)%nat.
Proof.
  split; [vm_compute; reflexivity|].
  apply (webhook_creates_at_most_one_transaction Scenario.rt Run.ledger Run.request
           World_init Run.afterFirst
           (fst (webhook Scenario.rt Run.ledger Run.request World_init))).
  vm_compute; reflexivity.
Defined.

(** ** [init] *)

Lemma init_selected_frame rt remote fuel request account :
  Selector_parse (HttpRequest.query request "account") = Some account ->
  within (frame (fun c => sentWith (up.Api.apiKey (upApis remote account)) c /\
                          (isDelete c = true ->
                           HttpRequest.query request "replaceExisting" = Some "true")) eq)
    (init rt remote fuel request).
Proof.
  intros Hsel. unfold init. cbv zeta. rewrite Hsel.
  assert (Hallow : forall b, b = bool_decide
                     (HttpRequest.query request "replaceExisting" = Some "true") ->
                   b = true -> HttpRequest.query request "replaceExisting" = Some "true").
  { intros b -> H. now apply bool_decide_eq_true in H. }
  remember (bool_decide (HttpRequest.query request "replaceExisting" = Some "true"))
    as allow eqn:Ea.
  specialize (Hallow allow eq_refl).
  set (P := fun c => sentWith (up.Api.apiKey (upApis remote account)) c /\
                     (isDelete c = true ->
                      HttpRequest.query request "replaceExisting" = Some "true")).
  assert (Rr : forall w, frame P eq w w) by now apply frame_refl.
  assert (Rt : forall a b c, frame P eq a b -> frame P eq b c -> frame P eq a c)
    by (apply frame_trans; congruence).
  assert (Hfetch : forall method url payload,
            (method = "delete" -> allow = true) ->
            within (frame P eq)
              (UpApi.fetchUrl remote (upApis remote account) method url payload)).
  { intros method url payload Hm. unfold UpApi.fetchUrl, UpApi.headers.
    repeat within_step Rr Rt.
    apply within_fetchJson; [reflexivity|]. split; [reflexivity|].
    cbn. intros H. apply String.eqb_eq in H. auto. }
  clear Ea.
  repeat within_step Rr Rt.
  - apply reads_getWebhooks; auto; intros; apply Hfetch; discriminate.
  - apply writes_deleteWebhook; auto; intros; apply Hfetch; auto.
  - apply writes_newWebhook; auto; intros; apply Hfetch; discriminate.
Qed.

(** X9: [init] talks to the selected connection only: every request it
    issues goes to the source ledger under that connection's key, the
    destination client is left untouched, and unless [replaceExisting] is
    "true" none of the requests is a [delete]. *)
Theorem init_talks_to_the_selected_connection_only
    (rt : Runtime) (remote : Remote) (fuel : nat) (request : HttpRequest.t)
    (account : Selector) (w w' : World) (r : Result HttpResponseInit.t) :
  Selector_parse (HttpRequest.query request "account") = Some account ->
  init rt remote fuel request w = (r, w') ->
  ynabApi w' = ynabApi w /\
  Forall (sentWith (up.Api.apiKey (upApis remote account))) (issued w w') /\
  (HttpRequest.query request "replaceExisting" <> Some "true" ->
   List.filter isDelete (issued w w') = []).
Proof.
  intros Hsel Hrun.
  destruct (init_selected_frame rt remote fuel request account Hsel w r w' Hrun)
    as [[l [E F]] Eapi].
  rewrite (issued_app _ _ _ E). split; [now symmetry|]. split.
  - eapply Forall_impl; [exact F|]. now intros c [Hc _].
  - intros Hno. clear E. induction F as [|c l [_ Hc] _ IH]; [reflexivity|]. cbn.
    destruct (isDelete c); [|exact IH]. now specialize (Hc eq_refl).
Qed.

Lemma init_talks_to_the_selected_connection_only_witness :
  Selector_parse (HttpRequest.query Scenario.provision "account") = Some primary /\
  ynabApi ProvisionWebhook.provisionedFresh = ynabApi World_init /\
  Forall (sentWith "token-1") (issued World_init ProvisionWebhook.provisionedFresh).
Proof.
  split; [reflexivity|].
  destruct (init_talks_to_the_selected_connection_only Scenario.rt
              ProvisionWebhook.freshLedger 5 Scenario.provision primary World_init
              ProvisionWebhook.provisionedFresh
              (fst (init Scenario.rt ProvisionWebhook.freshLedger 5 Scenario.provision
                      World_init)))
    as (Ha & Hs & _); [reflexivity | vm_compute; reflexivity |].
  split; [exact Ha | exact Hs].
Defined.

(** X10: [init] checks its configuration before it contacts anyone: with
    an unknown selector, without callback URL, with the connection's secret
    already set, or with a callback URL that does not parse, the world is
    left as it was and the answer, if any, is not a 200. *)
Theorem init_checks_before_any_request
    (rt : Runtime) (remote : Remote) (fuel : nat) (request : HttpRequest.t)
    (w w' : World) (r : Result HttpResponseInit.t) :
  init rt remote fuel request w = (r, w') ->
  Selector_parse (HttpRequest.query request "account") = None \/
  Js.truthy_opt (processEnv remote "WEBHOOK_URL") = false \/
  (exists account,
     Selector_parse (HttpRequest.query request "account") = Some account /\
     (Js.truthy_opt
        (processEnv remote ("UP_" +:+ Selector_upper account +:+ "_WEBHOOK")) = true \/
      urlWithAccount rt (default "" (processEnv remote "WEBHOOK_URL"))
        (Selector_name account) = None)) ->
  w' = w /\
  forall response, r = Ok response -> HttpResponseInit.status response <> 200.
Proof.
  unfold init. cbv zeta.
  destruct (Selector_parse _) as [account|] eqn:Hsel.
  2:{ intros H _. inversion H; subst. split; [reflexivity|]. now intros ? [= <-]. }
  destruct (Js.truthy_opt (processEnv remote "WEBHOOK_URL")) eqn:Hurl; cbn [negb].
  2:{ intros H _. inversion H; subst. split; [reflexivity|]. now intros ? [= <-]. }
  destruct (Js.truthy_opt (processEnv remote ("UP_" +:+ _))) eqn:Hsecret.
  { intros H _. inversion H; subst. split; [reflexivity|]. now intros ? [= <-]. }
  intros Hrun [H | [H | (a & [= <-] & [H | H])]]; try discriminate.
  - congruence.
  - rewrite H in Hrun. inversion Hrun; subst. split; [reflexivity | discriminate].
Qed.

Lemma init_checks_before_any_request_witness :
  init Scenario.rt Run.ledger 5 Scenario.provision World_init =
    (Ok {| HttpResponseInit.status := 500;
           HttpResponseInit.body :=
             Some "Environmental variable UP_PRIMARY_WEBHOOK is already set." |},
     World_init).
Proof.
  assert (H : init Scenario.rt Run.ledger 5 Scenario.provision World_init =
                (Ok {| HttpResponseInit.status := 500;
                       HttpResponseInit.body :=
                         Some "Environmental variable UP_PRIMARY_WEBHOOK is already set." |},
                 snd (init Scenario.rt Run.ledger 5 Scenario.provision World_init)))
    by (vm_compute; reflexivity).
  destruct (init_checks_before_any_request _ _ _ _ _ _ _ H) as [E _].
  - right; right. exists primary. split; [reflexivity | left; reflexivity].
  - now rewrite E in H.
Defined.

Lemma deleteWebhook_ok remote self id w w' :
  UpApi.deleteWebhook remote self id w = (Ok tt, w') ->
  w' = issue (UpFetch (up.Api.apiKey self) "delete"
                (up.Api.fullUrl ("webhooks/" +:+ id)) None) w.
Proof.
  unfold UpApi.deleteWebhook, UpApi.delete, UpApi.fetch, UpApi.fetchUrl, UpApi.headers.
  destruct (Js.truthy (up.Api.apiKey self)); mrun; [|discriminate].
  destruct (respond remote (trace w) _); mrun; try discriminate; now intros [= <-].
Qed.

Lemma forEach_delete_ok remote self webhooks w w' :
  forEach (fun webhook => UpApi.deleteWebhook remote self (up.Webhook.id webhook))
    webhooks w = (Ok tt, w') ->
  w' = issueAll (map (deleteCall self) webhooks) w.
Proof.
  revert w. induction webhooks as [|x l IH]; intros w; cbn [forEach map].
  - intros [= <-]. now rewrite issueAll_nil.
  - rewrite bind_run.
    destruct (UpApi.deleteWebhook remote self (up.Webhook.id x) w) as [[[]|e] w1] eqn:E;
      [|discriminate].
    intros H. apply deleteWebhook_ok in E. subst w1.
    rewrite (IH _ H). now rewrite issueAll_issue.
Qed.

(** X11: a successful [init] replaces exactly what it should: after the
    listing, its requests are the deletion of each listed webhook whose URL
    is the callback URL, in listing order and only when [replaceExisting]
    is "true", followed by the creation of the new webhook for that URL
    with the description "up-ynab-sync <account>".  Webhooks for other URLs
    are never deleted. *)
Theorem init_replaces_matching_webhooks
    (rt : Runtime) (remote : Remote) (fuel : nat) (request : HttpRequest.t)
    (account : Selector) (w wl w' : World) (response : HttpResponseInit.t)
    (webhookUrl : string) (webhooks : list up.Webhook.t) :
  Selector_parse (HttpRequest.query request "account") = Some account ->
  urlWithAccount rt (default "" (processEnv remote "WEBHOOK_URL"))
    (Selector_name account) = Some webhookUrl ->
  UpApi.getWebhooks remote fuel (upApis remote account) w = (Ok webhooks, wl) ->
  init rt remote fuel request w = (Ok response, w') ->
  HttpResponseInit.status response = 200 ->
  let self := upApis remote account in
  let matching :=
    List.filter (fun x => String.eqb (up.Webhook.url x) webhookUrl) webhooks in
  issued wl w' =
    (if bool_decide (HttpRequest.query request "replaceExisting" = Some "true")
     then map (deleteCall self) matching else []) ++
    [UpFetch (up.Api.apiKey self) "post" (up.Api.fullUrl "webhooks")
       (Some (Js.obj [("data", Js.obj [("attributes",
          Js.obj [("url", Js.str webhookUrl);
                  ("description",
                   Js.str ("up-ynab-sync " +:+ Selector_name account))])])]))].
Proof.
  intros Hsel Hurl Hlist Hrun Hstatus self matching. revert Hrun.
  unfold init. cbv zeta. rewrite Hsel.
  destruct (negb _); [intros H; inversion H; subst; discriminate|].
  destruct (Js.truthy_opt (processEnv remote _));
    [intros H; inversion H; subst; discriminate|].
  rewrite Hurl, bind_run, Hlist. fold matching. fold self.
  destruct (Nat.ltb 0 (length matching) && negb _);
    [intros H; inversion H; subst; discriminate|].
  rewrite bind_run.
  destruct (bool_decide (HttpRequest.query request "replaceExisting" = Some "true")).
  - destruct (forEach _ matching wl) as [[[]|e] wd] eqn:Hd; [|discriminate].
    apply forEach_delete_ok in Hd. subst wd. rewrite bind_run.
    destruct (UpApi.newWebhook remote self _ _ _) as [[nw|e] wn] eqn:Hn; [|discriminate].
    intros [= _ <-]. clear Hstatus.
    revert Hn. unfold UpApi.newWebhook, UpApi.post, UpApi.fetch, UpApi.fetchUrl, UpApi.headers.
    destruct (Js.truthy (up.Api.apiKey self)); mrun; [|discriminate].
    destruct (respond remote _ _); mrun; try discriminate.
    intros [= _ <-]. apply issued_app. cbn. now rewrite <- app_assoc.
  - mrun. destruct (UpApi.newWebhook remote self _ _ wl) as [[nw|e] wn] eqn:Hn;
      [|discriminate].
    intros [= _ <-]. clear Hstatus.
    revert Hn. unfold UpApi.newWebhook, UpApi.post, UpApi.fetch, UpApi.fetchUrl, UpApi.headers.
    destruct (Js.truthy (up.Api.apiKey self)); mrun; [|discriminate].
    destruct (respond remote _ _); mrun; try discriminate.
    intros [= _ <-]. now apply issued_app.
Qed.

Lemma init_replaces_matching_webhooks_witness :
  UpApi.getWebhooks Replace.ledger 5 (upApis Replace.ledger primary) World_init =
    (Ok [Replace.otherWebhook; Scenario.staleWebhook], Replace.listed) /\
  issued Replace.listed Replace.replaced =
    [UpFetch "token-1" "delete" "https://api.up.com.au/api/v1//webhooks/w1?" None;
     UpFetch "token-1" "post" "https://api.up.com.au/api/v1//webhooks?"
       (Some (Js.obj [("data", Js.obj [("attributes",
          Js.obj [("url", Js.str "https://sync.example/api/webhook?account=primary");
                  ("description", Js.str "up-ynab-sync primary")])])]))].
Proof.
  split; [vm_compute; reflexivity|].
  apply (init_replaces_matching_webhooks Scenario.rt Replace.ledger 5 Replace.replacing
           primary World_init Replace.listed Replace.replaced
           {| HttpResponseInit.status := 200;
              HttpResponseInit.body :=
                Some "Save the secret as a variable in UP_PRIMARY_WEBHOOK: s3cret" |}
           "https://sync.example/api/webhook?account=primary"
           [Replace.otherWebhook; Scenario.staleWebhook]);
    vm_compute; reflexivity.
Defined.

(** ** The caches *)

(** The world a lookup of a transaction leaves: the old one, one more
    request issued, or the refreshed cache. *)
Lemma lookup_world rt remote key date w r w' :
  YnabApi.getTransactionFromImportId rt remote key date w = (r, w') ->
  (w' = w /\ r = Ok (transactionCache w !! key) /\ is_Some (transactionCache w !! key)) \/
  (transactionCache w !! key = None /\
   exists query,
     trace w' = trace w ++ [YnabFetch "get" "transactions" query None] /\
     ((ynabApi w' = ynabApi w /\ r = Stop Thrown /\
       forall transactions server_knowledge,
         respond remote (trace w) (YnabFetch "get" "transactions" query None)
           <> YnabTransactions transactions server_knowledge) \/
      (exists transactions server_knowledge from,
         respond remote (trace w) (YnabFetch "get" "transactions" query None)
           = YnabTransactions transactions server_knowledge /\
         ynabApi w' =
           {| ynab.Api.accounts := ynab.Api.accounts (ynabApi w);
              ynab.Api.transactions :=
                ynab.YnabCache.setCursor server_knowledge (Some from)
                  (YnabApi.cacheTransactions transactions
                     (ynab.Api.transactions (ynabApi w))) |} /\
         r = Ok (transactionCache w' !! key)))).
Proof.
  unfold YnabApi.getTransactionFromImportId, transactionCache, ynab.YnabCache.has,
    ynab.YnabCache.get.
  rewrite bind_run. cbn [getApi].
  destruct (ynab.YnabCache.entries (ynab.Api.transactions (ynabApi w)) !! key)
    as [ids|] eqn:Hk.
  - rewrite bool_decide_eq_true_2 by eauto. cbn [negb]. mrun. rewrite Hk.
    intros [= <- <-]. left. eauto.
  - rewrite bool_decide_eq_false_2 by (intros [? ?]; discriminate). cbn [negb].
    intros H. right. split; [reflexivity|]. revert H.
    rewrite bind_run, bind_run.
    match goal with
    | |- context [match ?m w with _ => _ end] =>
        assert (Hs : exists start, m w = (Ok start, w))
    end.
    { destruct (ynab.YnabCache.sinceDate _); mrun; eauto. }
    destruct Hs as [start ->].
    destruct (YnabApi.syncWindow start _ date) as [from tok].
    unfold YnabApi.get, YnabApi.fetch. mrun. intros H.
    match type of H with
    | context [respond remote (trace w) (YnabFetch "get" "transactions" ?q None)] =>
        exists q
    end.
    revert H.
    destruct (respond remote (trace w) _) eqn:E; mrun; intros [= <- <-];
      (split; [reflexivity|]);
      try (left; repeat split; intros; discriminate).
    right. eexists _, _, _. split; [reflexivity|]. split; reflexivity.
Qed.

Lemma account_lookup_world remote id w r w' :
  YnabApi.getAccount remote id w = (r, w') ->
  (w' = w /\ r = Ok (accountCache w !! id) /\ is_Some (accountCache w !! id)) \/
  (accountCache w !! id = None /\
   let call :=
     YnabFetch "get" "accounts"
       [("last_knowledge_of_server",
         Js.num (ynab.YnabCache.lastKnowledgeOfServer (ynab.Api.accounts (ynabApi w))))]
       None in
   trace w' = trace w ++ [call] /\
   ((ynabApi w' = ynabApi w /\ r = Stop Thrown /\
     forall accounts server_knowledge,
       respond remote (trace w) call <> YnabAccounts accounts server_knowledge) \/
    (exists accounts server_knowledge,
       respond remote (trace w) call = YnabAccounts accounts server_knowledge /\
       ynabApi w' =
         {| ynab.Api.accounts :=
              ynab.YnabCache.setCursor server_knowledge
                (ynab.YnabCache.sinceDate (ynab.Api.accounts (ynabApi w)))
                (YnabApi.cacheAccounts accounts (ynab.Api.accounts (ynabApi w)));
            ynab.Api.transactions := ynab.Api.transactions (ynabApi w) |} /\
       r = Ok (accountCache w' !! id)))).
Proof.
  unfold YnabApi.getAccount, accountCache, ynab.YnabCache.has, ynab.YnabCache.get.
  rewrite bind_run. cbn [getApi].
  destruct (ynab.YnabCache.entries (ynab.Api.accounts (ynabApi w)) !! id)
    as [a|] eqn:Hk.
  - rewrite bool_decide_eq_true_2 by eauto. cbn [negb]. mrun. rewrite Hk.
    intros [= <- <-]. left. eauto.
  - rewrite bool_decide_eq_false_2 by (intros [? ?]; discriminate). cbn [negb].
    intros H. right. split; [reflexivity|]. revert H.
    unfold YnabApi.get, YnabApi.fetch. mrun.
    destruct (respond remote (trace w) _) eqn:E; mrun; intros [= <- <-];
      (split; [reflexivity|]);
      try (left; repeat split; intros; discriminate).
    right. eexists _, _. split; [reflexivity|]. split; reflexivity.
Qed.

Lemma cache_set_keeps {T} key (v : T) c k :
  is_Some (ynab.YnabCache.entries c !! k) ->
  is_Some (ynab.YnabCache.entries (ynab.YnabCache.set key v c) !! k).
Proof.
  intros H. cbn. rewrite lookup_insert. case_decide; [eauto | exact H].
Qed.

Lemma cacheTransactions_keeps transactions c k :
  is_Some (ynab.YnabCache.entries c !! k) ->
  is_Some (ynab.YnabCache.entries (YnabApi.cacheTransactions transactions c) !! k).
Proof.
  unfold YnabApi.cacheTransactions.
  generalize (List.filter
                (fun x => Js.truthy_opt (ynab.TransactionJson.import_id x)) transactions).
  intros l. revert c. induction l as [|x l IH]; intros c H; [exact H|]. cbn.
  apply IH. now apply cache_set_keeps.
Qed.

Lemma cacheAccounts_keeps accounts c k :
  is_Some (ynab.YnabCache.entries c !! k) ->
  is_Some (ynab.YnabCache.entries (YnabApi.cacheAccounts accounts c) !! k).
Proof.
  unfold YnabApi.cacheAccounts. revert c.
  induction accounts as [|x l IH]; intros c H; [exact H|]. cbn.
  apply IH. destruct (ynab.AccountJson.note x ≫= ynab.matchUpId); [|exact H].
  now apply cache_set_keeps.
Qed.

Lemma keysKept_refl w : keysKept w w.
Proof. split; auto. Qed.

Lemma keysKept_trans a b c : keysKept a b -> keysKept b c -> keysKept a c.
Proof. intros [H1 H2] [H3 H4]. split; auto. Qed.

Lemma keysKept_same a b : ynabApi b = ynabApi a -> keysKept a b.
Proof. intros E. unfold keysKept, transactionCache, accountCache. rewrite E. auto. Qed.

Lemma step_keysKept rt remote w w' : step rt remote w w' -> keysKept w w'.
Proof.
  intros [c w0 _ | key date r w0 w1 H | id r w0 w1 H | name type id r w0 w1 H
         | fields r w0 w1 H | id fields r w0 w1 H].
  - now apply keysKept_same.
  - destruct (lookup_world _ _ _ _ _ _ _ H)
      as [(-> & _) | (_ & q & _ & [(E & _) | (txs & sk & from & _ & E & _)])].
    + apply keysKept_refl.
    + now apply keysKept_same.
    + unfold keysKept, transactionCache, accountCache. rewrite E. cbn. split; [|auto].
      intros k. apply cacheTransactions_keeps.
  - destruct (account_lookup_world _ _ _ _ _ H)
      as [(-> & _) | (_ & _ & [(E & _) | (accts & sk & _ & E & _)])].
    + apply keysKept_refl.
    + now apply keysKept_same.
    + unfold keysKept, transactionCache, accountCache. rewrite E. cbn. split; [auto|].
      intros k. apply cacheAccounts_keeps.
  - revert H. unfold YnabApi.createAccount, YnabApi.post, YnabApi.fetch. mrun.
    destruct (respond remote (trace w0) _); mrun; intros [= <- <-];
      try (now apply keysKept_same).
    unfold keysKept, transactionCache, accountCache. cbn. split; [auto|].
    intros k. apply (cache_set_keeps id _ (ynab.Api.accounts (ynabApi w0))).
  - destruct r as [ids|e].
    + destruct (createTransaction_ok _ _ _ _ _ H) as (data & _ & _ & _ & Ha & Ht).
      unfold keysKept, accountCache. rewrite Ha, Ht. split; [|auto]. intros k Hk.
      destruct (ynab.TransactionJson.import_id data) as [key|]; [|exact Hk].
      destruct (Js.truthy key); [|exact Hk].
      rewrite lookup_insert. case_decide; [eauto | exact Hk].
    + revert H. unfold YnabApi.createTransaction, YnabApi.post, YnabApi.fetch. mrun.
      destruct (respond remote (trace w0) _) as [| | | | | | | |data|]; mrun;
        try (intros [= <- <-]; now apply keysKept_same).
      destruct (ynab.TransactionJson.import_id data) as [k|];
        [destruct (Js.truthy k)|]; mrun; discriminate.
  - destruct (updateTransaction_run remote id fields w0) as [r' Hr].
    rewrite Hr in H. injection H as _ <-. now apply keysKept_same.
Qed.

(** X12: no entry is ever evicted: a key held by the transaction cache or
    by the account cache is still held after any sequence of client calls,
    and after any run of [webhook] or [init]. *)
Theorem cached_keys_are_never_evicted
    (rt : Runtime) (remote : Remote) (w w' : World) :
  rtc (step rt remote) w w' \/
  (exists request r, webhook rt remote request w = (r, w')) \/
  (exists fuel request r, init rt remote fuel request w = (r, w')) ->
  keysKept w w'.
Proof.
  intros H.
  assert (Hs : rtc (step rt remote) w w').
  { destruct H as [H | [(request & r & H) | (fuel & request & r & H)]].
    - exact H.
    - exact (webhook_steps rt remote request w r w' H).
    - exact (init_steps rt remote fuel request w r w' H). }
  clear H. induction Hs as [w | w w1 w' Hstep _ IH]; [apply keysKept_refl|].
  eapply keysKept_trans; [eapply step_keysKept, Hstep | exact IH].
Qed.

Lemma cached_keys_are_never_evicted_witness :
  is_Some (transactionCache Run.afterFirst !! "up:t1") /\
  keysKept Run.afterFirst (snd (webhook Scenario.rt Run.ledger Run.request Run.afterFirst)).
Proof.
  split; [vm_compute; eauto|].
  apply (cached_keys_are_never_evicted Scenario.rt Run.ledger).
  right; left. exists Run.request, (fst (webhook Scenario.rt Run.ledger Run.request Run.afterFirst)).
  vm_compute; reflexivity.
Defined.

(** *** What a refresh caches *)

Lemma cacheTransactions_snoc transactions x c :
  YnabApi.cacheTransactions (transactions ++ [x]) c =
  if Js.truthy_opt (ynab.TransactionJson.import_id x)
  then ynab.YnabCache.set (default "" (ynab.TransactionJson.import_id x)) (idsOf x)
         (YnabApi.cacheTransactions transactions c)
  else YnabApi.cacheTransactions transactions c.
Proof.
  unfold YnabApi.cacheTransactions. rewrite List.filter_app. cbn [List.filter].
  destruct (Js.truthy_opt (ynab.TransactionJson.import_id x)).
  - now rewrite fold_left_app.
  - now rewrite app_nil_r.
Qed.

Lemma cacheTransactions_lookup transactions c k :
  k <> "" ->
  ynab.YnabCache.entries (YnabApi.cacheTransactions transactions c) !! k =
  match lastListed k transactions with
  | Some ids => Some ids
  | None => ynab.YnabCache.entries c !! k
  end.
Proof.
  intros Hk. induction transactions as [|x l IH] using rev_ind; [reflexivity|].
  rewrite cacheTransactions_snoc. unfold lastListed in *. rewrite rev_unit.
  cbn [List.find].
  destruct (ynab.TransactionJson.import_id x) as [key|] eqn:Ei; cbn [Js.truthy_opt].
  - destruct (decide (key = k)) as [->|Hne].
    + rewrite bool_decide_eq_true_2 by reflexivity.
      destruct k; [contradiction|]. cbn. apply lookup_insert_eq.
    + rewrite bool_decide_eq_false_2 by congruence.
      destruct (Js.truthy key); [|exact IH].
      cbn. rewrite lookup_insert_ne by exact Hne. exact IH.
  - rewrite bool_decide_eq_false_2 by discriminate. exact IH.
Qed.

(** X13: a lookup that misses refreshes from one listing and answers from
    it: the result is the identity of the last listed row carrying the key,
    or absent when no row carries it (a negative result, not a failure);
    rows without import id, or with an empty one, are ignored; every other
    key maps to its last listed row, or to what it mapped to before; and
    the remembered change token becomes the one the ledger returned. *)
Theorem lookup_miss_answers_from_the_listing
    (rt : Runtime) (remote : Remote) (key : string) (date : option Js.Date)
    (w w' : World) (r : Result (option ynab.TransactionIds.t))
    (transactions : list ynab.TransactionJson.t) (server_knowledge : Z) :
  transactionCache w !! key = None ->
  key <> "" ->
  (forall query,
     respond remote (trace w) (YnabFetch "get" "transactions" query None) =
       YnabTransactions transactions server_knowledge) ->
  YnabApi.getTransactionFromImportId rt remote key date w = (r, w') ->
  r = Ok (lastListed key transactions) /\
  token w' = server_knowledge /\
  (forall k, k <> "" ->
     transactionCache w' !! k =
       match lastListed k transactions with
       | Some ids => Some ids
       | None => transactionCache w !! k
       end) /\
  transactionCache w' !! "" = transactionCache w !! "".
Proof.
  intros Hmiss Hkey Hreply Hrun.
  destruct (lookup_world _ _ _ _ _ _ _ Hrun)
    as [(_ & _ & [ids Hin]) | (_ & q & _ & [(_ & _ & Hno) | (txs & sk & from & E & Ew & ->)])].
  - congruence.
  - exfalso. eapply Hno, Hreply.
  - rewrite Hreply in E. injection E as <- <-.
    assert (Hall : forall k, k <> "" ->
              transactionCache w' !! k =
                match lastListed k transactions with
                | Some ids => Some ids
                | None => transactionCache w !! k
                end).
    { intros k Hk. unfold transactionCache. rewrite Ew. cbn.
      now apply cacheTransactions_lookup. }
    split; [|split; [|split]].
    + rewrite (Hall key Hkey), Hmiss. now destruct (lastListed key transactions).
    + unfold token. now rewrite Ew.
    + exact Hall.
    + unfold transactionCache. rewrite Ew. cbn. clear.
      induction transactions as [|x l IH] using rev_ind; [reflexivity|].
      rewrite cacheTransactions_snoc.
      destruct (ynab.TransactionJson.import_id x) as [[|c s]|]; cbn; try exact IH.
      rewrite lookup_insert_ne by discriminate. exact IH.
Qed.

Lemma lookup_miss_answers_from_the_listing_witness :
  YnabApi.getTransactionFromImportId Scenario.rt Listing.ledger "up:t1" None World_init =
    (Ok (Some (idsOf (Listing.row "second" (Some "up:t1")))),
     snd (YnabApi.getTransactionFromImportId Scenario.rt Listing.ledger "up:t1" None
            World_init)) /\
  token (snd (YnabApi.getTransactionFromImportId Scenario.rt Listing.ledger "up:t1" None
                World_init)) = 42.
Proof.
  destruct (lookup_miss_answers_from_the_listing Scenario.rt Listing.ledger "up:t1" None
              World_init
              (snd (YnabApi.getTransactionFromImportId Scenario.rt Listing.ledger "up:t1"
                      None World_init))
              (fst (YnabApi.getTransactionFromImportId Scenario.rt Listing.ledger "up:t1"
                      None World_init))
              Listing.rows 42) as (Hr & Ht & _).
  - reflexivity.
  - discriminate.
  - intros query. reflexivity.
  - vm_compute; reflexivity.
  - split; [|exact Ht]. vm_compute; reflexivity.
Defined.

(** *** Rediscovery of accounts from their notes *)

Lemma string_take_all n s : (String.length s <= n)%nat -> ynab.string_take n s = s.
Proof.
  revert s. induction n as [|n IH]; intros [|c s]; cbn; intros H; try reflexivity; [lia|].
  rewrite IH by lia. reflexivity.
Qed.

Lemma string_drop_all n s : (String.length s <= n)%nat -> ynab.string_drop n s = "".
Proof.
  revert s. induction n as [|n IH]; intros [|c s]; cbn; intros H; try reflexivity; [lia|].
  apply IH. lia.
Qed.

Lemma string_take_length_le n s :
  (String.length (ynab.string_take n s) <= String.length s)%nat.
Proof.
  revert s. induction n as [|n IH]; intros [|c s]; cbn; try lia. specialize (IH s). lia.
Qed.

Lemma string_drop_length n s :
  String.length (ynab.string_drop n s) = (String.length s - n)%nat.
Proof.
  revert s. induction n as [|n IH]; intros [|c s]; cbn; try lia. apply IH.
Qed.

Lemma matchUpId_tagged id :
  matchable id -> ynab.matchUpId ("upId:" +:+ id) = Some id.
Proof.
  intros (Hlen & Hchars & Hlast).
  assert (Hhere : ynab.matchUpIdHere ("upId:" +:+ id) = Some id).
  { unfold ynab.matchUpIdHere.
    change (ynab.string_take 5 ("upId:" +:+ id)) with "upId:".
    change (ynab.string_drop 5 ("upId:" +:+ id)) with id.
    change (ynab.string_drop 41 ("upId:" +:+ id)) with (ynab.string_drop 36 id).
    cbn [ynab.string_map Js.startsWith].
    rewrite (string_take_all 36 id) by lia. rewrite (string_drop_all 36 id) by lia.
    rewrite Hlen, Hchars, Hlast. reflexivity. }
  change ("upId:" +:+ id) with (String "u" ("pId:" +:+ id)) in *.
  cbn [ynab.matchUpId]. now rewrite Hhere.
Qed.

Lemma matchUpId_short note :
  (String.length note < 41)%nat -> ynab.matchUpId note = None.
Proof.
  induction note as [|c s IH]; intros Hlen.
  - reflexivity.
  - cbn [ynab.matchUpId].
    assert (Hhere : ynab.matchUpIdHere (String c s) = None).
    { unfold ynab.matchUpIdHere. destruct (Js.startsWith _ _); [|reflexivity].
      assert (Hg : Nat.eqb (String.length
                     (ynab.string_take 36 (ynab.string_drop 5 (String c s)))) 36 = false).
      { apply Nat.eqb_neq.
        pose proof (string_take_length_le 36 (ynab.string_drop 5 (String c s))).
        rewrite string_drop_length in H. cbn [String.length] in *. lia. }
      now rewrite Hg. }
    rewrite Hhere. apply IH. cbn in Hlen. lia.
Qed.

Lemma cacheAccounts_snoc accounts x c :
  YnabApi.cacheAccounts (accounts ++ [x]) c =
  match ynab.AccountJson.note x ≫= ynab.matchUpId with
  | Some upId =>
      ynab.YnabCache.set upId
        {| ynab.Account.id := ynab.AccountJson.id x;
           ynab.Account.payeeId := ynab.AccountJson.transfer_payee_id x |}
        (YnabApi.cacheAccounts accounts c)
  | None => YnabApi.cacheAccounts accounts c
  end.
Proof. unfold YnabApi.cacheAccounts. now rewrite fold_left_app. Qed.

(** X14: the note that [createAccount] writes is found again by a cold
    cache: for a source account id the pattern can match (36 characters of
    [[a-f0-9-]], ending in a word character, as a UUID is), the pattern
    extracts exactly the id from "upId:<id>", and a lookup that misses and
    is answered with a listing whose last account carries that note returns
    that account's id and transfer payee id. *)
Theorem account_is_rediscovered_from_its_note
    (remote : Remote) (upAccountId : string) (w w' : World)
    (r : Result (option ynab.Account.t))
    (accounts : list ynab.AccountJson.t) (listed : ynab.AccountJson.t)
    (server_knowledge : Z) :
  matchable upAccountId ->
  ynab.AccountJson.note listed = Some ("upId:" +:+ upAccountId) ->
  accountCache w !! upAccountId = None ->
  (forall query,
     respond remote (trace w) (YnabFetch "get" "accounts" query None) =
       YnabAccounts (accounts ++ [listed]) server_knowledge) ->
  YnabApi.getAccount remote upAccountId w = (r, w') ->
  ynab.matchUpId ("upId:" +:+ upAccountId) = Some upAccountId /\
  r = Ok (Some {| ynab.Account.id := ynab.AccountJson.id listed;
                  ynab.Account.payeeId := ynab.AccountJson.transfer_payee_id listed |}).
Proof.
  intros Hid Hnote Hmiss Hreply Hrun.
  pose proof (matchUpId_tagged _ Hid) as Hm. split; [exact Hm|].
  destruct (account_lookup_world _ _ _ _ _ Hrun)
    as [(_ & _ & [a Hin]) | (_ & _ & [(_ & _ & Hno) | (accts & sk & E & Ew & ->)])].
  - congruence.
  - exfalso. eapply Hno, Hreply.
  - rewrite Hreply in E. injection E as <- <-.
    unfold accountCache. rewrite Ew. cbn. rewrite cacheAccounts_snoc, Hnote. cbn.
    rewrite Hm. cbn. now rewrite lookup_insert_eq.
Qed.

Lemma account_is_rediscovered_from_its_note_witness :
  matchable Listing.uuid /\
  YnabApi.getAccount Listing.ledger Listing.uuid World_init =
    (Ok (Some {| ynab.Account.id := "ya-2"; ynab.Account.payeeId := "yp-2" |}),
     snd (YnabApi.getAccount Listing.ledger Listing.uuid World_init)).
Proof.
  assert (Hm : matchable Listing.uuid) by (repeat split; reflexivity).
  split; [exact Hm|].
  destruct (account_is_rediscovered_from_its_note Listing.ledger Listing.uuid World_init
              (snd (YnabApi.getAccount Listing.ledger Listing.uuid World_init))
              (fst (YnabApi.getAccount Listing.ledger Listing.uuid World_init))
              (firstn 2 Listing.accounts)
              {| ynab.AccountJson.id := "ya-2"; ynab.AccountJson.transfer_payee_id := "yp-2";
                 ynab.AccountJson.note := Some ("upId:" +:+ Listing.uuid) |}
              17 Hm) as (_ & Hr).
  - reflexivity.
  - reflexivity.
  - intros query. reflexivity.
  - vm_compute; reflexivity.
  - vm_compute; reflexivity.
Defined.

Lemma cacheAccounts_short accounts :
  Forall (fun account =>
            forall note, ynab.AccountJson.note account = Some note ->
                         (String.length note < 41)%nat) accounts ->
  forall c, YnabApi.cacheAccounts accounts c = c.
Proof.
  unfold YnabApi.cacheAccounts.
  induction 1 as [|x l Hx _ IH]; intros c; [reflexivity|]. cbn.
  destruct (ynab.AccountJson.note x) as [note|] eqn:En; cbn; [|apply IH].
  rewrite (matchUpId_short note) by now apply Hx. apply IH.
Qed.

(** X15: an account whose note is shorter than the tag plus 36 characters
    is never rediscovered: a lookup that misses and is answered with a
    listing of such accounts only finds nothing and leaves the cached
    entries as they were.  In particular "upId:<id>" is not recognised for
    a source account id of fewer than 36 characters. *)
Theorem short_notes_are_never_rediscovered
    (remote : Remote) (upAccountId : string) (w w' : World)
    (r : Result (option ynab.Account.t))
    (accounts : list ynab.AccountJson.t) (server_knowledge : Z) :
  Forall (fun account =>
            forall note, ynab.AccountJson.note account = Some note ->
                         (String.length note < 41)%nat) accounts ->
  accountCache w !! upAccountId = None ->
  (forall query,
     respond remote (trace w) (YnabFetch "get" "accounts" query None) =
       YnabAccounts accounts server_knowledge) ->
  YnabApi.getAccount remote upAccountId w = (r, w') ->
  r = Ok None /\ accountCache w' = accountCache w /\
  (forall id, (String.length id < 36)%nat -> ynab.matchUpId ("upId:" +:+ id) = None).
Proof.
  intros Hshort Hmiss Hreply Hrun.
  pose proof (cacheAccounts_short accounts Hshort) as Hcache.
  destruct (account_lookup_world _ _ _ _ _ Hrun)
    as [(_ & _ & [a Hin]) | (_ & _ & [(_ & _ & Hno) | (accts & sk & E & Ew & ->)])].
  - congruence.
  - exfalso. eapply Hno, Hreply.
  - rewrite Hreply in E. injection E as <- <-.
    assert (Ec : accountCache w' = accountCache w).
    { unfold accountCache. rewrite Ew. cbn. now rewrite Hcache. }
    rewrite Ec, Hmiss. repeat split.
    intros id Hid. apply matchUpId_short.
    change ("upId:" +:+ id) with (String "u" (String "p" (String "I" (String "d"
      (String ":" id))))). cbn [String.length]. lia.
Qed.

Lemma short_notes_are_never_rediscovered_witness :
  YnabApi.getAccount Listing.shortLedger "a1" World_init =
    (Ok None, snd (YnabApi.getAccount Listing.shortLedger "a1" World_init)) /\
  ynab.matchUpId "upId:a1" = None.
Proof.
  destruct (short_notes_are_never_rediscovered Listing.shortLedger "a1" World_init
              (snd (YnabApi.getAccount Listing.shortLedger "a1" World_init))
              (fst (YnabApi.getAccount Listing.shortLedger "a1" World_init))
              (firstn 2 Listing.accounts) 17) as (Hr & _ & Hm).
  - unfold Listing.accounts. cbn [firstn].
    repeat (apply List.Forall_cons; [intros note E; inversion E; subst; cbn; lia|]).
    apply List.Forall_nil.
  - reflexivity.
  - intros query. reflexivity.
  - vm_compute; reflexivity.
  - split; [vm_compute; reflexivity | apply (Hm "a1"); cbn; lia].
Defined.

(** *** Write-through of created transactions *)

(** X16: [createTransaction] caches under the import id the destination
    ledger echoes, not under the one it sent.  When the creation reply
    carries a non-empty import id, the returned identity is stored under
    that key and a later lookup of the key, whatever the date, returns it
    without issuing a request; when the reply carries none, or an empty
    one, both caches are left as they were.  Either way exactly the
    creation request is issued and the reply's identity is returned. *)
Theorem created_transaction_is_cached_under_the_echoed_key
    (rt : Runtime) (remote : Remote) (transaction : ynab.Transaction)
    (data : ynab.TransactionJson.t) (w w' : World) (r : Result ynab.TransactionIds.t) :
  let call := YnabFetch "post" "transactions" []
                (Some (Js.obj [("transaction", Js.obj transaction)])) in
  respond remote (trace w) call = YnabTransactionData data ->
  YnabApi.createTransaction remote transaction w = (r, w') ->
  r = Ok (idsOf data) /\
  issued w w' = [call] /\
  (forall key, ynab.TransactionJson.import_id data = Some key -> key <> "" ->
     transactionCache w' = <[key := idsOf data]> (transactionCache w) /\
     forall date,
       YnabApi.getTransactionFromImportId rt remote key date w' =
         (Ok (Some (idsOf data)), w')) /\
  (ynab.TransactionJson.import_id data = None \/
   ynab.TransactionJson.import_id data = Some "" -> ynabApi w' = ynabApi w).
Proof.
  intros call Hreply. unfold YnabApi.createTransaction, YnabApi.post, YnabApi.fetch.
  mrun. fold call. rewrite Hreply. fold (idsOf data).
  destruct (ynab.TransactionJson.import_id data) as [[|c key]|] eqn:Ei;
    cbn [Js.truthy]; mrun; intros [= <- <-];
    (split; [reflexivity|]); (split; [now apply issued_app|]); split;
    try (intros k [=]; fail); try reflexivity.
  - intros k [= <-] Hk. contradiction.
  - intros k [= <-] _. split; [reflexivity|].
    intros date. apply getTransactionFromImportId_hit.
    unfold transactionCache. cbn. apply lookup_insert_eq.
  - intros [[=]|[=]].
Qed.

Lemma created_transaction_is_cached_under_the_echoed_key_witness :
  YnabApi.getTransactionFromImportId Scenario.rt Run.ledger "up:t1" None
    (snd (YnabApi.createTransaction Run.ledger [("import_id", Js.str "up:t1")] World_init)) =
  (Ok (Some {| ynab.TransactionIds.id := "transaction-0";
               ynab.TransactionIds.transfer_transaction_id := None |}),
   snd (YnabApi.createTransaction Run.ledger [("import_id", Js.str "up:t1")] World_init)).
Proof.
  destruct (created_transaction_is_cached_under_the_echoed_key Scenario.rt Run.ledger
              [("import_id", Js.str "up:t1")]
              {| ynab.TransactionJson.id := "transaction-0";
                 ynab.TransactionJson.transfer_transaction_id := None;
                 ynab.TransactionJson.import_id := Some "up:t1" |}
              World_init
              (snd (YnabApi.createTransaction Run.ledger [("import_id", Js.str "up:t1")]
                      World_init))
              (fst (YnabApi.createTransaction Run.ledger [("import_id", Js.str "up:t1")]
                      World_init)))
    as (_ & _ & Hkey & _).
  - vm_compute; reflexivity.
  - vm_compute; reflexivity.
  - destruct (Hkey "up:t1") as [_ Hlookup].
    + reflexivity.
    + discriminate.
    + exact (Hlookup None).
Defined.

(** *** Failures *)

Lemma issued_one w w' c : trace w' = trace w ++ [c] -> length (issued w w') = 1%nat.
Proof. intros H. now rewrite (issued_app _ _ _ H). Qed.

(** X17: a call of the destination client that throws leaves both caches,
    cursors included, exactly as they were: a refresh writes its rows only
    after the listing arrived, and a creation caches only after the ledger
    answered.  Such a call has issued exactly one request. *)
Theorem failed_destination_call_keeps_the_caches
    (rt : Runtime) (remote : Remote) (w w' : World) (e : Abort) :
  (exists key date, YnabApi.getTransactionFromImportId rt remote key date w = (Stop e, w')) \/
  (exists id, YnabApi.getAccount remote id w = (Stop e, w')) \/
  (exists name type id, YnabApi.createAccount remote name type id w = (Stop e, w')) \/
  (exists transaction, YnabApi.createTransaction remote transaction w = (Stop e, w')) \/
  (exists id transaction, YnabApi.updateTransaction remote id transaction w = (Stop e, w')) ->
  ynabApi w' = ynabApi w /\ e = Thrown /\ length (issued w w') = 1%nat.
Proof.
  intros [(key & date & H) | [(id & H) | [(name & type & id & H) |
          [(transaction & H) | (id & transaction & H)]]]].
  - destruct (lookup_world _ _ _ _ _ _ _ H)
      as [(_ & [=] & _) | (_ & q & Ht & [(Ha & [= <-] & _) | (? & ? & ? & _ & _ & [=])])].
    repeat split; [exact Ha|]. exact (issued_one _ _ _ Ht).
  - destruct (account_lookup_world _ _ _ _ _ H)
      as [(_ & [=] & _) | (_ & Ht & [(Ha & [= <-] & _) | (? & ? & _ & _ & [=])])].
    repeat split; [exact Ha|]. exact (issued_one _ _ _ Ht).
  - revert H. unfold YnabApi.createAccount, YnabApi.post, YnabApi.fetch. mrun.
    destruct (respond remote (trace w) _); mrun; intros [= <- <-];
      (repeat split; eapply issued_one; reflexivity).
  - revert H. unfold YnabApi.createTransaction, YnabApi.post, YnabApi.fetch. mrun.
    destruct (respond remote (trace w) _) as [| | | | | | | |data|]; mrun;
      try (intros [= <- <-]; repeat split; eapply issued_one; reflexivity).
    destruct (ynab.TransactionJson.import_id data) as [key|];
      [destruct (Js.truthy key)|]; mrun; discriminate.
  - revert H. unfold YnabApi.updateTransaction, YnabApi.put, YnabApi.fetch. mrun.
    destruct (respond remote (trace w) _); mrun; intros [= <- <-];
      (repeat split; eapply issued_one; reflexivity).
Qed.

Lemma failed_destination_call_keeps_the_caches_witness :
  ynabApi (snd (YnabApi.createTransaction Events.down [] Run.afterFirst)) =
    ynabApi Run.afterFirst.
Proof.
  destruct (failed_destination_call_keeps_the_caches Scenario.rt Events.down Run.afterFirst
              (snd (YnabApi.createTransaction Events.down [] Run.afterFirst)) Thrown)
    as (H & _).
  - right. right. right. left. exists []. vm_compute; reflexivity.
  - exact H.
Defined.

(** *** The window of a refresh *)

(** X18: a refresh made for a transaction date always covers it: when a
    lookup misses and its listing arrives, the remembered window start is
    the start the listing was queried from, it is not later than the
    transaction date, and it is either that date or the start in force
    before (the remembered one, or four days before now at local midnight
    when none was remembered). *)
Theorem refresh_window_covers_the_transaction_date
    (rt : Runtime) (remote : Remote) (key : string) (date : Js.Date)
    (w w' : World) (o : option ynab.TransactionIds.t) :
  transactionCache w !! key = None ->
  YnabApi.getTransactionFromImportId rt remote key (Some date) w = (Ok o, w') ->
  exists from tok,
    window w' = Some from /\
    Js.date_lt date from = false /\
    (from = date \/
     from = default (ynab.todayOffset rt (clock remote (trace w)) (-4)) (window w)) /\
    issued w w' =
      [YnabFetch "get" "transactions"
         [("since_date", Js.str (toLocaleDateString rt from));
          ("last_knowledge_of_server", Js.num tok)] None].
Proof.
  intros Hmiss Hrun.
  assert (Hhas : ynab.YnabCache.has (ynab.Api.transactions (ynabApi w)) key = false).
  { unfold ynab.YnabCache.has. apply bool_decide_eq_false_2.
    unfold transactionCache in Hmiss. rewrite Hmiss. intros [? [=]]. }
  destruct (getTransactionFromImportId_refresh rt remote _ _ _ _ _ Hhas Hrun)
    as (from & tok & Hsync & Hissued & _ & [[Hw _] | [_ [=]]]).
  exists from, tok. split; [exact Hw|].
  destruct (syncWindow_spec _ _ _ _ _ Hsync)
    as [(d & [= <-] & Hlt & -> & _) | (Hge & -> & _)].
  - repeat split; auto.
    destruct date as [x|]; cbn; [apply Z.ltb_irrefl | reflexivity].
  - repeat split; auto.
Qed.

Lemma refresh_window_covers_the_transaction_date_witness :
  window (snd (YnabApi.getTransactionFromImportId Scenario.rt Listing.ledger "up:t1"
                 (Some (Js.ValidDate 1000)) World_init)) = Some (Js.ValidDate 1000).
Proof.
  destruct (refresh_window_covers_the_transaction_date Scenario.rt Listing.ledger "up:t1"
              (Js.ValidDate 1000) World_init
              (snd (YnabApi.getTransactionFromImportId Scenario.rt Listing.ledger "up:t1"
                      (Some (Js.ValidDate 1000)) World_init))
              (Some (idsOf (Listing.row "second" (Some "up:t1")))))
    as (from & tok & Hw & _).
  - reflexivity.
  - vm_compute; reflexivity.
  - vm_compute; reflexivity.
Defined.

(** *** Pagination of the source ledger *)

Lemma truthy_opt_some o :
  Js.truthy_opt o = true -> exists link, o = Some link /\ Js.truthy link = true.
Proof. destruct o as [link|]; cbn; [eauto | discriminate]. Qed.

Lemma getAllPages_loop_paged remote fuel self pages :
  Js.truthy (up.Api.apiKey self) = true ->
  forall data link w,
    Js.truthy link = true ->
    paged remote (up.Api.apiKey self) (trace w) link pages ->
    (length pages <= fuel)%nat ->
    UpApi.getAllPages_loop remote fuel self data (Some link) w =
      (Ok (data ++ concat (map fst pages)),
       issueAll (pageCalls (up.Api.apiKey self) link pages) w).
Proof.
  intros Hkey. revert fuel.
  induction pages as [|[items next] rest IH]; intros fuel data link w Hlink Hp Hfuel;
    [destruct Hp|].
  destruct fuel as [|fuel]; [cbn in Hfuel; lia|].
  destruct Hp as [Hreply Hrest].
  cbn [UpApi.getAllPages_loop]. rewrite Hlink.
  unfold UpApi.fetchUrl, UpApi.headers. rewrite Hkey. mrun. rewrite Hreply.
  cbn [pageCalls map concat fst]. rewrite <- issueAll_issue.
  destruct rest as [|page rest].
  - destruct next as [link'|]; cbn in Hrest.
    + cbn [UpApi.getAllPages_loop]. destruct fuel; cbn [UpApi.getAllPages_loop];
        rewrite Hrest; cbn; now rewrite !app_nil_r, issueAll_nil.
    + destruct fuel; cbn; now rewrite !app_nil_r, issueAll_nil.
  - destruct Hrest as [Hnext Hpaged].
    destruct (truthy_opt_some _ Hnext) as (link' & -> & Hlink').
    cbn [default] in *.
    rewrite (IH fuel (data ++ items) link' (issue _ w) Hlink' Hpaged)
      by (cbn in Hfuel |- *; lia).
    now rewrite <- app_assoc.
Qed.

(** X19: [getWebhooks] follows the next links to the end: when the source
    ledger serves the listing in pages, each but the last naming the next
    one, the result is the items of all pages in order, one read is issued
    per page, each at the link the page before named, and the loop ends at
    the first page that names no next link (or an empty one). *)
Theorem getWebhooks_reads_every_page
    (remote : Remote) (fuel : nat) (self : up.Api.t) (pages : list Page) (w : World) :
  Js.truthy (up.Api.apiKey self) = true ->
  paged remote (up.Api.apiKey self) (trace w) (up.Api.fullUrl "webhooks") pages ->
  (length pages <= fuel)%nat ->
  UpApi.getWebhooks remote fuel self w =
    (Ok (concat (map fst pages)),
     issueAll (pageCalls (up.Api.apiKey self) (up.Api.fullUrl "webhooks") pages) w).
Proof.
  intros Hkey Hp Hfuel. unfold UpApi.getWebhooks, UpApi.getAllPages.
  assert (Hlink : Js.truthy (up.Api.fullUrl "webhooks") = true) by reflexivity.
  now rewrite (getAllPages_loop_paged remote fuel self pages Hkey [] _ w Hlink Hp Hfuel).
Qed.

Lemma getWebhooks_reads_every_page_witness :
  UpApi.getWebhooks Pages.ledger 2 (upApis Pages.ledger primary) World_init =
    (Ok [Replace.otherWebhook; Scenario.staleWebhook],
     issueAll [UpFetch "token-1" "get" (up.Api.fullUrl "webhooks") None;
               UpFetch "token-1" "get" Pages.second None] World_init).
Proof.
  apply (getWebhooks_reads_every_page Pages.ledger 2 (upApis Pages.ledger primary)
           Pages.pages World_init).
  - reflexivity.
  - repeat split.
  - cbn. lia.
Defined.

(** *** Transfer accounts *)

Lemma up_getAccount_run remote self id w :
  Js.truthy (up.Api.apiKey self) = true ->
  let call := UpFetch (up.Api.apiKey self) "get" (up.Api.fullUrl ("accounts/" +:+ id)) None in
  UpApi.getAccount remote self id w =
    (match respond remote (trace w) call with
     | UpAccountData a => Ok a
     | _ => Stop Thrown
     end, issue call w).
Proof.
  intros Hkey call.
  unfold UpApi.getAccount, UpApi.get, UpApi.fetch, UpApi.fetchUrl, UpApi.headers.
  rewrite Hkey. mrun. fold call. now destruct (respond remote (trace w) call).
Qed.

(** X20: the payee of a transfer.  An account the destination client knows
    (after its lookup) yields its transfer payee id with no further request.
    An unknown one is read from the source ledger through the primary
    connection and, only when that read does not yield an account, through
    the secondary connection; the account read is then provisioned and the
    payee id of the new account returned.  When neither connection yields
    the account the call throws, and nothing is provisioned. *)
Theorem transfer_account_is_read_primary_first
    (remote : Remote) (id : string) (w w1 : World) (known : option ynab.Account.t) :
  Js.truthy (up.Api.apiKey (upApis remote primary)) = true ->
  Js.truthy (up.Api.apiKey (upApis remote secondary)) = true ->
  YnabApi.getAccount remote id w = (Ok known, w1) ->
  let first := accountRead remote primary id in
  let second := accountRead remote secondary id in
  (forall account, known = Some account ->
     getYnabTransferAccountPayeeId remote id w = (Ok (ynab.Account.payeeId account), w1)) /\
  (forall upAccount, known = None ->
     respond remote (trace w1) first = UpAccountData upAccount ->
     getYnabTransferAccountPayeeId remote id w =
       createdPayeeId remote upAccount (issue first w1)) /\
  (forall upAccount, known = None ->
     (forall a, respond remote (trace w1) first <> UpAccountData a) ->
     respond remote (trace w1 ++ [first]) second = UpAccountData upAccount ->
     getYnabTransferAccountPayeeId remote id w =
       createdPayeeId remote upAccount (issueAll [first; second] w1)) /\
  (known = None ->
   (forall a, respond remote (trace w1) first <> UpAccountData a) ->
   (forall a, respond remote (trace w1 ++ [first]) second <> UpAccountData a) ->
   getYnabTransferAccountPayeeId remote id w =
     (Stop Thrown, issueAll [first; second] w1)).
Proof.
  intros Hk1 Hk2 Hlook first second.
  unfold getYnabTransferAccountPayeeId. rewrite bind_run, Hlook.
  split; [|split; [|split]].
  - intros account ->. reflexivity.
  - intros upAccount -> Hreply. rewrite !bind_run. unfold try_catch.
    rewrite (up_getAccount_run remote _ id w1 Hk1). fold (accountRead remote primary id).
    fold first. rewrite Hreply. unfold createdPayeeId. rewrite bind_run. reflexivity.
  - intros upAccount -> Hno Hreply. rewrite !bind_run. unfold try_catch.
    rewrite (up_getAccount_run remote _ id w1 Hk1). fold (accountRead remote primary id).
    fold first.
    destruct (respond remote (trace w1) first) eqn:E; try (exfalso; eapply Hno; reflexivity);
      rewrite (up_getAccount_run remote _ id _ Hk2);
      fold (accountRead remote secondary id); fold second;
      change (trace (issue first w1)) with (trace w1 ++ [first]); rewrite Hreply;
      rewrite (issue_issueAll second), issueAll_issue;
      unfold createdPayeeId; rewrite bind_run; reflexivity.
  - intros -> Hno1 Hno2. rewrite !bind_run. unfold try_catch.
    rewrite (up_getAccount_run remote _ id w1 Hk1). fold (accountRead remote primary id).
    fold first.
    destruct (respond remote (trace w1) first) eqn:E1;
      try (exfalso; eapply Hno1; reflexivity);
      rewrite (up_getAccount_run remote _ id _ Hk2);
      fold (accountRead remote secondary id); fold second;
      change (trace (issue first w1)) with (trace w1 ++ [first]);
      rewrite (issue_issueAll second), issueAll_issue;
      destruct (respond remote (trace w1 ++ [first]) second) eqn:E2;
      try (exfalso; eapply Hno2; reflexivity); reflexivity.
Qed.

Lemma transfer_account_is_read_primary_first_witness :
  getYnabTransferAccountPayeeId Fallback.ledger "a2" World_init =
    createdPayeeId Fallback.ledger (Scenario.account "a2" "INDIVIDUAL")
      (issueAll [accountRead Fallback.ledger primary "a2";
                 accountRead Fallback.ledger secondary "a2"] Fallback.looked) /\
  fst (getYnabTransferAccountPayeeId Fallback.ledger "a2" World_init) = Ok "payee-3".
Proof.
  split; [|vm_compute; reflexivity].
  destruct (transfer_account_is_read_primary_first Fallback.ledger "a2" World_init
              Fallback.looked None) as (_ & _ & H & _).
  - reflexivity.
  - reflexivity.
  - vm_compute; reflexivity.
  - apply H.
    + reflexivity.
    + intros a. vm_compute. discriminate.
    + vm_compute; reflexivity.
Defined.

(** *** The creation request *)

Lemma newTransaction_fields rt remote t a w fields w' :
  newTransaction rt remote t a (importId (up.Transaction.id t)) w = (Ok fields, w') ->
  exists account_id payee_id,
    fields = creationFields rt t account_id payee_id /\
    (is_Some payee_id <-> Js.truthy_opt (up.Transaction.transferAccount t) = true).
Proof.
  unfold newTransaction. rewrite bind_run.
  destruct (YnabApi.getAccount remote _ w) as [[o|e] w1]; [|discriminate].
  rewrite bind_run.
  match goal with
  | |- context [match ?m w1 with _ => _ end] => destruct (m w1) as [[ya|e] w2]
  end; [|discriminate].
  destruct (up.Transaction.transferAccount t) as [ta|]; cbn [Js.truthy_opt].
  - destruct (Js.truthy ta).
    + rewrite bind_run.
      destruct (getYnabTransferAccountPayeeId remote ta w2) as [[p|e] w3]; [|discriminate].
      intros [= <- _]. exists (ynab.Account.id ya), (Some p). split; [reflexivity|].
      split; eauto.
    + intros [= <- _]. exists (ynab.Account.id ya), None.
      split; [unfold creationFields; now rewrite app_nil_r|].
      split; [intros [? [=]] | discriminate].
  - intros [= <- _]. exists (ynab.Account.id ya), None.
    split; [unfold creationFields; now rewrite app_nil_r|].
    split; [intros [? [=]] | discriminate].
Qed.

Lemma filter_noCreation l :
  Forall (fun c => isCreateTransaction c = false) l ->
  List.filter isCreateTransaction l = [].
Proof. induction 1 as [|c l Hc _ IH]; [reflexivity|]. cbn. now rewrite Hc. Qed.

Lemma resolve_creation rt remote t a w r w' :
  resolve rt remote t a w = (r, w') ->
  exists l, trace w' = trace w ++ l /\
    (List.filter isCreateTransaction l = [] \/
     exists account_id payee_id,
       List.filter isCreateTransaction l =
         [createCall (creationFields rt t account_id payee_id)] /\
       (is_Some payee_id <-> Js.truthy_opt (up.Transaction.transferAccount t) = true)).
Proof.
  unfold resolve. rewrite bind_run.
  destruct (YnabApi.getTransactionFromImportId _ _ _ _ w) as [[o|e] w1] eqn:El;
    destruct (noCreation_filter _ _ (lookup_noCreation _ _ _ _ _ _ _ El)) as (l1 & E1 & F1).
  2:{ intros [= <- <-]. exists l1. split; [exact E1 | now left]. }
  destruct o as [ids|].
  - rewrite bind_run. unfold unawaited.
    destruct (updateTransaction_run remote (ynab.TransactionIds.id ids)
                (amountAndCleared t) w1) as [ru Hu].
    rewrite Hu. intros [= <- <-]. eexists. cbn. rewrite E1, <- app_assoc.
    split; [reflexivity|]. left. rewrite List.filter_app, F1. reflexivity.
  - rewrite bind_run.
    destruct (newTransaction rt remote t a _ w1) as [[fields|e] w2] eqn:En;
      destruct (newTransaction_transactionsKept _ _ _ _ _ _ _ _ En) as [[l2 [E2 F2]] _];
      pose proof (filter_noCreation _ F2) as F2'.
    + intros Hc. apply createTransaction_trace in Hc.
      destruct (newTransaction_fields _ _ _ _ _ _ _ En) as (account_id & payee_id & -> & Hp).
      eexists. rewrite Hc, E2, E1, <- !app_assoc. split; [reflexivity|].
      right. exists account_id, payee_id. split; [|exact Hp].
      rewrite !List.filter_app, F1, F2'. reflexivity.
    + intros [= <- <-]. eexists. rewrite E2, E1, <- !app_assoc. split; [reflexivity|].
      left. now rewrite !List.filter_app, F1, F2'.
Qed.

(** X21: what a creation carries.  Every creation of a destination
    transaction that a run of [webhook] issues is for the source
    transaction its guard rules let through, and carries, in this order:
    the amount, which is the product of the base units and 10 as
    JavaScript computes it in doubles, "cleared" or "uncleared" by the
    settlement flag, the destination account id, the creation date in the
    ISO locale, the idempotency key of the source id, the memo, the
    description as payee name, and a payee id exactly when the source
    transaction names a transfer account. *)
Theorem webhook_creation_describes_the_source_transaction
    (rt : Runtime) (remote : Remote) (request : HttpRequest.t) (w w' : World)
    (r : Result HttpResponseInit.t) (c : Call) :
  webhook rt remote request w = (r, w') ->
  In c (issued w w') ->
  isCreateTransaction c = true ->
  exists t a w0 account_id payee_id,
    classify rt remote request w = (Ok (Process t a), w0) /\
    c = createCall (creationFields rt t account_id payee_id) /\
    (is_Some payee_id <-> Js.truthy_opt (up.Transaction.transferAccount t) = true).
Proof.
  intros Hw Hin Hc.
  assert (Hf : In c (List.filter isCreateTransaction (issued w w')))
    by (apply List.filter_In; auto).
  revert Hw Hf. clear Hin Hc. unfold webhook. rewrite bind_run.
  destruct (classify rt remote request w) as [[[resp|t a]|e] w0] eqn:Hcl.
  - intros [= <- <-].
    destruct (upOnly_issued _ _ (classify_upOnly rt remote _ _ _ _ Hcl)) as [_ F].
    rewrite (filter_isCreateTransaction_up _ F). intros [].
  - destruct (classify_upOnly rt remote _ _ _ _ Hcl) as [[l0 [E0 F0]] _].
    rewrite bind_run.
    destruct (resolve rt remote t a w0) as [[ids|e] w1] eqn:Hr;
      destruct (resolve_creation _ _ _ _ _ _ _ Hr) as (l1 & E1 & L1).
    + rewrite bind_run. destruct (propagate_run remote ids t w1) as [rp Hp]. rewrite Hp.
      intros Hw.
      assert (E : trace w' = trace w ++ l0 ++ l1 ++ counterpartUpdates ids t).
      { destruct rp as [[]|]; injection Hw as _ <-; cbn;
          rewrite E1, E0, <- !app_assoc; reflexivity. }
      rewrite (issued_app _ _ _ E), !List.filter_app.
      rewrite (filter_isCreateTransaction_up _ F0),
        filter_isCreateTransaction_counterpartUpdates, app_nil_r. cbn [app].
      destruct L1 as [-> | (account_id & payee_id & -> & Hpayee)]; [intros []|].
      intros [<- | []]. exists t, a, w0, account_id, payee_id. auto.
    + intros [= <- <-].
      assert (E : trace w1 = trace w ++ l0 ++ l1) by now rewrite E1, E0, <- app_assoc.
      rewrite (issued_app _ _ _ E), List.filter_app.
      rewrite (filter_isCreateTransaction_up _ F0). cbn [app].
      destruct L1 as [-> | (account_id & payee_id & -> & Hpayee)]; [intros []|].
      intros [<- | []]. exists t, a, w0, account_id, payee_id. auto.
  - intros [= <- <-].
    destruct (upOnly_issued _ _ (classify_upOnly rt remote _ _ _ _ Hcl)) as [_ F].
    rewrite (filter_isCreateTransaction_up _ F). intros [].
Qed.

Lemma webhook_creation_describes_the_source_transaction_witness :
  exists t a w0 account_id payee_id,
    classify Scenario.rt Run.ledger Run.request World_init = (Ok (Process t a), w0) /\
    Run.creation = createCall (creationFields Scenario.rt t account_id payee_id) /\
    (is_Some payee_id <-> Js.truthy_opt (up.Transaction.transferAccount t) = true).
Proof.
  apply (webhook_creation_describes_the_source_transaction Scenario.rt Run.ledger
           Run.request World_init Run.afterFirst
           (fst (webhook Scenario.rt Run.ledger Run.request World_init))
           Run.creation).
  - vm_compute; reflexivity.
  - vm_compute. tauto.
  - reflexivity.
Defined.

(** *** Idempotency keys of distinct transactions *)

Lemma stripDashes_length s :
  (String.length (stripDashes s) + dashes s = String.length s)%nat.
Proof.
  induction s as [|c s IH]; [reflexivity|]. cbn.
  destruct (Ascii.eqb c "-"); cbn; lia.
Qed.

Lemma stripDashes_sameLayout a b :
  sameLayout a b = true -> stripDashes a = stripDashes b -> a = b.
Proof.
  revert b. induction a as [|x a IH]; intros [|y b]; cbn; try discriminate; [reflexivity|].
  intros H. apply andb_prop in H as [Hd Hl]. apply Bool.eqb_prop in Hd.
  destruct (Ascii.eqb x "-") eqn:Ex; rewrite <- Hd.
  - apply Ascii.eqb_eq in Ex. symmetry in Hd. apply Ascii.eqb_eq in Hd.
    intros Hs. rewrite (IH b Hl Hs). congruence.
  - intros [= -> Hs]. now rewrite (IH b Hl Hs).
Qed.

Lemma sameLayout_dashes a b :
  sameLayout a b = true -> String.length a = String.length b /\ dashes a = dashes b.
Proof.
  revert b. induction a as [|x a IH]; intros [|y b]; cbn; try discriminate; [auto|].
  intros H. apply andb_prop in H as [Hd Hl]. apply Bool.eqb_prop in Hd.
  destruct (IH b Hl) as [-> ->]. now rewrite Hd.
Qed.

(** X22: the idempotency key tells source transactions apart.  For two
    source ids of the same layout (same length, dashes at the same
    positions, as two UUIDs) the keys are equal only when the ids are; the
    keys then have the same length, which is the length of the id plus
    three for the prefix minus its dashes.  Dashes alone never tell two ids
    apart: an id and the same id without its dashes share their key. *)
Theorem importId_separates_ids_of_the_same_layout (a b : string) :
  sameLayout a b = true ->
  (importId a = importId b <-> a = b) /\
  String.length (importId a) = String.length (importId b) /\
  (String.length (importId a) + dashes a = 3 + String.length a)%nat /\
  importId (stripDashes a) = importId a.
Proof.
  intros Hl.
  assert (Hlen : forall s, (String.length (importId s) + dashes s = 3 + String.length s)%nat).
  { intros s. unfold importId. rewrite replaceAll_dash.
    change (String.length ("up:" +:+ stripDashes s))
      with (S (S (S (String.length (stripDashes s))))).
    pose proof (stripDashes_length s). lia. }
  destruct (sameLayout_dashes _ _ Hl) as [Hn Hd].
  split; [|split; [|split]].
  - split; [|now intros ->].
    unfold importId. rewrite !replaceAll_dash. intros [= H].
    now apply stripDashes_sameLayout.
  - pose proof (Hlen a). pose proof (Hlen b). lia.
  - apply Hlen.
  - unfold importId. rewrite !replaceAll_dash. f_equal.
    clear. induction a as [|c s IH]; [reflexivity|]. cbn.
    destruct (Ascii.eqb c "-") eqn:E; [exact IH|]. cbn. now rewrite E, IH.
Qed.

Lemma importId_separates_ids_of_the_same_layout_witness :
  importId Listing.uuid <> importId "0123abcd-0123-4abc-8def-0123456789ac" /\
  String.length (importId Listing.uuid) = 35%nat.
Proof.
  destruct (importId_separates_ids_of_the_same_layout Listing.uuid
              "0123abcd-0123-4abc-8def-0123456789ac") as (Hiff & _ & Hlen & _).
  - reflexivity.
  - split.
    + intros H. apply Hiff in H. discriminate H.
    + cbn in Hlen. lia.
Defined.

(** *** The payload of an update *)

Lemma get_absent k (o : Js.object) : ~ In k (map fst o) -> Js.get k o = Js.undefined.
Proof.
  induction o as [|[k' v] o IH]; [reflexivity|]. cbn. intros H.
  destruct (String.eqb k k') eqn:E.
  - apply String.eqb_eq in E. subst. tauto.
  - apply IH. tauto.
Qed.

Lemma removeEmptyProperties_keys k o :
  In k (map fst (ynab.removeEmptyProperties o)) -> In k (map fst o).
Proof.
  unfold ynab.removeEmptyProperties. rewrite !in_map_iff.
  intros (kv & <- & H). apply List.filter_In in H as [H _]. eauto.
Qed.

Lemma removeEmptyProperties_get k o :
  NoDup (map fst o) ->
  Js.get k (ynab.removeEmptyProperties o) =
    if Js.nonEmpty (Js.get k o) then Js.get k o else Js.undefined.
Proof.
  induction o as [|[k' v] o IH]; [reflexivity|].
  cbn [map fst]. intros Hnd. apply NoDup_cons in Hnd as [Hk Hnd].
  cbn [ynab.removeEmptyProperties List.filter snd Js.get].
  destruct (String.eqb k k') eqn:E.
  - apply String.eqb_eq in E. subst k'.
    destruct (Js.nonEmpty v) eqn:Ev.
    + cbn [Js.get]. now rewrite String.eqb_refl.
    + apply get_absent. intros Hin. apply Hk.
      apply list_elem_of_In. now apply removeEmptyProperties_keys.
  - destruct (Js.nonEmpty v) eqn:Ev.
    + cbn [Js.get]. rewrite E. now apply IH.
    + now apply IH.
Qed.

(** X23: an update never sends an empty field.  [updateTransaction] issues
    exactly one request, the update of the named transaction, whose
    transaction object reads, at every key, what the given object reads
    there when that is neither null, undefined nor the empty string, and
    nothing otherwise; cleaning the sent object again changes nothing; and
    the caches are never touched.  The call succeeds unless the request
    fails. *)
Theorem update_sends_exactly_the_non_empty_fields
    (remote : Remote) (id : string) (transaction : ynab.Transaction)
    (w w' : World) (r : Result unit) :
  NoDup (map fst transaction) ->
  YnabApi.updateTransaction remote id transaction w = (r, w') ->
  exists fields,
    issued w w' = [updateCall id fields] /\
    (forall k, Js.get k fields =
               if Js.nonEmpty (Js.get k transaction) then Js.get k transaction
               else Js.undefined) /\
    Forall (fun kv => Js.nonEmpty (snd kv) = true) fields /\
    ynab.removeEmptyProperties fields = fields /\
    ynabApi w' = ynabApi w /\
    (r = Ok tt <-> respond remote (trace w) (updateCall id fields) <> Failed).
Proof.
  intros Hnd Hrun. exists (ynab.removeEmptyProperties transaction).
  assert (Hall : Forall (fun kv => Js.nonEmpty (snd kv) = true)
                   (ynab.removeEmptyProperties transaction)).
  { apply List.Forall_forall. intros kv H. now apply List.filter_In in H as [_ H]. }
  revert Hrun. unfold YnabApi.updateTransaction, YnabApi.put, YnabApi.fetch. mrun.
  fold (updateCall id (ynab.removeEmptyProperties transaction)).
  set (call := updateCall id (ynab.removeEmptyProperties transaction)).
  intros Hrun.
  assert (Hw : w' = issue call w /\
               (r = Ok tt <-> respond remote (trace w) call <> Failed)).
  { revert Hrun. destruct (respond remote (trace w) call); mrun; intros [= <- <-];
      (split; [reflexivity|]); split; congruence. }
  destruct Hw as [-> Hr].
  split; [now apply issued_app|]. split; [intros k; now apply removeEmptyProperties_get|].
  split; [exact Hall|]. split; [|split; [reflexivity | exact Hr]].
  unfold ynab.removeEmptyProperties. clear.
  induction transaction as [|[k v] o IH]; [reflexivity|]. cbn.
  destruct (Js.nonEmpty v) eqn:E; [|exact IH]. cbn. now rewrite E, IH.
Qed.

Lemma update_sends_exactly_the_non_empty_fields_witness :
  issued Run.afterFirst
    (snd (YnabApi.updateTransaction Run.ledger "transaction-5"
            [("amount", Js.num 10); ("memo", Js.str ""); ("payee_id", Js.null)]
            Run.afterFirst)) =
  [updateCall "transaction-5" [("amount", Js.num 10)]].
Proof.
  destruct (update_sends_exactly_the_non_empty_fields Run.ledger "transaction-5"
              [("amount", Js.num 10); ("memo", Js.str ""); ("payee_id", Js.null)]
              Run.afterFirst
              (snd (YnabApi.updateTransaction Run.ledger "transaction-5"
                      [("amount", Js.num 10); ("memo", Js.str ""); ("payee_id", Js.null)]
                      Run.afterFirst))
              (fst (YnabApi.updateTransaction Run.ledger "transaction-5"
                      [("amount", Js.num 10); ("memo", Js.str ""); ("payee_id", Js.null)]
                      Run.afterFirst)))
    as (fields & _).
  - apply (bool_decide_unpack _). vm_compute. exact I.
  - vm_compute; reflexivity.
  - vm_compute; reflexivity.
Defined.

(** ** Idempotent redelivery, the two deliveries (C1) *)







(** The identity is the same only for the same source id: when the source
    ledger names the transaction of the event differently on the second
    delivery, the second delivery computes another key and creates a second
    destination transaction, even with a destination ledger that echoes
    import ids. *)
Lemma redelivery_creates_twice_when_renamed :
  webhook Scenario.rt Relisting.renaming Run.request World_init =
    (Ok {| HttpResponseInit.status := 200; HttpResponseInit.body := Some "" |},
     Relisting.afterFirstRenamed) /\
  webhook Scenario.rt Relisting.renaming Run.request Relisting.afterFirstRenamed =
    (Ok {| HttpResponseInit.status := 200; HttpResponseInit.body := Some "" |},
     Relisting.afterSecondRenamed) /\
  transactionCache Relisting.afterFirstRenamed !! importId "t1" = Some Run.coffeeIds /\
  length (List.filter isCreateTransaction (issued World_init Relisting.afterFirstRenamed))
    = 1%nat /\
  length (List.filter isCreateTransaction
            (issued Relisting.afterFirstRenamed Relisting.afterSecondRenamed)) = 1%nat.
Proof. repeat split; vm_compute; reflexivity. Qed.
